(** * WhatsApp <-> Discord bridge: the correlation engine

    A shallow embedding of the three variants of the bridge that the
    repository contains, and the properties of the correlation engine
    checked against them:

    - [Batch]  src/server.js, lines 1-621: replies are collected and flushed
      when the window closes; the trigger character is stripped;
    - [Live]   src/server.js, lines 623-1482: replies are relayed at once;
      the trigger character is kept and the message is labelled;
    - [Raw]    src/unnamed/part_000: replies are collected and flushed; the
      trigger character is kept and the body is passed through.

    Modelling decisions, common to the three variants:

    - a JavaScript string is the list of its UTF-16 code units;
    - [activeMessages], a JavaScript [Map], is an association list in
      insertion order; the scratch directory is a finite map from paths to
      contents;
    - a handler is a function on a [World] in a monad of state and
      exceptions; the state written before a [throw] is kept, as in
      JavaScript;
    - a handler runs to completion: what other handlers do while one is
      suspended at an [await] is not modelled, so a statement about two
      events is about handlers that do not overlap;
    - [Date.now()] reads the [clock] of the world, in milliseconds, which
      only the 1 s pauses of the flush move while a handler runs;
    - the outcome of every call to a platform client ([channels.fetch],
      [channel.send], [downloadMedia], [axios.get], [chat.sendMessage]) is
      read from an [Env], indexed by the number of calls made so far, so
      that any pattern of failures can be written down; every such call is
      recorded in the [trace] with its outcome;
    - [message.getChat()] and [message.getContact()] resolve or reject, as
      the event says; [fs.writeFileSync] succeeds or throws, as the [Env]
      says; the other file operations fail only on a missing path;
    - [path.join] and the decoding of a file as UTF-8 are functions of the
      [Env], like the decoding of base64: library code that is taken as a
      parameter;
    - only [console.error] is an event of the [trace]: the lines that
      [console.log] prints are left out, and the properties below speak of
      errors logged, never of the log as a whole. *)

From Stdlib Require Import ZArith NArith List Lia Bool Ascii String DecimalString.
From Stdlib Require DecimalZ DecimalPos.
From stdpp Require Import base option list gmap.

Local Open Scope Z_scope.

(** ** JavaScript strings *)

Abbreviation str := (list N).

Module JS.

(** A literal of the source, as code units. *)
Definition u (s : string) : str := map N_of_ascii (list_ascii_of_string s).

(** [`${z}`] for an integral number. *)
Definition show (z : Z) : str := u (NilZero.string_of_int (Z.to_int z)).

(** WhiteSpace and LineTerminator of ECMAScript, what [trim] removes. *)
Definition isWhiteSpace (c : N) : bool :=
  ((9 <=? c) && (c <=? 13) || (c =? 32) || (c =? 160) || (c =? 5760)
   || (8192 <=? c) && (c <=? 8202) || (c =? 8232) || (c =? 8233)
   || (c =? 8239) || (c =? 8287) || (c =? 12288) || (c =? 65279))%N.

Fixpoint trimStart (s : str) : str :=
  match s with
  | c :: s' => if isWhiteSpace c then trimStart s' else s
  | [] => []
  end.

Definition trimEnd (s : str) : str := rev (trimStart (rev s)).

Definition trim (s : str) : str := trimEnd (trimStart s).

Fixpoint startsWith (s p : str) : bool :=
  match p, s with
  | [], _ => true
  | _ :: _, [] => false
  | c :: p', d :: s' => (c =? d)%N && startsWith s' p'
  end.

Definition endsWith (s p : str) : bool := startsWith (rev s) (rev p).

(** [s.substring(n)] *)
Definition substring (s : str) (n : nat) : str := drop n s.

(** [toLowerCase] on the letters A-Z; the other code units that
    JavaScript maps never become one of [.], [t], [x]. *)
Definition toLowerCase (s : str) : str :=
  map (fun c => if (65 <=? c) && (c <=? 90) then c + 32 else c)%N s.

(** Truthiness of a string: the empty string is falsy. *)
Definition truthy (s : str) : bool :=
  match s with [] => false | _ :: _ => true end.

(** [a || b] where [a] may be [undefined]. *)
Definition or (a : option str) (b : str) : str :=
  match a with
  | Some s => if truthy s then s else b
  | None => b
  end.

(** [a || b] where both may be [undefined]. *)
Definition or_undef (a b : option str) : option str :=
  match a with
  | Some s => if truthy s then a else b
  | None => b
  end.

End JS.

Import JS.

Arguments u : simpl never.
Arguments show : simpl never.
Arguments trim : simpl never.
Arguments substring : simpl never.
Arguments startsWith : simpl never.
Arguments endsWith : simpl never.
Arguments toLowerCase : simpl never.

(** ** The objects of the two platforms *)

Module Chat.
Record t := mk { id_serialized : str; isGroup : bool; name : str }.
End Chat.

Module Contact.
Record t := mk { name : option str; pushname : option str }.
End Contact.

Module Media.
Record t := mk { data : str; filename : option str }.
End Media.

(** An inbound event of platform A. [getChat] and [getContact] are what the
    promises of the calls of the same name settle to: [Some] when they
    resolve, [None] when they reject. *)
Module WaMessage.
Record t := mk {
  body : str;
  from : str;
  author : option str;
  hasMedia : bool;
  getChat : option Chat.t;
  getContact : option Contact.t }.
End WaMessage.

(** An attachment of an inbound event of platform B. *)
Module Attachment.
Record t := mk { url : str; name : str; contentType : str }.
End Attachment.

Module Author.
Record t := mk { id : str; username : str; bot : bool }.
End Author.

Module DiscordMessage.
Record t := mk {
  content : str;
  author : Author.t;
  channel_id : str;
  attachments : list Attachment.t }.
End DiscordMessage.

(** The descriptor [{name, path, contentType}] of a downloaded attachment. *)
Module Descriptor.
Record t := mk { name : str; path : str; contentType : str }.
End Descriptor.

(** A collected reply. *)
Module Response.
Record t := mk {
  content : str;
  author : str;
  attachments : list Descriptor.t;
  timestamp : Z }.
End Response.

(** What [chat.sendMessage] is given: a text, or a [MessageMedia] read from
    a file, with its caption. *)
Inductive WaPayload :=
| Text (s : str)
| MediaFile (filePath : str) (fileData : str) (caption : option str).

Inductive FetchResult := Channel | Null | FetchRejected.

(** A call to a platform client, with its outcome. *)
Inductive Event :=
| ChannelsFetch (channelId : str) (r : FetchResult)
| ChannelSend (content : str) (files : list str) (ok : bool)
| DownloadMedia (ok : bool)
| AxiosGet (url : str) (ok : bool)
| SendMessage (chat : Chat.t) (p : WaPayload) (ok : bool)
| ConsoleError (msg : str).

(** The callbacks given to [setTimeout]. *)
Inductive Callback :=
| UnlinkIfExists (filePath : str)
| ProcessCollectedResponses (bridgeId : str)
| CleanupBridgeSession (bridgeId : str).

(** [CONFIG], with [uploadsDir]. [messageTimeout] is in milliseconds. *)
Record Config := mkConfig {
  discordChannelId : str;
  messageTimeout : Z;
  triggerChar : str;
  uploadsDir : str }.

(** The outcomes of the calls to the outside, by the number of calls made
    before. [random n] is [Math.random().toString(36).substr(2, 9)];
    [writes n path] tells whether [fs.writeFileSync(path, ...)] succeeds.
    The last three are library functions: [Buffer.from(data, 'base64')],
    the text that [fs.readFileSync(path, 'utf8')] makes of the bytes of a
    file, and [path.join(dir, name)]. *)
Record Env := mkEnv {
  fetch : nat -> str -> FetchResult;
  send : nat -> str -> list str -> bool;
  download : nat -> WaMessage.t -> option (option Media.t);
  axios : nat -> str -> option str;
  deliver : nat -> Chat.t -> WaPayload -> bool;
  random : nat -> str;
  writes : nat -> str -> bool;
  base64 : str -> str;
  utf8 : str -> str;
  path_join : str -> str -> str }.

(** ** The world and the monad *)

Record World (R : Type) := mkWorld {
  activeMessages : list (str * R);
  files : gmap str str;
  timers : list (Z * Callback);
  trace : list Event;
  tick : nat;
  clock : Z }.

Arguments mkWorld {R}.
Arguments activeMessages {R}.
Arguments files {R}.
Arguments timers {R}.
Arguments trace {R}.
Arguments tick {R}.
Arguments clock {R}.

Inductive Completion (A : Type) :=
| Normal (a : A)
| Thrown (e : str).

Arguments Normal {A}.
Arguments Thrown {A}.

Definition M (R A : Type) : Type := World R -> Completion A * World R.

Section Monad.
Context {R : Type}.

Definition ret {A} (a : A) : M R A := fun w => (Normal a, w).

Definition bind {A B} (m : M R A) (k : A -> M R B) : M R B :=
  fun w =>
    match m w with
    | (Normal a, w') => k a w'
    | (Thrown e, w') => (Thrown e, w')
    end.

Definition throw {A} (e : str) : M R A := fun w => (Thrown e, w).

(** [await p] for a promise that has resolved ([Some]) or rejected
    ([None]). *)
Definition await {A} (p : option A) : M R A :=
  match p with
  | Some a => ret a
  | None => throw (u "rejected")
  end.

(** [try { body } catch (error) { handler }] *)
Definition try_catch {A} (body : M R A) (handler : str -> M R A) : M R A :=
  fun w =>
    match body w with
    | (Normal a, w') => (Normal a, w')
    | (Thrown e, w') => handler e w'
    end.

(** [try { body } finally { fin }] *)
Definition try_finally {A} (body : M R A) (fin : M R unit) : M R A :=
  fun w =>
    match body w with
    | (c, w') =>
        match fin w' with
        | (Normal _, w'') => (c, w'')
        | (Thrown e, w'') => (Thrown e, w'')
        end
    end.

(** The world a handler leaves. *)
Definition exec {A} (m : M R A) (w : World R) : World R := snd (m w).

Definition modify (f : World R -> World R) : M R unit :=
  fun w => (Normal tt, f w).

End Monad.

Declare Scope js_scope.
Delimit Scope js_scope with js.
Notation "'let*' x := m 'in' k" := (bind m (fun x => k))
  (at level 10, x name, m at level 100, k at level 200) : js_scope.
Notation "m ;; k" := (bind m (fun _ => k))
  (at level 100, k at level 200, right associativity) : js_scope.
Local Open Scope js_scope.

(** ** The store: a JavaScript [Map] keyed by bridge id *)

Section Store.
Context {R : Type}.

Fixpoint Map_get (k : str) (m : list (str * R)) : option R :=
  match m with
  | [] => None
  | (k', v) :: m' => if decide (k' = k) then Some v else Map_get k m'
  end.

(** [set] keeps the position of a key that is present and appends a new
    one. *)
Fixpoint Map_set (k : str) (v : R) (m : list (str * R)) : list (str * R) :=
  match m with
  | [] => [(k, v)]
  | (k', v') :: m' =>
      if decide (k' = k) then (k, v) :: m' else (k', v') :: Map_set k v m'
  end.

Definition Map_delete (k : str) (m : list (str * R)) : list (str * R) :=
  filter (fun kv => fst kv <> k) m.

(** A mutation of the object stored under [k], in place. *)
Fixpoint Map_alter (f : R -> R) (k : str) (m : list (str * R)) : list (str * R) :=
  match m with
  | [] => []
  | (k', v) :: m' =>
      if decide (k' = k) then (k', f v) :: m' else (k', v) :: Map_alter f k m'
  end.

Definition keys (m : list (str * R)) : list str := map fst m.

End Store.

(** ** The primitives the handlers use *)

Section Primitives.
Context {R : Type}.
Variable env : Env.

Definition set_activeMessages (m : list (str * R)) (w : World R) : World R :=
  mkWorld m (files w) (timers w) (trace w) (tick w) (clock w).

Definition set_files (f : gmap str str) (w : World R) : World R :=
  mkWorld (activeMessages w) f (timers w) (trace w) (tick w) (clock w).

Definition set_timers (t : list (Z * Callback)) (w : World R) : World R :=
  mkWorld (activeMessages w) (files w) t (trace w) (tick w) (clock w).

Definition set_clock (c : Z) (w : World R) : World R :=
  mkWorld (activeMessages w) (files w) (timers w) (trace w) (tick w) c.

(** One call to the outside: recorded, and counted. *)
Definition record (e : Event) (w : World R) : World R :=
  mkWorld (activeMessages w) (files w) (timers w) (trace w ++ [e]) (S (tick w)) (clock w).

Definition Date_now : M R Z := fun w => (Normal (clock w), w).

Definition Math_random : M R str :=
  fun w => (Normal (random env (tick w)),
            mkWorld (activeMessages w) (files w) (timers w) (trace w) (S (tick w)) (clock w)).

Definition console_error (msg : str) : M R unit :=
  fun w => (Normal tt,
            mkWorld (activeMessages w) (files w) (timers w)
                    (trace w ++ [ConsoleError msg]) (tick w) (clock w)).

(** [setTimeout(cb, delay)]: the callback is due at [clock + delay]. *)
Definition setTimeout (cb : Callback) (delay : Z) : M R unit :=
  modify (fun w => set_timers (timers w ++ [(clock w + delay, cb)]) w).

(** [await new Promise(resolve => setTimeout(resolve, delay))] *)
Definition sleep (delay : Z) : M R unit :=
  modify (fun w => set_clock (clock w + delay) w).

(** [discordClient.channels.fetch(id)]: [true] for a channel, [false] for
    [null]. *)
Definition channels_fetch (channelId : str) : M R bool :=
  fun w =>
    let r := fetch env (tick w) channelId in
    let w' := record (ChannelsFetch channelId r) w in
    match r with
    | Channel => (Normal true, w')
    | Null => (Normal false, w')
    | FetchRejected => (Thrown (u "fetch"), w')
    end.

(** [discordChannel.send(...)] *)
Definition channel_send (content : str) (attached : list str) : M R unit :=
  fun w =>
    let ok := send env (tick w) content attached in
    let w' := record (ChannelSend content attached ok) w in
    if ok then (Normal tt, w') else (Thrown (u "send"), w').

(** [message.downloadMedia()] *)
Definition downloadMedia (message : WaMessage.t) : M R (option Media.t) :=
  fun w =>
    match download env (tick w) message with
    | Some media => (Normal media, record (DownloadMedia true) w)
    | None => (Thrown (u "downloadMedia"), record (DownloadMedia false) w)
    end.

(** [axios.get(url, { responseType: 'arraybuffer' })] *)
Definition axios_get (url : str) : M R str :=
  fun w =>
    match axios env (tick w) url with
    | Some bytes => (Normal bytes, record (AxiosGet url true) w)
    | None => (Thrown (u "axios"), record (AxiosGet url false) w)
    end.

(** [chat.sendMessage(...)] *)
Definition sendMessage (chat : Chat.t) (p : WaPayload) : M R unit :=
  fun w =>
    let ok := deliver env (tick w) chat p in
    let w' := record (SendMessage chat p ok) w in
    if ok then (Normal tt, w') else (Thrown (u "sendMessage"), w').

Definition existsSync (filePath : str) : M R bool :=
  fun w => (Normal (bool_decide (is_Some (files w !! filePath))), w).

(** [fs.writeFileSync(filePath, bytes)]: it throws when the directory of
    the path is missing or the disk refuses, which the [Env] tells. *)
Definition writeFileSync (filePath : str) (bytes : str) : M R unit :=
  fun w =>
    if writes env (tick w) filePath
    then (Normal tt, set_files (<[filePath := bytes]> (files w)) w)
    else (Thrown (u "ENOENT"), w).

(** [fs.readFileSync(filePath, 'utf8')]: the bytes of the file, decoded. *)
Definition readFileSync (filePath : str) : M R str :=
  fun w =>
    match files w !! filePath with
    | Some bytes => (Normal (utf8 env bytes), w)
    | None => (Thrown (u "ENOENT"), w)
    end.

Definition unlinkSync (filePath : str) : M R unit :=
  fun w =>
    match files w !! filePath with
    | Some _ => (Normal tt, set_files (delete filePath (files w)) w)
    | None => (Thrown (u "ENOENT"), w)
    end.

(** [MessageMedia.fromFilePath(path)] reads the bytes of the file. *)
Definition fromFilePath (filePath : str) (caption : option str) : M R WaPayload :=
  fun w =>
    match files w !! filePath with
    | Some bytes => (Normal (MediaFile filePath bytes caption), w)
    | None => (Thrown (u "ENOENT"), w)
    end.

Definition activeMessages_get (bridgeId : str) : M R (option R) :=
  fun w => (Normal (Map_get bridgeId (activeMessages w)), w).

Definition activeMessages_set (bridgeId : str) (v : R) : M R unit :=
  modify (fun w => set_activeMessages (Map_set bridgeId v (activeMessages w)) w).

Definition activeMessages_delete (bridgeId : str) : M R unit :=
  modify (fun w => set_activeMessages (Map_delete bridgeId (activeMessages w)) w).

Definition activeMessages_entries : M R (list (str * R)) :=
  fun w => (Normal (activeMessages w), w).

(** [for (const x of xs) { body }] *)
Fixpoint for_of {A} (xs : list A) (body : A -> M R unit) : M R unit :=
  match xs with
  | [] => ret tt
  | x :: xs' => body x ;; for_of xs' body
  end.

(** The callback of the 5 s timer of the inbound relay. *)
Definition unlinkIfExists (filePath : str) : M R unit :=
  let* there := existsSync filePath in
  if there then unlinkSync filePath else ret tt.

(** The sweep that [setInterval] runs every hour. *)
Definition sweep (timestamp : R -> Z) : M R unit :=
  let* now := Date_now in
  let* entries := activeMessages_entries in
  for_of entries (fun '(bridgeId, bridgeData) =>
    if decide (now - timestamp bridgeData > 60 * 60 * 1000)
    then activeMessages_delete bridgeId
    else ret tt).

End Primitives.

(** ** The batch variant of src/server.js (lines 1-621) *)

Module BridgeData.
Record t := mk {
  whatsappChatId : str;
  whatsappChat : Chat.t;
  originalMessage : WaMessage.t;
  timestamp : Z;
  responses : list Response.t }.

(** [bridgeData.responses.push(response)] *)
Definition push (response : Response.t) (bridgeData : t) : t :=
  mk (whatsappChatId bridgeData) (whatsappChat bridgeData)
     (originalMessage bridgeData) (timestamp bridgeData)
     (responses bridgeData ++ [response]).
End BridgeData.

(** The code the two batch variants share word for word. *)
Section BatchCommon.
Variable CONFIG : Config.
Variable env : Env.

Abbreviation W := (World BridgeData.t).

(** The body of [for (const attachment of message.attachments.values())]
    in [handleDiscordMessage]: server.js 312-332, part_000 363-383. The
    descriptors pushed so far are threaded through. *)
Definition downloadAttachment (bridgeId : str) (attachment : Attachment.t)
    (pushed : list Descriptor.t) : M BridgeData.t (list Descriptor.t) :=
  try_catch
    (let* response_download := axios_get env (Attachment.url attachment) in
     let fileName := bridgeId ++ u "_" ++ Attachment.name attachment in
     let filePath := path_join env (uploadsDir CONFIG) fileName in
     writeFileSync env filePath response_download ;;
     ret (pushed ++ [Descriptor.mk (Attachment.name attachment) filePath
                                   (Attachment.contentType attachment)]))
    (fun error =>
       console_error (u "Error downloading Discord attachment:") ;;
       ret pushed).

Fixpoint downloadAttachments (bridgeId : str) (attachments : list Attachment.t)
    (pushed : list Descriptor.t) : M BridgeData.t (list Descriptor.t) :=
  match attachments with
  | [] => ret pushed
  | attachment :: rest =>
      let* pushed' := downloadAttachment bridgeId attachment pushed in
      downloadAttachments bridgeId rest pushed'
  end.

(** The loop over [activeMessages.entries()] of [handleDiscordMessage]:
    server.js 298-338, part_000 349-389. It stops at the first entry that
    passes the window test. *)
Fixpoint collectResponse (message : DiscordMessage.t)
    (entries : list (str * BridgeData.t)) : M BridgeData.t unit :=
  match entries with
  | [] => ret tt
  | (bridgeId, bridgeData) :: rest =>
      let* now := Date_now in
      let timeDiff := now - BridgeData.timestamp bridgeData in
      if decide (timeDiff <= messageTimeout CONFIG) then
        let* now' := Date_now in
        let* attachments :=
          downloadAttachments bridgeId (DiscordMessage.attachments message) [] in
        let response :=
          Response.mk (DiscordMessage.content message)
                      (Author.username (DiscordMessage.author message))
                      attachments now' in
        modify (fun w =>
          set_activeMessages
            (Map_alter (BridgeData.push response) bridgeId (activeMessages w)) w)
      else collectResponse message rest
  end.

End BatchCommon.

Module Batch.
Section Batch.
Variable CONFIG : Config.
Variable env : Env.

(** server.js 241, the text that goes to the channel *)
Definition formatMessage (contact : Contact.t) (content bridgeId : str) : str :=
  u "**From WhatsApp** ("
  ++ or (or_undef (Contact.name contact) (Contact.pushname contact)) (u "Unknown")
  ++ u "):" ++ [10%N] ++ content ++ [10%N; 10%N]
  ++ u "*Bridge ID: " ++ bridgeId ++ u "*".

(** server.js 232-284, the forward to the channel and its [catch] *)
Definition forward (message : WaMessage.t) (contact : Contact.t)
    (content bridgeId : str) : M BridgeData.t unit :=
  try_catch
    (let* discordChannel := channels_fetch env (discordChannelId CONFIG) in
     if negb discordChannel then console_error (u "Discord channel not found")
     else
       let discordMessage := formatMessage contact content bridgeId in
       (if WaMessage.hasMedia message then
          let* media := downloadMedia env message in
          match media with
          | Some media =>
              let fileName :=
                bridgeId ++ u "_" ++ or (Media.filename media) (u "media") in
              let filePath := path_join env (uploadsDir CONFIG) fileName in
              let buffer := base64 env (Media.data media) in
              writeFileSync env filePath buffer ;;
              channel_send env discordMessage [filePath] ;;
              setTimeout (UnlinkIfExists filePath) 5000
          | None => ret tt
          end
        else channel_send env discordMessage []) ;;
       setTimeout (ProcessCollectedResponses bridgeId) (messageTimeout CONFIG))
    (fun error =>
       console_error (u "Error bridging message to Discord:") ;;
       activeMessages_delete bridgeId).

(** server.js 199-285 *)
Definition handleWhatsAppMessage (message : WaMessage.t) : M BridgeData.t unit :=
  if negb (startsWith (WaMessage.body message) (triggerChar CONFIG)) then ret tt
  else if decide (WaMessage.from message = u "status@broadcast") then ret tt
  else
    let content := trim (substring (WaMessage.body message) 1) in
    if negb (truthy content) then ret tt
    else
      let* chat := await (WaMessage.getChat message) in
      let* contact := await (WaMessage.getContact message) in
      let* now := Date_now in
      let* rnd := Math_random env in
      let bridgeId := show now ++ u "_" ++ rnd in
      let* now' := Date_now in
      activeMessages_set bridgeId
        (BridgeData.mk (WaMessage.from message) chat message now' []) ;;
      forward message contact content bridgeId.

(** server.js 142-148, the listener of ['message'] *)
Definition onMessage (message : WaMessage.t) : M BridgeData.t unit :=
  try_catch (handleWhatsAppMessage message)
    (fun error => console_error (u "Error handling WhatsApp message:")).

(** server.js 288-339 *)
Definition handleDiscordMessage (message : DiscordMessage.t) : M BridgeData.t unit :=
  if Author.bot (DiscordMessage.author message) then ret tt
  else if decide (DiscordMessage.channel_id message <> discordChannelId CONFIG)
  then ret tt
  else
    let* entries := activeMessages_entries in
    collectResponse CONFIG env message entries.

(** server.js 181-187, the listener of ['messageCreate'] *)
Definition onMessageCreate (message : DiscordMessage.t) : M BridgeData.t unit :=
  try_catch (handleDiscordMessage message)
    (fun error => console_error (u "Error handling Discord message:")).

(** [U+23F0 *Keine Antworten in 2 Minuten erhalten.*] *)
Definition noResponse : str :=
  [9200%N] ++ u " *Keine Antworten in 2 Minuten erhalten.*".

(** [U+274C Fehler beim Senden der Datei: name] *)
Definition sendFailed (name : str) : str :=
  [10060%N] ++ u " Fehler beim Senden der Datei: " ++ name.

(** [U+2705 *n Antwort(en) von Discord weitergeleitet.*] *)
Definition summary (n : nat) : str :=
  [9989%N] ++ u " *" ++ show (Z.of_nat n) ++ u " Antwort(en) von Discord weitergeleitet.*".

(** [U+1F4CE name (von author)] *)
Definition caption (name author : str) : str :=
  [55357%N; 56526%N] ++ u " " ++ name ++ u " (von " ++ author ++ u ")".

(** server.js 365-380, the body of the loop over [response.attachments] *)
Definition sendAttachment (chat : Chat.t) (response : Response.t)
    (attachment : Descriptor.t) : M BridgeData.t unit :=
  try_catch
    (let* there := existsSync (Descriptor.path attachment) in
     if there then
       let* media :=
         fromFilePath (Descriptor.path attachment)
           (Some (caption (Descriptor.name attachment) (Response.author response))) in
       sendMessage env chat media ;;
       unlinkSync (Descriptor.path attachment)
     else ret tt)
    (fun error =>
       console_error (u "Error sending attachment to WhatsApp:") ;;
       sendMessage env chat (Text (sendFailed (Descriptor.name attachment)))).

(** server.js 357 *)
Definition messageText (response : Response.t) : str :=
  u "**" ++ Response.author response ++ u "**: " ++ Response.content response.

(** server.js 356-384, the body of the loop over [bridgeData.responses] *)
Definition sendResponse (chat : Chat.t) (response : Response.t) : M BridgeData.t unit :=
  (if truthy (trim (Response.content response))
   then sendMessage env chat (Text (messageText response))
   else ret tt) ;;
  for_of (Response.attachments response) (sendAttachment chat response) ;;
  sleep 1000.

(** server.js 342-394 *)
Definition processCollectedResponses (bridgeId : str) : M BridgeData.t unit :=
  let* bridgeData := activeMessages_get bridgeId in
  match bridgeData with
  | None => ret tt
  | Some bridgeData =>
      try_finally
        (try_catch
           (let chat := BridgeData.whatsappChat bridgeData in
            if Nat.eqb (length (BridgeData.responses bridgeData)) 0 then
              sendMessage env chat (Text noResponse)
            else
              for_of (BridgeData.responses bridgeData) (sendResponse chat) ;;
              sendMessage env chat
                (Text (summary (length (BridgeData.responses bridgeData)))))
           (fun error => console_error (u "Error processing responses:")))
        (activeMessages_delete bridgeId)
  end.

(** What a due timer runs. *)
Definition run (cb : Callback) : M BridgeData.t unit :=
  match cb with
  | UnlinkIfExists filePath => unlinkIfExists filePath
  | ProcessCollectedResponses bridgeId => processCollectedResponses bridgeId
  | CleanupBridgeSession _ => ret tt
  end.

End Batch.
End Batch.

(** ** The batch variant of src/unnamed/part_000 *)

Module Raw.
Section Raw.
Variable CONFIG : Config.
Variable env : Env.

(** part_000 286-338, the forward to the channel and its [catch] *)
Definition forward (message : WaMessage.t) (content bridgeId : str)
    : M BridgeData.t unit :=
  try_catch
    (let* discordChannel := channels_fetch env (discordChannelId CONFIG) in
     if negb discordChannel then console_error (u "Discord channel not found")
     else
       let discordMessage := content in
       (if WaMessage.hasMedia message then
          let* media := downloadMedia env message in
          match media with
          | Some media =>
              let* now'' := Date_now in
              let fileName :=
                show now'' ++ u "_" ++ or (Media.filename media) (u "media") in
              let filePath := path_join env (uploadsDir CONFIG) fileName in
              let buffer := base64 env (Media.data media) in
              writeFileSync env filePath buffer ;;
              channel_send env discordMessage [filePath] ;;
              setTimeout (UnlinkIfExists filePath) 5000
          | None => ret tt
          end
        else channel_send env discordMessage []) ;;
       setTimeout (ProcessCollectedResponses bridgeId) (messageTimeout CONFIG))
    (fun error =>
       console_error (u "Error sending message to Discord:") ;;
       activeMessages_delete bridgeId).

(** part_000 253-339 *)
Definition handleWhatsAppMessage (message : WaMessage.t) : M BridgeData.t unit :=
  if negb (startsWith (WaMessage.body message) (triggerChar CONFIG)) then ret tt
  else if decide (WaMessage.from message = u "status@broadcast") then ret tt
  else
    let content := trim (WaMessage.body message) in
    if negb (truthy content) then ret tt
    else
      let* chat := await (WaMessage.getChat message) in
      let* contact := await (WaMessage.getContact message) in
      let* now := Date_now in
      let* rnd := Math_random env in
      let bridgeId := show now ++ u "_" ++ rnd in
      let* now' := Date_now in
      activeMessages_set bridgeId
        (BridgeData.mk (WaMessage.from message) chat message now' []) ;;
      forward message content bridgeId.

(** part_000 190-196, the listener of ['message'] *)
Definition onMessage (message : WaMessage.t) : M BridgeData.t unit :=
  try_catch (handleWhatsAppMessage message)
    (fun error => console_error (u "Error handling WhatsApp message:")).

(** part_000 342-390 *)
Definition handleDiscordMessage (message : DiscordMessage.t) : M BridgeData.t unit :=
  if decide (DiscordMessage.channel_id message <> discordChannelId CONFIG)
  then ret tt
  else
    let* entries := activeMessages_entries in
    collectResponse CONFIG env message entries.

(** part_000 235-241, the listener of ['messageCreate'] *)
Definition onMessageCreate (message : DiscordMessage.t) : M BridgeData.t unit :=
  try_catch (handleDiscordMessage message)
    (fun error => console_error (u "Error handling Discord message:")).

(** [U+23F0 *Keine Antworten in 30 Sekunden erhalten.*] *)
Definition noResponse : str :=
  [9200%N] ++ u " *Keine Antworten in 30 Sekunden erhalten.*".

(** [U+274C Fehler beim Senden der Datei: name] *)
Definition sendFailed (name : str) : str :=
  [10060%N] ++ u " Fehler beim Senden der Datei: " ++ name.

(** part_000 414-435, the body of the loop over [response.attachments] *)
Definition sendAttachment (chat : Chat.t) (attachment : Descriptor.t)
    : M BridgeData.t unit :=
  try_catch
    (let* there := existsSync (Descriptor.path attachment) in
     if there then
       (if endsWith (toLowerCase (Descriptor.name attachment)) (u ".txt") then
          let* textContent := readFileSync env (Descriptor.path attachment) in
          sendMessage env chat (Text textContent)
        else
          let* media := fromFilePath (Descriptor.path attachment) None in
          sendMessage env chat media) ;;
       unlinkSync (Descriptor.path attachment)
     else ret tt)
    (fun error =>
       console_error (u "Error sending attachment to WhatsApp:") ;;
       sendMessage env chat (Text (sendFailed (Descriptor.name attachment)))).

(** part_000 407-439, the body of the loop over [bridgeData.responses] *)
Definition sendResponse (chat : Chat.t) (response : Response.t) : M BridgeData.t unit :=
  (if truthy (trim (Response.content response))
   then sendMessage env chat (Text (Response.content response))
   else ret tt) ;;
  for_of (Response.attachments response) (sendAttachment chat) ;;
  sleep 1000.

(** part_000 393-447 *)
Definition processCollectedResponses (bridgeId : str) : M BridgeData.t unit :=
  let* bridgeData := activeMessages_get bridgeId in
  match bridgeData with
  | None => ret tt
  | Some bridgeData =>
      try_finally
        (try_catch
           (let chat := BridgeData.whatsappChat bridgeData in
            if Nat.eqb (length (BridgeData.responses bridgeData)) 0 then
              sendMessage env chat (Text noResponse)
            else
              for_of (BridgeData.responses bridgeData) (sendResponse chat))
           (fun error => console_error (u "Error processing responses:")))
        (activeMessages_delete bridgeId)
  end.

(** What a due timer runs. *)
Definition run (cb : Callback) : M BridgeData.t unit :=
  match cb with
  | UnlinkIfExists filePath => unlinkIfExists filePath
  | ProcessCollectedResponses bridgeId => processCollectedResponses bridgeId
  | CleanupBridgeSession _ => ret tt
  end.

End Raw.
End Raw.

(** ** The immediate variant of src/server.js (lines 623-1482) *)

Module LiveBridgeData.
Record t := mk {
  whatsappChatId : str;
  whatsappChat : Chat.t;
  originalMessage : WaMessage.t;
  timestamp : Z;
  isGroup : bool;
  groupName : option str }.
End LiveBridgeData.

Module Live.
Section Live.
Variable CONFIG : Config.
Variable env : Env.
(** [discordClient.user.id] *)
Variable clientUserId : str.

(** server.js 932-941, the text that goes to the channel *)
Definition formatMessage (message : WaMessage.t) (chat : Chat.t) (contact : Contact.t)
    (content : str) : str :=
  if Chat.isGroup chat then
    let senderName :=
      or (or_undef (or_undef (Contact.pushname contact) (Contact.name contact))
                   (WaMessage.author message))
         (u "Unknown") in
    u "**[" ++ Chat.name chat ++ u "]** " ++ senderName ++ u ": " ++ content
  else
    let senderName :=
      or (or_undef (Contact.pushname contact) (Contact.name contact)) (u "Unknown") in
    u "**[Privat]** " ++ senderName ++ u ": " ++ content.

(** server.js 923-984, the forward to the channel and its [catch] *)
Definition forward (message : WaMessage.t) (chat : Chat.t) (contact : Contact.t)
    (content bridgeId : str) : M LiveBridgeData.t unit :=
  try_catch
    (let* discordChannel := channels_fetch env (discordChannelId CONFIG) in
     if negb discordChannel then console_error (u "Discord channel not found")
     else
       let discordMessage := formatMessage message chat contact content in
       (if WaMessage.hasMedia message then
          let* media := downloadMedia env message in
          match media with
          | Some media =>
              let* now'' := Date_now in
              let fileName :=
                show now'' ++ u "_" ++ or (Media.filename media) (u "media") in
              let filePath := path_join env (uploadsDir CONFIG) fileName in
              let buffer := base64 env (Media.data media) in
              writeFileSync env filePath buffer ;;
              channel_send env discordMessage [filePath] ;;
              setTimeout (UnlinkIfExists filePath) 5000
          | None => ret tt
          end
        else channel_send env discordMessage []) ;;
       setTimeout (CleanupBridgeSession bridgeId) (messageTimeout CONFIG))
    (fun error =>
       console_error (u "Error sending message to Discord:") ;;
       activeMessages_delete bridgeId).

(** server.js 881-985 *)
Definition handleWhatsAppMessage (message : WaMessage.t) : M LiveBridgeData.t unit :=
  if negb (startsWith (WaMessage.body message) (triggerChar CONFIG)) then ret tt
  else if decide (WaMessage.from message = u "status@broadcast") then ret tt
  else
    let content := trim (WaMessage.body message) in
    if negb (truthy content) then ret tt
    else
      let* chat := await (WaMessage.getChat message) in
      let* contact := await (WaMessage.getContact message) in
      let* now := Date_now in
      let* rnd := Math_random env in
      let bridgeId := show now ++ u "_" ++ rnd in
      let* now' := Date_now in
      activeMessages_set bridgeId
        (LiveBridgeData.mk (Chat.id_serialized chat) chat message now'
           (Chat.isGroup chat)
           (if Chat.isGroup chat then Some (Chat.name chat) else None)) ;;
      forward message chat contact content bridgeId.

(** server.js 818-824, the listener of ['message'] *)
Definition onMessage (message : WaMessage.t) : M LiveBridgeData.t unit :=
  try_catch (handleWhatsAppMessage message)
    (fun error => console_error (u "Error handling WhatsApp message:")).

(** [U+1F916 text] *)
Definition robot (text : str) : str := [55358%N; 56598%N] ++ u " " ++ text.

(** server.js 1018-1051, the body of the loop over the attachments *)
Definition relayAttachment (bridgeId : str) (chat : Chat.t)
    (attachment : Attachment.t) : M LiveBridgeData.t unit :=
  try_catch
    (let* response_download := axios_get env (Attachment.url attachment) in
     let fileName := bridgeId ++ u "_" ++ Attachment.name attachment in
     let filePath := path_join env (uploadsDir CONFIG) fileName in
     writeFileSync env filePath response_download ;;
     (if endsWith (toLowerCase (Attachment.name attachment)) (u ".txt") then
        let* textContent := readFileSync env filePath in
        sendMessage env chat (Text (robot textContent))
      else
        let* media := fromFilePath filePath (Some (robot (u "Datei von Discord"))) in
        sendMessage env chat media) ;;
     unlinkIfExists filePath)
    (fun error => console_error (u "Error downloading/sending Discord attachment:")).

(** server.js 998-1064, the loop over [activeMessages.entries()] *)
Fixpoint relayResponse (message : DiscordMessage.t)
    (entries : list (str * LiveBridgeData.t)) : M LiveBridgeData.t unit :=
  match entries with
  | [] => ret tt
  | (bridgeId, bridgeData) :: rest =>
      let* now := Date_now in
      let timeDiff := now - LiveBridgeData.timestamp bridgeData in
      if decide (timeDiff <= messageTimeout CONFIG) then
        try_catch
          (let chat := LiveBridgeData.whatsappChat bridgeData in
           (if truthy (trim (DiscordMessage.content message))
            then sendMessage env chat (Text (robot (DiscordMessage.content message)))
            else ret tt) ;;
           for_of (DiscordMessage.attachments message) (relayAttachment bridgeId chat))
          (fun error =>
             console_error (u "Error forwarding response to WhatsApp:") ;;
             console_error (u "Bridge data:"))
      else relayResponse message rest
  end.

(** server.js 988-1065 *)
Definition handleDiscordMessage (message : DiscordMessage.t) : M LiveBridgeData.t unit :=
  if decide (DiscordMessage.channel_id message <> discordChannelId CONFIG)
  then ret tt
  else if decide (Author.id (DiscordMessage.author message) = clientUserId)
  then ret tt
  else
    let* entries := activeMessages_entries in
    relayResponse message entries.

(** server.js 863-869, the listener of ['messageCreate'] *)
Definition onMessageCreate (message : DiscordMessage.t) : M LiveBridgeData.t unit :=
  try_catch (handleDiscordMessage message)
    (fun error => console_error (u "Error handling Discord message:")).

(** server.js 1068-1076 *)
Definition cleanupBridgeSession (bridgeId : str) : M LiveBridgeData.t unit :=
  let* bridgeData := activeMessages_get bridgeId in
  match bridgeData with
  | None => ret tt
  | Some _ => activeMessages_delete bridgeId
  end.

(** What a due timer runs. *)
Definition run (cb : Callback) : M LiveBridgeData.t unit :=
  match cb with
  | UnlinkIfExists filePath => unlinkIfExists filePath
  | ProcessCollectedResponses _ => ret tt
  | CleanupBridgeSession bridgeId => cleanupBridgeSession bridgeId
  end.

End Live.
End Live.

(** ** The vocabulary of the properties *)

(** What a handler added to the trace. *)
Definition news {R} (w w' : World R) : list Event :=
  drop (length (trace w)) (trace w').

Section Vocabulary.
Variable CONFIG : Config.

(** The window test of the reply relay: [now - createdAt <= activeWindow]. *)
Definition inWindow (now createdAt : Z) : Prop :=
  now - createdAt <= messageTimeout CONFIG.

#[global] Instance inWindow_dec now createdAt : Decision (inWindow now createdAt).
Proof. unfold inWindow. apply _. Defined.

(** The first entry, in insertion order, that passes the window test. *)
Fixpoint firstActive {R} (timestamp : R -> Z) (now : Z) (entries : list (str * R))
    : option (str * R) :=
  match entries with
  | [] => None
  | (bridgeId, bridgeData) :: rest =>
      if decide (inWindow now (timestamp bridgeData))
      then Some (bridgeId, bridgeData)
      else firstActive timestamp now rest
  end.

(** Batch mode: the reply [message] was appended to the replies of the
    record [bridgeId]. *)
Definition collectedBy (message : DiscordMessage.t) (w w' : World BridgeData.t)
    (bridgeId : str) : Prop :=
  exists bridgeData response,
    Map_get bridgeId (activeMessages w) = Some bridgeData
    /\ Response.content response = DiscordMessage.content message
    /\ Map_get bridgeId (activeMessages w') = Some (BridgeData.push response bridgeData).

(** Immediate mode: something was sent to the conversation [chat]. *)
Definition deliveredTo {R} (w w' : World R) (chat : Chat.t) : Prop :=
  exists p ok, In (SendMessage chat p ok) (news w w').

(** The reply is attributed to a record exactly when the record is inside
    its window. *)
Definition attributedIffInWindow (message : DiscordMessage.t)
    (w w' : World BridgeData.t) : Prop :=
  forall bridgeId bridgeData,
    Map_get bridgeId (activeMessages w) = Some bridgeData ->
    (collectedBy message w w' bridgeId
     <-> inWindow (clock w) (BridgeData.timestamp bridgeData)).

(** Fan-out: every record inside its window gets the reply. *)
Definition fanOutCollected (message : DiscordMessage.t)
    (w w' : World BridgeData.t) : Prop :=
  forall bridgeId bridgeData,
    Map_get bridgeId (activeMessages w) = Some bridgeData ->
    inWindow (clock w) (BridgeData.timestamp bridgeData) ->
    collectedBy message w w' bridgeId.

Definition fanOutDelivered (w w' : World LiveBridgeData.t) : Prop :=
  forall bridgeId bridgeData,
    Map_get bridgeId (activeMessages w) = Some bridgeData ->
    inWindow (clock w) (LiveBridgeData.timestamp bridgeData) ->
    deliveredTo w w' (LiveBridgeData.whatsappChat bridgeData).

(** The admission test of the inbound relay, as the handlers compute it:
    on the body as received. [strip] tells whether the first code unit is
    cut off before the body is trimmed. *)
Definition admits (strip : bool) (message : WaMessage.t) : bool :=
  startsWith (WaMessage.body message) (triggerChar CONFIG)
  && bool_decide (WaMessage.from message <> u "status@broadcast")
  && truthy (trim (if strip then substring (WaMessage.body message) 1
                   else WaMessage.body message)).

(** The admission test on the trimmed body: the body, trimmed, starts
    with the trigger; the origin is not the broadcast conversation; what
    remains of the trimmed body after the prefix is not empty. *)
Definition admitsTrimmed (strip : bool) (message : WaMessage.t) : bool :=
  startsWith (trim (WaMessage.body message)) (triggerChar CONFIG)
  && bool_decide (WaMessage.from message <> u "status@broadcast")
  && truthy (trim (if strip
                   then substring (trim (WaMessage.body message))
                                  (length (triggerChar CONFIG))
                   else trim (WaMessage.body message))).

(** The id the inbound relay gives to the record it creates in [w]. *)
Definition freshId {R} (env : Env) (w : World R) : str :=
  show (clock w) ++ u "_" ++ random env (tick w).

(** The world in which the forward starts: the record is in the store and
    [Math.random] has been called. *)
Definition stored {R} (bridgeId : str) (bridgeData : R) (w : World R) : World R :=
  mkWorld (Map_set bridgeId bridgeData (activeMessages w)) (files w) (timers w)
          (trace w) (S (tick w)) (clock w).

End Vocabulary.

(** What the flush of [Batch] sends for an attachment whose file is in
    [fs]. *)
Definition Batch_payload (fs : gmap str str) (response : Response.t)
    (attachment : Descriptor.t) : WaPayload :=
  MediaFile (Descriptor.path attachment)
            (default [] (fs !! Descriptor.path attachment))
            (Some (Batch.caption (Descriptor.name attachment)
                                 (Response.author response))).

(** What the flush of [Batch] sends for one reply when every file is there
    and every send succeeds: the text, unless it is blank, and the
    attachments. *)
Definition Batch_relayed (fs : gmap str str) (response : Response.t) : list WaPayload :=
  (if truthy (trim (Response.content response))
   then [Text (Batch.messageText response)]
   else [])
  ++ map (Batch_payload fs response) (Response.attachments response).

(** The same for [Raw], where a [.txt] attachment goes as a text: the
    bytes of the file, decoded as UTF-8. *)
Definition Raw_payload (env : Env) (fs : gmap str str) (attachment : Descriptor.t)
    : WaPayload :=
  let bytes := default [] (fs !! Descriptor.path attachment) in
  if endsWith (toLowerCase (Descriptor.name attachment)) (u ".txt")
  then Text (utf8 env bytes)
  else MediaFile (Descriptor.path attachment) bytes None.

Definition Raw_relayed (env : Env) (fs : gmap str str) (response : Response.t)
    : list WaPayload :=
  (if truthy (trim (Response.content response))
   then [Text (Response.content response)]
   else [])
  ++ map (Raw_payload env fs) (Response.attachments response).

(** Whatever is sent to platform A goes to [chat]. *)
Definition toChat (chat : Chat.t) (e : Event) : Prop :=
  match e with SendMessage c _ _ => c = chat | _ => True end.

(** An event that is a [chat.sendMessage]. *)
Definition isSendMessage (e : Event) : Prop :=
  match e with SendMessage _ _ _ => True | _ => False end.

(** An event that sends a file, as opposed to a text. *)
Definition sendsFile (e : Event) : Prop :=
  match e with SendMessage _ (MediaFile _ _ _) _ => True | _ => False end.

(** The paths of the scratch files of the replies. *)
Definition scratchPaths (responses : list Response.t) : list str :=
  flat_map (fun response => map Descriptor.path (Response.attachments response))
           responses.





(** The world after the payloads [ps] were delivered to [chat], the files
    [gone] were unlinked and [dt] milliseconds went by. *)
Definition delivered {R} (chat : Chat.t) (ps : list WaPayload) (gone : list str)
    (dt : Z) (w : World R) : World R :=
  mkWorld (activeMessages w)
          (foldl (fun fs p => delete p fs) (files w) gone)
          (timers w)
          (trace w ++ map (fun p => SendMessage chat p true) ps)
          (tick w + length ps)%nat
          (clock w + dt).



(** No scratch file of the replies is left. *)
Definition scratchReleased {R} (responses : list Response.t) (w : World R) : Prop :=
  forall p, In p (scratchPaths responses) -> files w !! p = None.

(** ** Relations between the world before and after a handler *)

(** Whatever the completion, the world moved along [step]. *)
Definition respects {R A} (step : relation (World R)) (m : M R A) : Prop :=
  forall w, step w (snd (m w)).

(** A handler that never throws. *)
Definition total {R A} (m : M R A) : Prop := forall w, exists a, fst (m w) = Normal a.

(** A projection of the world is left as it was. *)
Definition keeps {R X} (f : World R -> X) : relation (World R) :=
  fun w w' => f w' = f w.

(** The trace grew by events that all satisfy [P]. *)
Definition emits {R} (P : Event -> Prop) : relation (World R) :=
  fun w w' => exists evs, trace w' = trace w ++ evs /\ Forall P evs.

(** No file appeared. *)
Definition noNewFile {R} : relation (World R) :=
  fun w w' => forall p, files w !! p = None -> files w' !! p = None.

(** ** Sample data *)

Module Sample.

Definition CONFIG : Config :=
  mkConfig (u "bridge-channel") 120000 (u ".") (u "/tmp").

(** What [path.join] makes of a directory and of a name that holds no
    separator and no dot segment. *)
Definition joined (dir name : str) : str := dir ++ u "/" ++ name.

(** Every call succeeds, and so does every write. The files of the
    samples are texts of ASCII, which UTF-8 decodes to themselves. *)
Definition reliable : Env :=
  mkEnv (fun _ _ => Channel) (fun _ _ _ => true)
        (fun _ _ => Some (Some (Media.mk (u "aGk=") (Some (u "photo.jpg")))))
        (fun _ _ => Some (u "bytes")) (fun _ _ _ => true)
        (fun _ => u "k3x9q2m1z") (fun _ _ => true) (fun s => s) (fun s => s) joined.

(** [channels.fetch] resolves to [null]. *)
Definition channelMissing : Env :=
  mkEnv (fun _ _ => Null) (fun _ _ _ => true) (fun _ _ => Some None)
        (fun _ _ => Some (u "bytes")) (fun _ _ _ => true)
        (fun _ => u "k3x9q2m1z") (fun _ _ => true) (fun s => s) (fun s => s) joined.

(** [chat.sendMessage] rejects. *)
Definition undeliverable : Env :=
  mkEnv (fun _ _ => Channel) (fun _ _ _ => true) (fun _ _ => Some None)
        (fun _ _ => Some (u "bytes")) (fun _ _ _ => false)
        (fun _ => u "k3x9q2m1z") (fun _ _ => true) (fun s => s) (fun s => s) joined.

(** [chat.sendMessage] rejects a file and accepts a text. *)
Definition textOnly : Env :=
  mkEnv (fun _ _ => Channel) (fun _ _ _ => true) (fun _ _ => Some None)
        (fun _ _ => Some (u "bytes"))
        (fun _ _ p => match p with Text _ => true | MediaFile _ _ _ => false end)
        (fun _ => u "k3x9q2m1z") (fun _ _ => true) (fun s => s) (fun s => s) joined.

(** [axios.get] rejects. *)
Definition offline : Env :=
  mkEnv (fun _ _ => Channel) (fun _ _ _ => true) (fun _ _ => Some None)
        (fun _ _ => None) (fun _ _ _ => true)
        (fun _ => u "k3x9q2m1z") (fun _ _ => true) (fun s => s) (fun s => s) joined.

Definition alice : Chat.t := Chat.mk (u "4911@c.us") false (u "Alice").
Definition bob : Chat.t := Chat.mk (u "4922@c.us") false (u "Bob").
Definition family : Chat.t := Chat.mk (u "1203@g.us") true (u "Family").
Definition nobody : Contact.t := Contact.mk None (Some (u "Al")).

Definition wa (body from : str) (chat : Chat.t) : WaMessage.t :=
  WaMessage.mk body from None false (Some chat) (Some nobody).

Definition ping : WaMessage.t := wa (u ".ping") (u "4911@c.us") alice.
Definition spacePing : WaMessage.t := wa (u " .ping") (u "4911@c.us") alice.
Definition hello : WaMessage.t := wa (u "hello") (u "4911@c.us") alice.
(** An event of a group: [from] is the id of the group, [author] the
    address of the sender. *)
Definition groupPing : WaMessage.t :=
  WaMessage.mk (u ".ping") (u "1203@g.us") (Some (u "4911@c.us")) false
               (Some family) (Some nobody).
Definition photo : WaMessage.t :=
  WaMessage.mk (u ".look") (u "4911@c.us") None true (Some alice) (Some nobody).
(** An event whose conversation cannot be resolved. *)
Definition lost : WaMessage.t :=
  WaMessage.mk (u ".ping") (u "4911@c.us") None false None (Some nobody).

Definition carol : Author.t := Author.mk (u "77") (u "carol") false.

Definition reply (content : str) (attachments : list Attachment.t) : DiscordMessage.t :=
  DiscordMessage.mk content carol (u "bridge-channel") attachments.

Definition pong : DiscordMessage.t := reply (u "pong") [].

Definition notes : Attachment.t :=
  Attachment.mk (u "https://cdn/notes.txt") (u "notes.txt") (u "text/plain").
Definition cat : Attachment.t :=
  Attachment.mk (u "https://cdn/cat.png") (u "cat.png") (u "image/png").

Definition notesFile : Descriptor.t :=
  Descriptor.mk (u "notes.txt") (u "/tmp/1_a_notes.txt") (u "text/plain").
Definition catFile : Descriptor.t :=
  Descriptor.mk (u "cat.png") (u "/tmp/1_a_cat.png") (u "image/png").

Definition empty {R} (now : Z) : World R := mkWorld [] ∅ [] [] 0 now.

Definition record (chat : Chat.t) (createdAt : Z) (responses : list Response.t)
    : BridgeData.t :=
  BridgeData.mk (Chat.id_serialized chat) chat ping createdAt responses.

Definition liveRecord (chat : Chat.t) (createdAt : Z) : LiveBridgeData.t :=
  LiveBridgeData.mk (Chat.id_serialized chat) chat ping createdAt
                    (Chat.isGroup chat) None.

(** Two records, both inside their window at time 1000. *)
Definition twoActive : World BridgeData.t :=
  mkWorld [(u "1_a", record alice 0 []); (u "2_b", record bob 500 [])]
          ∅ [] [] 0 1000.

Definition twoActiveLive : World LiveBridgeData.t :=
  mkWorld [(u "1_a", liveRecord alice 0); (u "2_b", liveRecord bob 500)]
          ∅ [] [] 0 1000.

(** One record with the given replies and scratch files, at the end of
    its window. *)
Definition due (responses : list Response.t) (fs : gmap str str) : World BridgeData.t :=
  mkWorld [(u "1_a", record alice 0 responses)] fs [] [] 0 120000.

Definition said (content : str) (attachments : list Descriptor.t) : Response.t :=
  Response.mk content (u "carol") attachments 1000.

End Sample.

(** ** The vocabulary of the further properties *)

(** The world at a later time [t]: between two events only the clock
    moves. *)
Definition later {R} (t : Z) (w : World R) : World R :=
  mkWorld (activeMessages w) (files w) (timers w) (trace w) (tick w) t.

(** The age the hourly sweep allows: [60 * 60 * 1000] ms. *)
Definition retention : Z := 60 * 60 * 1000.

(** A record that the sweep at time [now] keeps. *)
Definition kept {R} (timestamp : R -> Z) (now : Z) (entry : str * R) : Prop :=
  now - timestamp (snd entry) <= retention.

#[global] Instance kept_dec {R} (timestamp : R -> Z) now entry :
  Decision (kept timestamp now entry).
Proof. unfold kept. apply _. Defined.

(** The store has the same bridge ids, in the same order. *)
Definition sameKeys {R} : relation (World R) :=
  fun w w' => keys (activeMessages w') = keys (activeMessages w).

(** No file disappeared. *)
Definition noFileLost {R} : relation (World R) :=
  fun w w' => forall p, is_Some (files w !! p) -> is_Some (files w' !! p).

(** The descriptor that receipt pushes for an attachment of a reply
    collected by the record [bridgeId]. *)
Definition descriptorOf (CONFIG : Config) (env : Env) (bridgeId : str)
    (attachment : Attachment.t) : Descriptor.t :=
  Descriptor.mk (Attachment.name attachment)
    (path_join env (uploadsDir CONFIG) (bridgeId ++ u "_" ++ Attachment.name attachment))
    (Attachment.contentType attachment).

(** The attachments of a reply that receipt lists for the record
    [bridgeId], when the first download is asked at tick [n]: those whose
    download succeeds and whose file is then written. Every attachment
    takes one call of [axios.get], whatever comes of it. *)
Fixpoint listed (CONFIG : Config) (env : Env) (bridgeId : str) (n : nat)
    (attachments : list Attachment.t) : list Attachment.t :=
  match attachments with
  | [] => []
  | attachment :: rest =>
      let filePath := Descriptor.path (descriptorOf CONFIG env bridgeId attachment) in
      match axios env n (Attachment.url attachment) with
      | Some _ =>
          if writes env (S n) filePath
          then attachment :: listed CONFIG env bridgeId (S n) rest
          else listed CONFIG env bridgeId (S n) rest
      | None => listed CONFIG env bridgeId (S n) rest
      end
  end.

(** A code unit string that [trim] empties. *)
Definition blank (s : str) : Prop := Forall (fun c => isWhiteSpace c = true) s.


(** An event whose body is the trigger and nothing else. *)
Definition bareTrigger : WaMessage.t := Sample.wa (u ".") (u "4911@c.us") Sample.alice.

(** No error was logged between two worlds: [console.error] was not
    called. The lines of [console.log] are not among the events. *)
Definition noErrorLogged {R} (w w' : World R) : Prop :=
  forall msg, ~ In (ConsoleError msg) (news w w').

(** The three ways the forward of an admitted event ends, once the
    record is stored: it went through with no error logged, and the timer
    of the record is set behind the timers of the scratch files; the
    channel was not found; or a call failed, and the record was
    deleted. *)
Definition forwardOutcome {R} (CONFIG : Config) (failure : str) (expiry : Callback)
    (bridgeId : str) (w w' : World R) : Prop :=
  (noErrorLogged w w'
   /\ activeMessages w' = activeMessages w
   /\ exists ts, timers w' = timers w ++ ts
                             ++ [(clock w + messageTimeout CONFIG, expiry)])
  \/ (news w w' = [ChannelsFetch (discordChannelId CONFIG) Null;
                   ConsoleError (u "Discord channel not found")]
      /\ activeMessages w' = activeMessages w
      /\ timers w' = timers w)
  \/ ((exists evs, news w w' = evs ++ [ConsoleError failure])
      /\ activeMessages w' = Map_delete bridgeId (activeMessages w)
      /\ timers w' = timers w).

(** Replies that arrive in the immediate variant one after the other,
    each at its time. *)
Fixpoint Live_replies (CONFIG : Config) (env : Env) (clientUserId : str)
    (events : list (Z * DiscordMessage.t)) (w : World LiveBridgeData.t)
    : World LiveBridgeData.t :=
  match events with
  | [] => w
  | (t, message) :: rest =>
      Live_replies CONFIG env clientUserId rest
        (exec (Live.handleDiscordMessage CONFIG env clientUserId message) (later t w))
  end.

(** [axios.get] answers with the address it was asked for, so that two
    downloads are told apart; every other call succeeds. *)
Definition mirror : Env :=
  mkEnv (fun _ _ => Channel) (fun _ _ _ => true) (fun _ _ => Some None)
        (fun _ url => Some url) (fun _ _ _ => true)
        (fun _ => u "k3x9q2m1z") (fun _ _ => true) (fun s => s) (fun s => s)
        Sample.joined.

(** A second attachment that is named like [Sample.cat]. *)
Definition catAgain : Attachment.t :=
  Attachment.mk (u "https://cdn/other/cat.png") (u "cat.png") (u "image/png").

(** The channel is found and refuses what is sent to it; the media of an
    event can be downloaded. *)
Definition channelRefuses : Env :=
  mkEnv (fun _ _ => Channel) (fun _ _ _ => false)
        (fun _ _ => Some (Some (Media.mk (u "aGk=") (Some (u "photo.jpg")))))
        (fun _ _ => Some (u "bytes")) (fun _ _ _ => true)
        (fun _ => u "k3x9q2m1z") (fun _ _ => true) (fun s => s) (fun s => s)
        Sample.joined.
(** * Properties *)

Arguments Batch.sendFailed : simpl never.
Arguments Batch.caption : simpl never.
Arguments Batch.summary : simpl never.
Arguments Batch.noResponse : simpl never.
Arguments Batch.messageText : simpl never.
Arguments Batch.formatMessage : simpl never.
Arguments Raw.sendFailed : simpl never.
Arguments Raw.noResponse : simpl never.
Arguments Live.robot : simpl never.
Arguments Live.formatMessage : simpl never.

(** ** The store *)

Section StoreFacts.
Context {R : Type}.
Implicit Types (m : list (str * R)) (k : str).

Lemma Map_get_delete k m : Map_get k (Map_delete k m) = None.
Proof.
  unfold Map_delete. induction m as [|[k' v] m IH]; simpl; [done|].
  rewrite filter_cons. simpl. destruct (decide (k' <> k)) as [Hne|Heq]; simpl.
  - destruct (decide (k' = k)); [done|apply IH].
  - apply IH.
Qed.

Lemma Map_delete_absent k m : Map_get k m = None -> Map_delete k m = m.
Proof.
  unfold Map_delete. induction m as [|[k' v] m IH]; simpl; [done|].
  destruct (decide (k' = k)) as [->|Hne]; [done|].
  intros H. rewrite filter_cons. simpl.
  destruct (decide (k' <> k)); [|done]. f_equal. by apply IH.
Qed.

Lemma Map_get_delete_ne k k' m : k <> k' -> Map_get k' (Map_delete k m) = Map_get k' m.
Proof.
  intros Hne. unfold Map_delete. induction m as [|[k0 v] m IH]; simpl; [done|].
  rewrite filter_cons. simpl. destruct (decide (k0 <> k)) as [H0|H0]; simpl.
  - by rewrite IH.
  - destruct (decide (k0 = k')) as [->|]; [|done].
    exfalso. apply H0. congruence.
Qed.

Lemma Map_get_set k v m : Map_get k (Map_set k v m) = Some v.
Proof.
  induction m as [|[k' v'] m IH]; simpl.
  - by rewrite decide_True.
  - destruct (decide (k' = k)); simpl.
    + by rewrite decide_True.
    + by rewrite decide_False.
Qed.

Lemma Map_get_set_ne k k' v m : k <> k' -> Map_get k' (Map_set k v m) = Map_get k' m.
Proof.
  intros Hne. induction m as [|[k0 v0] m IH]; simpl.
  - by rewrite decide_False.
  - destruct (decide (k0 = k)) as [->|]; simpl.
    + by rewrite !decide_False.
    + destruct (decide (k0 = k')); [done|apply IH].
Qed.

Lemma Map_set_fresh k v m : Map_get k m = None -> Map_set k v m = m ++ [(k, v)].
Proof.
  induction m as [|[k' v'] m IH]; simpl; [done|].
  destruct (decide (k' = k)); [done|]. intros H. by rewrite IH.
Qed.

Lemma Map_delete_set_fresh k v m :
  Map_get k m = None -> Map_delete k (Map_set k v m) = m.
Proof.
  intros H. rewrite (Map_set_fresh _ _ _ H). unfold Map_delete.
  rewrite filter_app. fold (Map_delete k m). rewrite (Map_delete_absent _ _ H).
  rewrite filter_cons, filter_nil. simpl.
  destruct (decide (k <> k)); [done|]. by rewrite app_nil_r.
Qed.

Lemma Map_get_alter f k m : Map_get k (Map_alter f k m) = f <$> Map_get k m.
Proof.
  induction m as [|[k' v'] m IH]; simpl; [done|].
  destruct (decide (k' = k)); simpl.
  - by rewrite decide_True.
  - by rewrite decide_False.
Qed.

Lemma Map_get_alter_ne f k k' m : k <> k' -> Map_get k' (Map_alter f k m) = Map_get k' m.
Proof.
  intros Hne. induction m as [|[k0 v0] m IH]; simpl; [done|].
  destruct (decide (k0 = k)) as [->|]; simpl.
  - by rewrite !decide_False.
  - destruct (decide (k0 = k')); [done|apply IH].
Qed.

End StoreFacts.

(** ** The flush runs at most once *)

Section FlushOnce.
Variable CONFIG : Config.
Variable env : Env.

Lemma finally_delete_gone {A} (body : M BridgeData.t A) bridgeId w :
  Map_get bridgeId
    (activeMessages (exec (try_finally body (activeMessages_delete bridgeId)) w)) = None.
Proof.
  unfold exec, try_finally, activeMessages_delete, modify.
  destruct (body w) as [c w']. simpl. apply Map_get_delete.
Qed.

Lemma Batch_flush_gone bridgeId w :
  Map_get bridgeId
    (activeMessages (exec (Batch.processCollectedResponses env bridgeId) w)) = None.
Proof.
  unfold Batch.processCollectedResponses, exec, bind, activeMessages_get.
  destruct (Map_get bridgeId (activeMessages w)) eqn:E; simpl; [|done].
  apply finally_delete_gone.
Qed.

Lemma Raw_flush_gone bridgeId w :
  Map_get bridgeId
    (activeMessages (exec (Raw.processCollectedResponses env bridgeId) w)) = None.
Proof.
  unfold Raw.processCollectedResponses, exec, bind, activeMessages_get.
  destruct (Map_get bridgeId (activeMessages w)) eqn:E; simpl; [|done].
  apply finally_delete_gone.
Qed.

Lemma Batch_flush_absent bridgeId w :
  Map_get bridgeId (activeMessages w) = None ->
  Batch.processCollectedResponses env bridgeId w = (Normal tt, w).
Proof.
  intros H. unfold Batch.processCollectedResponses, bind, activeMessages_get.
  by rewrite H.
Qed.

Lemma Raw_flush_absent bridgeId w :
  Map_get bridgeId (activeMessages w) = None ->
  Raw.processCollectedResponses env bridgeId w = (Normal tt, w).
Proof.
  intros H. unfold Raw.processCollectedResponses, bind, activeMessages_get.
  by rewrite H.
Qed.

(** C10. In both batch variants the flush deletes the record whatever
    the sends do, and a second flush of the same bridge id finds no
    record, makes no call and changes nothing: flushing twice is
    flushing once. *)
Theorem C10_flush_at_most_once bridgeId w :
  (let w1 := exec (Batch.processCollectedResponses env bridgeId) w in
   Map_get bridgeId (activeMessages w1) = None
   /\ Batch.processCollectedResponses env bridgeId w1 = (Normal tt, w1)
   /\ exec (Batch.processCollectedResponses env bridgeId) w1 = w1)
  /\
  (let w1 := exec (Raw.processCollectedResponses env bridgeId) w in
   Map_get bridgeId (activeMessages w1) = None
   /\ Raw.processCollectedResponses env bridgeId w1 = (Normal tt, w1)
   /\ exec (Raw.processCollectedResponses env bridgeId) w1 = w1).
Proof.
  split; cbv zeta.
  - pose proof (Batch_flush_gone bridgeId w) as H.
    split; [exact H|]. split.
    + by apply Batch_flush_absent.
    + unfold exec at 1. by rewrite Batch_flush_absent.
  - pose proof (Raw_flush_gone bridgeId w) as H.
    split; [exact H|]. split.
    + by apply Raw_flush_absent.
    + unfold exec at 1. by rewrite Raw_flush_absent.
Qed.

End FlushOnce.

(** ** Relations that every step of a handler respects *)

Section Respects.
Context {R : Type}.
Variable step : relation (World R).
Context `{!PreOrder step}.

Lemma respects_ret {A} (a : A) : respects step (ret a).
Proof. intros w. simpl. reflexivity. Qed.

Lemma respects_throw {A} e : respects step (@throw R A e).
Proof. intros w. simpl. reflexivity. Qed.

Lemma respects_await {A} (p : option A) : respects step (@await R A p).
Proof. intros w. destruct p; simpl; reflexivity. Qed.

Lemma respects_bind {A B} (m : M R A) (k : A -> M R B) :
  respects step m -> (forall a, respects step (k a)) -> respects step (bind m k).
Proof.
  intros Hm Hk w. unfold bind. specialize (Hm w).
  destruct (m w) as [[a|e] w1]; simpl in *; [|done].
  etrans; [exact Hm|apply Hk].
Qed.

Lemma respects_try_catch {A} (m : M R A) (h : str -> M R A) :
  respects step m -> (forall e, respects step (h e)) -> respects step (try_catch m h).
Proof.
  intros Hm Hh w. unfold try_catch. specialize (Hm w).
  destruct (m w) as [[a|e] w1]; simpl in *; [done|].
  etrans; [exact Hm|apply Hh].
Qed.

Lemma respects_try_finally {A} (m : M R A) (fin : M R unit) :
  respects step m -> respects step fin -> respects step (try_finally m fin).
Proof.
  intros Hm Hf w. unfold try_finally. specialize (Hm w).
  destruct (m w) as [c w1]. specialize (Hf w1).
  destruct (fin w1) as [[[]|e] w2]; simpl in *; etrans; eauto.
Qed.

Lemma respects_for_of {A} (xs : list A) (body : A -> M R unit) :
  (forall x, respects step (body x)) -> respects step (for_of xs body).
Proof.
  intros Hb. induction xs as [|x xs IH]; simpl.
  - apply respects_ret.
  - apply respects_bind; [apply Hb|intros _; exact IH].
Qed.

Lemma respects_modify (f : World R -> World R) :
  (forall w, step w (f w)) -> respects step (modify f).
Proof. intros Hf w. apply Hf. Qed.

End Respects.

Section Total.
Context {R : Type}.

Lemma total_ret {A} (a : A) : total (@ret R A a).
Proof. intros w. by exists a. Qed.

Lemma total_await {A} (a : A) : total (@await R A (Some a)).
Proof. intros w. by exists a. Qed.

Lemma total_bind {A B} (m : M R A) (k : A -> M R B) :
  total m -> (forall a, total (k a)) -> total (bind m k).
Proof.
  intros Hm Hk w. unfold bind. destruct (Hm w) as [a Ha].
  destruct (m w) as [c w1]. simpl in Ha. subst c. apply Hk.
Qed.

Lemma total_try_catch {A} (m : M R A) (h : str -> M R A) :
  (forall e, total (h e)) -> total (try_catch m h).
Proof.
  intros Hh w. unfold try_catch. destruct (m w) as [[a|e] w1].
  - by exists a.
  - apply Hh.
Qed.

Lemma total_for_of {A} (xs : list A) (body : A -> M R unit) :
  (forall x, total (body x)) -> total (for_of xs body).
Proof.
  intros Hb. induction xs as [|x xs IH]; simpl.
  - apply total_ret.
  - apply total_bind; [apply Hb|intros _; exact IH].
Qed.

Lemma total_modify (f : World R -> World R) : total (modify f).
Proof. intros w. by exists tt. Qed.

Lemma total_console_error msg : total (@console_error R msg).
Proof. intros w. by exists tt. Qed.

End Total.

(** The relations are preorders. *)
Section Steps.
Context {R : Type}.

#[global] Instance keeps_preorder {X} (f : World R -> X) : PreOrder (keeps f).
Proof.
  split.
  - intros w. reflexivity.
  - intros w1 w2 w3 H1 H2. unfold keeps in *. congruence.
Qed.

#[global] Instance emits_preorder P : PreOrder (@emits R P).
Proof.
  split.
  - intros w. exists []. by rewrite app_nil_r.
  - intros w1 w2 w3 (e1 & H1 & F1) (e2 & H2 & F2).
    exists (e1 ++ e2). rewrite H2, H1, app_assoc. split; [done|].
    by apply Forall_app.
Qed.

#[global] Instance noNewFile_preorder : PreOrder (@noNewFile R).
Proof.
  split.
  - by intros w p.
  - intros w1 w2 w3 H1 H2 p Hp. by apply H2, H1.
Qed.

Lemma emits_news P (w w' : World R) :
  emits P w w' -> Forall P (news w w').
Proof.
  intros (evs & H & F). unfold news. rewrite H.
  by rewrite drop_app_length.
Qed.

End Steps.

(** The primitives, one relation at a time. *)
Ltac prim :=
  let w := fresh "w" in
  intros w;
  unfold keeps, Date_now, Math_random, console_error, setTimeout, sleep, modify,
    channels_fetch, channel_send, downloadMedia, axios_get, sendMessage,
    existsSync, writeFileSync, readFileSync, fromFilePath, unlinkSync, activeMessages_get,
    activeMessages_set, activeMessages_delete, activeMessages_entries, ret, throw;
  simpl; repeat case_match; simpl; try reflexivity.

Ltac structure :=
  repeat first
    [ apply respects_ret; apply _
    | apply respects_throw; apply _
    | apply respects_await; apply _
    | apply respects_bind; [apply _| |intros ?]
    | apply respects_try_catch; [apply _| |intros ?]
    | apply respects_try_finally; [apply _|..]
    | apply respects_for_of; [apply _|intros ?]
    | match goal with
      | |- respects _ (if ?b then _ else _) => destruct b
      | |- respects _ (match ?x with _ => _ end) => destruct x
      | |- respects _ (let (_, _) := ?x in _) => destruct x
      end ].

(** The events of a run, read off the trace. *)
Lemma news_app {R} (w w' : World R) evs :
  trace w' = trace w ++ evs -> news w w' = evs.
Proof. intros H. unfold news. rewrite H. by rewrite drop_app_length. Qed.

Lemma news_of {R} (w : World R) evs acts fs ts n c :
  news w (mkWorld acts fs ts (trace w ++ evs) n c) = evs.
Proof. by apply news_app. Qed.

(** The world that a run of primitives leaves, written out. *)
Ltac flatten :=
  unfold set_timers, record, set_files, set_activeMessages; cbn;
  rewrite <- ?app_assoc; cbn; rewrite ?news_of.

(** ** Receipt of a reply *)

Section Receipt.
Variable CONFIG : Config.
Variable env : Env.

Lemma downloadAttachment_respects (step : relation (World BridgeData.t))
    `{!PreOrder step} bridgeId attachment pushed :
  (forall url, respects step (axios_get env url)) ->
  (forall p b, respects step (writeFileSync env p b)) ->
  (forall m, respects step (console_error m)) ->
  respects step (downloadAttachment CONFIG env bridgeId attachment pushed).
Proof.
  intros Ha Hw Hc. unfold downloadAttachment. structure; auto.
Qed.

Lemma downloadAttachments_respects (step : relation (World BridgeData.t))
    `{!PreOrder step} bridgeId attachments pushed :
  (forall url, respects step (axios_get env url)) ->
  (forall p b, respects step (writeFileSync env p b)) ->
  (forall m, respects step (console_error m)) ->
  respects step (downloadAttachments CONFIG env bridgeId attachments pushed).
Proof.
  intros Ha Hw Hc. revert pushed.
  induction attachments as [|a rest IH]; intros pushed; simpl.
  - by apply respects_ret.
  - apply respects_bind; [done|by apply downloadAttachment_respects|intros; apply IH].
Qed.

Lemma downloadAttachments_total bridgeId attachments pushed :
  total (downloadAttachments CONFIG env bridgeId attachments pushed).
Proof.
  revert pushed. induction attachments as [|a rest IH]; intros pushed; simpl.
  - apply total_ret.
  - apply total_bind; [|intros; apply IH].
    unfold downloadAttachment. apply total_try_catch. intros e.
    apply total_bind; [apply total_console_error|intros; apply total_ret].
Qed.

Lemma downloadAttachments_keeps {X} (f : World BridgeData.t -> X)
    bridgeId attachments pushed :
  (forall w e, f (record e w) = f w) ->
  (forall w fs, f (set_files fs w) = f w) ->
  (forall w msg,
     f (mkWorld (activeMessages w) (files w) (timers w)
                (trace w ++ [ConsoleError msg]) (tick w) (clock w)) = f w) ->
  respects (keeps f) (downloadAttachments CONFIG env bridgeId attachments pushed).
Proof.
  intros H1 H2 H3. apply downloadAttachments_respects; [apply _|..].
  - intros url w. unfold keeps, axios_get. case_match; simpl; apply H1.
  - intros p b w. unfold keeps, writeFileSync. case_match; simpl; [apply H2|done].
  - intros m w. unfold keeps, console_error. simpl. apply H3.
Qed.

Lemma downloadAttachments_quiet bridgeId attachments pushed :
  respects (emits (fun e => ~ isSendMessage e))
           (downloadAttachments CONFIG env bridgeId attachments pushed).
Proof.
  apply downloadAttachments_respects; [apply _|..].
  - intros url w. unfold axios_get. case_match; simpl; eexists; (split; [reflexivity|]);
      repeat constructor; simpl; tauto.
  - intros p b w. exists []. unfold writeFileSync. case_match; simpl; by rewrite app_nil_r.
  - intros m w. eexists. simpl. split; [reflexivity|]. repeat constructor. simpl. tauto.
Qed.

(** What the loop of [handleDiscordMessage] does, in the batch variants:
    the first entry inside its window gets the reply, nothing else moves,
    and nothing is sent to platform A. *)
Lemma collectResponse_spec message entries w :
  exists w',
    collectResponse CONFIG env message entries w = (Normal tt, w')
    /\ clock w' = clock w
    /\ emits (fun e => ~ isSendMessage e) w w'
    /\ match firstActive CONFIG BridgeData.timestamp (clock w) entries with
       | None => activeMessages w' = activeMessages w
       | Some (bridgeId, _) =>
           exists response,
             Response.content response = DiscordMessage.content message
             /\ activeMessages w' =
                Map_alter (BridgeData.push response) bridgeId (activeMessages w)
       end.
Proof.
  induction entries as [|[bridgeId bridgeData] rest IH]; simpl.
  - exists w. split; [done|]. split; [done|]. split; [reflexivity|done].
  - unfold bind at 1. unfold Date_now at 1. simpl. unfold inWindow.
    destruct (decide (clock w - BridgeData.timestamp bridgeData <= messageTimeout CONFIG))
      as [Hin|Hout]; [|exact IH].
    unfold bind at 1. unfold Date_now at 1. simpl.
    pose proof (downloadAttachments_total bridgeId (DiscordMessage.attachments message) [] w)
      as [descs Hd].
    pose proof (downloadAttachments_keeps activeMessages bridgeId
                  (DiscordMessage.attachments message) []
                  (fun _ _ => eq_refl) (fun _ _ => eq_refl) (fun _ _ => eq_refl) w) as Hs.
    pose proof (downloadAttachments_keeps clock bridgeId
                  (DiscordMessage.attachments message) []
                  (fun _ _ => eq_refl) (fun _ _ => eq_refl) (fun _ _ => eq_refl) w) as Hc.
    pose proof (downloadAttachments_quiet bridgeId
                  (DiscordMessage.attachments message) [] w) as Hq.
    unfold bind, keeps in *.
    destruct (downloadAttachments CONFIG env bridgeId _ [] w) as [c w1].
    simpl in *. subst c. simpl.
    eexists. split; [reflexivity|]. simpl. repeat split; [done|..].
    + destruct Hq as (evs & Ht & Hf). exists evs. simpl. by split.
    + eexists. split; [|by rewrite Hs]. done.
Qed.

Lemma firstActive_in {R} (timestamp : R -> Z) now entries bridgeId (bridgeData : R) :
  firstActive CONFIG timestamp now entries = Some (bridgeId, bridgeData) ->
  In (bridgeId, bridgeData) entries /\ inWindow CONFIG now (timestamp bridgeData).
Proof.
  induction entries as [|[k v] rest IH]; simpl; [done|].
  destruct (decide (inWindow CONFIG now (timestamp v))) as [Hin|Hout].
  - intros [= -> ->]. auto.
  - intros H. destruct (IH H). auto.
Qed.

Lemma Map_get_in {R} (m : list (str * R)) k v :
  NoDup (keys m) -> In (k, v) m -> Map_get k m = Some v.
Proof.
  unfold keys. induction m as [|[k' v'] m IH]; simpl; [done|].
  intros Hnd [Heq|Hin].
  - injection Heq as -> ->. by rewrite decide_True.
  - apply NoDup_cons in Hnd as [Hk Hnd].
    destruct (decide (k' = k)) as [->|Hne]; [|by apply IH].
    exfalso. apply Hk. apply list_elem_of_In. apply (in_map fst) in Hin. exact Hin.
Qed.

Lemma push_changes response bridgeData : BridgeData.push response bridgeData <> bridgeData.
Proof.
  destruct bridgeData as [a b c d rs]. unfold BridgeData.push. simpl.
  intros [= H]. apply (f_equal length) in H. rewrite length_app in H. simpl in H. lia.
Qed.

(** The loop attributes the reply to the first record inside its window
    and to no other. *)
Lemma collectResponse_attribution message w bridgeId bridgeData :
  NoDup (keys (activeMessages w)) ->
  Map_get bridgeId (activeMessages w) = Some bridgeData ->
  let w' := exec (collectResponse CONFIG env message (activeMessages w)) w in
  (collectedBy message w w' bridgeId
   <-> fst <$> firstActive CONFIG BridgeData.timestamp (clock w) (activeMessages w)
       = Some bridgeId)
  /\ (~ inWindow CONFIG (clock w) (BridgeData.timestamp bridgeData) ->
      Map_get bridgeId (activeMessages w') = Some bridgeData).
Proof.
  intros Hnd Hget. cbv zeta. unfold exec.
  destruct (collectResponse_spec message (activeMessages w) w)
    as (w' & -> & _ & _ & Hfirst). simpl.
  destruct (firstActive CONFIG BridgeData.timestamp (clock w) (activeMessages w))
    as [[k bd]|] eqn:Ef; simpl.
  - destruct Hfirst as (response & Hc & Hs).
    apply firstActive_in in Ef as [Hin Hwin].
    pose proof (Map_get_in _ _ _ Hnd Hin) as Hk.
    destruct (decide (k = bridgeId)) as [->|Hne].
    + assert (bd = bridgeData) as -> by congruence. split; [|done].
      split; [done|]. intros _. exists bridgeData, response.
      rewrite Hs, Map_get_alter, Hget. done.
    + split.
      * split; [|congruence].
        intros (bd' & r & Hg & _ & Hg'). exfalso.
        rewrite Hs, Map_get_alter_ne, Hg in Hg' by done.
        injection Hg' as Hg'. symmetry in Hg'. by apply push_changes in Hg'.
      * intros _. by rewrite Hs, Map_get_alter_ne.
  - split.
    + split; [|done].
      intros (bd' & r & Hg & _ & Hg'). exfalso.
      rewrite Hfirst, Hg in Hg'.
      injection Hg' as Hg'. symmetry in Hg'. by apply push_changes in Hg'.
    + intros _. by rewrite Hfirst.
Qed.

End Receipt.

(** C1. In both batch variants a reply in the bridge channel is attributed
    to a record exactly when the record is the first one, in insertion
    order, that passes the window test [now - createdAt <= activeWindow];
    a record that fails the test is left as it was although it is still in
    the store. In [Batch] the reply of a bot is attributed to no record. *)
Theorem C1_reply_attributed_to_first_active_record
    CONFIG env message (w : World BridgeData.t) bridgeId bridgeData :
  NoDup (keys (activeMessages w)) ->
  DiscordMessage.channel_id message = discordChannelId CONFIG ->
  Map_get bridgeId (activeMessages w) = Some bridgeData ->
  (let w' := exec (Raw.handleDiscordMessage CONFIG env message) w in
   (collectedBy message w w' bridgeId
    <-> fst <$> firstActive CONFIG BridgeData.timestamp (clock w) (activeMessages w)
        = Some bridgeId)
   /\ (~ inWindow CONFIG (clock w) (BridgeData.timestamp bridgeData) ->
       Map_get bridgeId (activeMessages w') = Some bridgeData))
  /\
  (let w' := exec (Batch.handleDiscordMessage CONFIG env message) w in
   (collectedBy message w w' bridgeId
    <-> Author.bot (DiscordMessage.author message) = false
        /\ fst <$> firstActive CONFIG BridgeData.timestamp (clock w) (activeMessages w)
           = Some bridgeId)
   /\ (~ inWindow CONFIG (clock w) (BridgeData.timestamp bridgeData) ->
       Map_get bridgeId (activeMessages w') = Some bridgeData)).
Proof.
  intros Hnd Hch Hget.
  pose proof (collectResponse_attribution CONFIG env message w bridgeId bridgeData
                Hnd Hget) as [Hiff Hout].
  split; cbv zeta.
  - unfold Raw.handleDiscordMessage.
    rewrite decide_False by (intros H; by apply H).
    unfold exec, bind, activeMessages_entries. simpl. by split.
  - unfold Batch.handleDiscordMessage.
    destruct (Author.bot (DiscordMessage.author message)) eqn:Hbot.
    + unfold exec, ret. simpl. split; [|done]. split; [|by intros [? _]].
      intros (bd' & r & Hg & _ & Hg'). exfalso.
      rewrite Hg in Hg'. injection Hg' as Hg'. symmetry in Hg'.
      by apply push_changes in Hg'.
    + rewrite decide_False by (intros H; by apply H).
      unfold exec, bind, activeMessages_entries. simpl. split; [|done].
      rewrite Hiff. tauto.
Qed.

Lemma C1_reply_attributed_to_first_active_record_witness :
  let w := Sample.twoActive in
  (let w' := exec (Raw.handleDiscordMessage Sample.CONFIG Sample.reliable Sample.pong) w in
   (collectedBy Sample.pong w w' (u "2_b")
    <-> fst <$> firstActive Sample.CONFIG BridgeData.timestamp (clock w) (activeMessages w)
        = Some (u "2_b"))
   /\ (~ inWindow Sample.CONFIG (clock w) 500 ->
       Map_get (u "2_b") (activeMessages w') = Some (Sample.record Sample.bob 500 [])))
  /\
  (let w' := exec (Batch.handleDiscordMessage Sample.CONFIG Sample.reliable Sample.pong) w in
   (collectedBy Sample.pong w w' (u "2_b")
    <-> Author.bot (DiscordMessage.author Sample.pong) = false
        /\ fst <$> firstActive Sample.CONFIG BridgeData.timestamp (clock w) (activeMessages w)
           = Some (u "2_b"))
   /\ (~ inWindow Sample.CONFIG (clock w) 500 ->
       Map_get (u "2_b") (activeMessages w') = Some (Sample.record Sample.bob 500 []))).
Proof.
  apply (C1_reply_attributed_to_first_active_record Sample.CONFIG Sample.reliable
           Sample.pong Sample.twoActive (u "2_b") (Sample.record Sample.bob 500 [])).
  - apply (bool_decide_unpack _). by vm_compute.
  - reflexivity.
  - reflexivity.
Defined.

(** The claim as the specification words it fails on two records that are
    both inside their window: the second one is inside its window and is
    not given the reply. *)
Lemma C1_counterexample :
  ~ attributedIffInWindow Sample.CONFIG Sample.pong Sample.twoActive
      (exec (Raw.handleDiscordMessage Sample.CONFIG Sample.reliable Sample.pong)
            Sample.twoActive).
Proof.
  intros H.
  destruct (H (u "2_b") (Sample.record Sample.bob 500 []) eq_refl) as [_ H2].
  destruct H2 as (bd & r & Hg & _ & Hg').
  { unfold inWindow. simpl. lia. }
  vm_compute in Hg. injection Hg as <-.
  vm_compute in Hg'. discriminate Hg'.
Qed.


(** ** First match wins *)

Section Emits.
Context {R : Type}.
Variable env : Env.
Variable P : Event -> Prop.

Lemma sendMessage_emits chat p :
  (forall ok, P (SendMessage chat p ok)) -> respects (emits P) (@sendMessage R env chat p).
Proof.
  intros H w. unfold emits, sendMessage.
  destruct (deliver env (tick w) chat p); simpl; eexists; (split; [reflexivity|]);
    repeat constructor; apply H.
Qed.

Lemma axios_get_emits url :
  (forall ok, P (AxiosGet url ok)) -> respects (emits P) (@axios_get R env url).
Proof.
  intros H w. unfold emits, axios_get.
  destruct (axios env (tick w) url); simpl; eexists; (split; [reflexivity|]);
    repeat constructor; apply H.
Qed.

Lemma console_error_emits msg :
  P (ConsoleError msg) -> respects (emits P) (@console_error R msg).
Proof.
  intros H w. eexists. simpl. split; [reflexivity|]. by repeat constructor.
Qed.

Lemma channels_fetch_emits channelId :
  (forall r, P (ChannelsFetch channelId r)) ->
  respects (emits P) (@channels_fetch R env channelId).
Proof.
  intros H w. unfold emits, channels_fetch.
  destruct (fetch env (tick w) channelId); simpl; eexists; (split; [reflexivity|]);
    repeat constructor; apply H.
Qed.

Lemma channel_send_emits content attached :
  (forall ok, P (ChannelSend content attached ok)) ->
  respects (emits P) (@channel_send R env content attached).
Proof.
  intros H w. unfold emits, channel_send.
  destruct (send env (tick w) content attached); simpl; eexists;
    (split; [reflexivity|]); repeat constructor; apply H.
Qed.

Lemma downloadMedia_emits message :
  (forall ok, P (DownloadMedia ok)) ->
  respects (emits P) (@downloadMedia R env message).
Proof.
  intros H w. unfold emits, downloadMedia.
  destruct (download env (tick w) message); simpl; eexists;
    (split; [reflexivity|]); repeat constructor; apply H.
Qed.

Lemma modify_silent (f : World R -> World R) :
  (forall w, trace (f w) = trace w) -> respects (emits P) (modify f).
Proof. intros H w. exists []. simpl. by rewrite H, app_nil_r. Qed.

Lemma Date_now_silent : respects (emits P) (@Date_now R).
Proof. intros w. exists []. simpl. by rewrite app_nil_r. Qed.

Lemma existsSync_silent filePath : respects (emits P) (@existsSync R filePath).
Proof. intros w. exists []. simpl. by rewrite app_nil_r. Qed.

Lemma writeFileSync_silent filePath bytes :
  respects (emits P) (@writeFileSync R env filePath bytes).
Proof.
  intros w. exists []. unfold writeFileSync. case_match; simpl; by rewrite app_nil_r.
Qed.

Lemma readFileSync_silent filePath : respects (emits P) (@readFileSync R env filePath).
Proof.
  intros w. exists []. unfold readFileSync. case_match; simpl; by rewrite app_nil_r.
Qed.

Lemma unlinkSync_silent filePath : respects (emits P) (@unlinkSync R filePath).
Proof.
  intros w. exists []. unfold unlinkSync. case_match; simpl; by rewrite app_nil_r.
Qed.

Lemma sleep_silent delay : respects (emits P) (@sleep R delay).
Proof. intros w. exists []. simpl. by rewrite app_nil_r. Qed.

Lemma fromFilePath_silent filePath caption :
  respects (emits P) (@fromFilePath R filePath caption).
Proof.
  intros w. exists []. unfold fromFilePath. case_match; simpl; by rewrite app_nil_r.
Qed.

Lemma unlinkIfExists_silent filePath : respects (emits P) (@unlinkIfExists R filePath).
Proof.
  unfold unlinkIfExists. structure; [apply existsSync_silent|apply unlinkSync_silent].
Qed.

End Emits.

Ltac emitting :=
  first [ by apply axios_get_emits | by apply sendMessage_emits
        | by apply console_error_emits | apply writeFileSync_silent
        | apply readFileSync_silent | apply fromFilePath_silent
        | apply existsSync_silent
        | apply unlinkSync_silent | apply sleep_silent
        | by apply channels_fetch_emits | by apply channel_send_emits
        | by apply downloadMedia_emits | by apply modify_silent
        | apply Date_now_silent ].

Section FirstMatch.
Variable CONFIG : Config.
Variable env : Env.
Variable clientUserId : str.

Lemma news_same {R} (w : World R) : news w w = [].
Proof. unfold news. by rewrite drop_all. Qed.

Lemma Live_relayAttachment_emits bridgeId chat attachment :
  respects (emits (toChat chat)) (Live.relayAttachment CONFIG env bridgeId chat attachment).
Proof.
  unfold Live.relayAttachment. structure; emitting.
Qed.

Lemma Live_relayAttachment_keeps bridgeId chat attachment :
  respects (keeps activeMessages)
           (Live.relayAttachment CONFIG env bridgeId chat attachment).
Proof.
  unfold Live.relayAttachment, fromFilePath, unlinkIfExists. structure; prim.
Qed.

Lemma Live_relayAttachment_total bridgeId chat attachment :
  total (Live.relayAttachment CONFIG env bridgeId chat attachment).
Proof.
  unfold Live.relayAttachment. apply total_try_catch. intros e.
  apply total_console_error.
Qed.

(** What the loop of [handleDiscordMessage] does in the immediate variant:
    whatever is sent goes to the conversation of the first entry inside
    its window, and the store is left as it was. *)
Lemma Live_relayResponse_spec message entries w :
  exists w',
    Live.relayResponse CONFIG env message entries w = (Normal tt, w')
    /\ activeMessages w' = activeMessages w
    /\ match firstActive CONFIG LiveBridgeData.timestamp (clock w) entries with
       | Some (_, bridgeData) =>
           Forall (toChat (LiveBridgeData.whatsappChat bridgeData)) (news w w')
       | None => news w w' = []
       end.
Proof.
  induction entries as [|[bridgeId bridgeData] rest IH]; simpl.
  - exists w. split; [done|]. split; [done|apply news_same].
  - unfold bind at 1. unfold Date_now at 1. simpl. unfold inWindow.
    destruct (decide (clock w - LiveBridgeData.timestamp bridgeData
                      <= messageTimeout CONFIG)) as [Hin|Hout]; [|exact IH].
    set (chat := LiveBridgeData.whatsappChat bridgeData).
    set (body := try_catch _ _).
    assert (total body) as Ht.
    { apply total_try_catch. intros e.
      apply total_bind; [apply total_console_error|intros; apply total_console_error]. }
    assert (respects (emits (toChat chat)) body) as He.
    { subst body. structure; emitting. }
    assert (respects (keeps activeMessages) body) as Hk.
    { subst body. structure; prim. }
    destruct (Ht w) as [[] Hn]. specialize (He w). specialize (Hk w).
    destruct (body w) as [c w']. simpl in *. subst c.
    exists w'. split; [done|]. split; [exact Hk|]. by apply emits_news.
Qed.

(** In the immediate variant the text of a reply, unless it is blank, is
    the first thing sent, and it is sent to the conversation of the first
    record inside its window. *)
Lemma Live_relayResponse_first message entries bridgeId bridgeData w :
  firstActive CONFIG LiveBridgeData.timestamp (clock w) entries
  = Some (bridgeId, bridgeData) ->
  truthy (trim (DiscordMessage.content message)) = true ->
  let chat := LiveBridgeData.whatsappChat bridgeData in
  let text := Text (Live.robot (DiscordMessage.content message)) in
  exists rest,
    news w (exec (Live.relayResponse CONFIG env message entries) w)
    = SendMessage chat text (deliver env (tick w) chat text) :: rest.
Proof.
  intros Hfirst Htext. cbv zeta. unfold exec.
  induction entries as [|[k v] more IH]; simpl in *; [done|].
  unfold bind at 1. unfold Date_now at 1. simpl. unfold inWindow in *.
  destruct (decide (clock w - LiveBridgeData.timestamp v <= messageTimeout CONFIG))
    as [Hin|Hout]; [|by apply IH].
  injection Hfirst as -> ->. rewrite Htext.
  set (chat := LiveBridgeData.whatsappChat bridgeData).
  set (text := Text (Live.robot (DiscordMessage.content message))).
  unfold try_catch, bind at 1. unfold sendMessage at 1.
  set (w1 := record _ w).
  destruct (deliver env (tick w) chat text).
  - set (loop := for_of _ _).
    assert (respects (emits (fun _ => True)) loop) as He.
    { subst loop. apply respects_for_of; [apply _|]. intros a.
      unfold Live.relayAttachment. structure; emitting. }
    destruct (He w1) as (evs & Ht & _).
    assert (total loop) as Hl.
    { subst loop. apply total_for_of. intros a. apply Live_relayAttachment_total. }
    destruct (Hl w1) as [[] Hn].
    destruct (loop w1) as [c w2]. simpl in *. subst c. simpl.
    exists evs. apply news_app. rewrite Ht. subst w1. simpl.
    by rewrite <- app_assoc.
  - simpl. eexists. apply news_app. subst w1. simpl.
    by rewrite <- !app_assoc.
Qed.

(** C4. A reply in the bridge channel goes to the first record inside its
    window and to no other. In the batch variants that record collects
    the reply, every other record is left as it was, and nothing is sent
    to platform A at receipt. In the immediate variant the text of the
    reply, unless it is blank, is sent first and to the conversation of
    that record, whatever else is sent goes to the same conversation,
    nothing is sent when no record is inside its window, and the store
    is left as it was. *)
Theorem C4_reply_goes_to_first_active_record_only message :
  (forall w : World BridgeData.t,
     let w' := exec (Batch.handleDiscordMessage CONFIG env message) w in
     (Author.bot (DiscordMessage.author message) = false ->
      DiscordMessage.channel_id message = discordChannelId CONFIG ->
      NoDup (keys (activeMessages w)) ->
      forall bridgeId bridgeData,
        firstActive CONFIG BridgeData.timestamp (clock w) (activeMessages w)
        = Some (bridgeId, bridgeData) ->
        collectedBy message w w' bridgeId)
     /\ (forall bridgeId,
           fst <$> firstActive CONFIG BridgeData.timestamp (clock w) (activeMessages w)
           <> Some bridgeId ->
           Map_get bridgeId (activeMessages w') = Map_get bridgeId (activeMessages w))
     /\ Forall (fun e => ~ isSendMessage e) (news w w'))
  /\
  (forall w : World BridgeData.t,
     let w' := exec (Raw.handleDiscordMessage CONFIG env message) w in
     (DiscordMessage.channel_id message = discordChannelId CONFIG ->
      NoDup (keys (activeMessages w)) ->
      forall bridgeId bridgeData,
        firstActive CONFIG BridgeData.timestamp (clock w) (activeMessages w)
        = Some (bridgeId, bridgeData) ->
        collectedBy message w w' bridgeId)
     /\ (forall bridgeId,
           fst <$> firstActive CONFIG BridgeData.timestamp (clock w) (activeMessages w)
           <> Some bridgeId ->
           Map_get bridgeId (activeMessages w') = Map_get bridgeId (activeMessages w))
     /\ Forall (fun e => ~ isSendMessage e) (news w w'))
  /\
  (forall w : World LiveBridgeData.t,
     let w' := exec (Live.handleDiscordMessage CONFIG env clientUserId message) w in
     (DiscordMessage.channel_id message = discordChannelId CONFIG ->
      Author.id (DiscordMessage.author message) <> clientUserId ->
      truthy (trim (DiscordMessage.content message)) = true ->
      forall bridgeId bridgeData,
        firstActive CONFIG LiveBridgeData.timestamp (clock w) (activeMessages w)
        = Some (bridgeId, bridgeData) ->
        let chat := LiveBridgeData.whatsappChat bridgeData in
        let text := Text (Live.robot (DiscordMessage.content message)) in
        exists rest,
          news w w' = SendMessage chat text (deliver env (tick w) chat text) :: rest)
     /\ activeMessages w' = activeMessages w
     /\ match firstActive CONFIG LiveBridgeData.timestamp (clock w) (activeMessages w) with
        | Some (_, bridgeData) =>
            Forall (toChat (LiveBridgeData.whatsappChat bridgeData)) (news w w')
        | None => news w w' = []
        end).
Proof.
  assert (forall w : World BridgeData.t,
            let w' := exec (collectResponse CONFIG env message (activeMessages w)) w in
            (forall bridgeId,
               fst <$> firstActive CONFIG BridgeData.timestamp (clock w) (activeMessages w)
               <> Some bridgeId ->
               Map_get bridgeId (activeMessages w') = Map_get bridgeId (activeMessages w))
            /\ Forall (fun e => ~ isSendMessage e) (news w w')) as Hloop.
  { intros w. cbv zeta. unfold exec.
    destruct (collectResponse_spec CONFIG env message (activeMessages w) w)
      as (w' & -> & _ & Hq & Hfirst). simpl.
    split; [|by apply emits_news].
    intros bridgeId Hne.
    destruct (firstActive CONFIG BridgeData.timestamp (clock w) (activeMessages w))
      as [[k bd]|]; simpl in *.
    - destruct Hfirst as (response & _ & ->).
      apply Map_get_alter_ne. congruence.
    - by rewrite Hfirst. }
  assert (forall w : World BridgeData.t,
            NoDup (keys (activeMessages w)) ->
            forall bridgeId bridgeData,
              firstActive CONFIG BridgeData.timestamp (clock w) (activeMessages w)
              = Some (bridgeId, bridgeData) ->
              collectedBy message w
                (exec (collectResponse CONFIG env message (activeMessages w)) w)
                bridgeId) as Hgets.
  { intros w Hnd bridgeId bridgeData Hfirst.
    pose proof (firstActive_in CONFIG _ _ _ _ _ Hfirst) as [Hin _].
    pose proof (Map_get_in _ _ _ Hnd Hin) as Hget.
    apply (collectResponse_attribution CONFIG env message w bridgeId bridgeData Hnd Hget).
    by rewrite Hfirst. }
  split; [|split]; intros w; cbv zeta.
  - unfold Batch.handleDiscordMessage.
    destruct (Author.bot (DiscordMessage.author message)).
    { unfold exec. simpl. rewrite news_same. by repeat split. }
    destruct (decide (DiscordMessage.channel_id message <> discordChannelId CONFIG)).
    { unfold exec. simpl. rewrite news_same. by repeat split. }
    split; [|apply Hloop]. intros _ _. apply Hgets.
  - unfold Raw.handleDiscordMessage.
    destruct (decide (DiscordMessage.channel_id message <> discordChannelId CONFIG)).
    { unfold exec. simpl. rewrite news_same. by repeat split. }
    split; [|apply Hloop]. intros _. apply Hgets.
  - unfold Live.handleDiscordMessage.
    destruct (decide (DiscordMessage.channel_id message <> discordChannelId CONFIG)).
    { unfold exec. simpl. rewrite news_same. split; [done|]. split; [done|].
      by case_match; [case_match|]. }
    destruct (decide (Author.id (DiscordMessage.author message) = clientUserId)).
    { unfold exec. simpl. rewrite news_same. split; [done|]. split; [done|].
      by case_match; [case_match|]. }
    split.
    + intros _ _ Htext bridgeId bridgeData Hfirst.
      apply (Live_relayResponse_first message (activeMessages w) bridgeId bridgeData w
               Hfirst Htext).
    + unfold exec, bind, activeMessages_entries. simpl.
      destruct (Live_relayResponse_spec message (activeMessages w) w)
        as (w' & -> & Hs & Hf).
      by split.
Qed.

End FirstMatch.

Lemma C4_reply_goes_to_first_active_record_only_witness :
  (let w := Sample.twoActive in
   collectedBy Sample.pong w
     (exec (Batch.handleDiscordMessage Sample.CONFIG Sample.reliable Sample.pong) w)
     (u "1_a")
   /\ collectedBy Sample.pong w
        (exec (Raw.handleDiscordMessage Sample.CONFIG Sample.reliable Sample.pong) w)
        (u "1_a"))
  /\
  (let w := Sample.twoActiveLive in
   exists rest,
     news w (exec (Live.handleDiscordMessage Sample.CONFIG Sample.reliable (u "1")
                     Sample.pong) w)
     = SendMessage Sample.alice (Text (Live.robot (u "pong"))) true :: rest).
Proof.
  destruct (C4_reply_goes_to_first_active_record_only Sample.CONFIG Sample.reliable
              (u "1") Sample.pong) as (Hbatch & Hraw & Hlive).
  split; [split|].
  - apply (proj1 (Hbatch Sample.twoActive) eq_refl eq_refl) with (Sample.record Sample.alice 0 []).
    + apply (bool_decide_unpack _). by vm_compute.
    + reflexivity.
  - apply (proj1 (Hraw Sample.twoActive) eq_refl) with (Sample.record Sample.alice 0 []).
    + apply (bool_decide_unpack _). by vm_compute.
    + reflexivity.
  - assert (Author.id (DiscordMessage.author Sample.pong) <> u "1") as Hother
      by (by vm_compute).
    destruct (proj1 (Hlive Sample.twoActiveLive) eq_refl Hother eq_refl (u "1_a")
                (Sample.liveRecord Sample.alice 0) eq_refl) as (rest & Hrest).
    exists rest. exact Hrest.
Defined.

(** Fan-out fails on two records that are both inside their window: the
    second conversation gets nothing in the immediate variant, and the
    second record collects nothing in the batch variant. *)
Lemma C4_counterexample :
  ~ fanOutDelivered Sample.CONFIG Sample.twoActiveLive
      (exec (Live.handleDiscordMessage Sample.CONFIG Sample.reliable (u "1") Sample.pong)
            Sample.twoActiveLive)
  /\ ~ fanOutCollected Sample.CONFIG Sample.pong Sample.twoActive
         (exec (Batch.handleDiscordMessage Sample.CONFIG Sample.reliable Sample.pong)
               Sample.twoActive).
Proof.
  split; intros H.
  - destruct (H (u "2_b") (Sample.liveRecord Sample.bob 500) eq_refl) as (p & ok & Hin).
    { unfold inWindow. simpl. lia. }
    vm_compute in Hin. destruct Hin as [Hin|[]]. discriminate Hin.
  - destruct (H (u "2_b") (Sample.record Sample.bob 500 []) eq_refl)
      as (bd & r & Hg & _ & Hg').
    { unfold inWindow. simpl. lia. }
    vm_compute in Hg. injection Hg as <-.
    vm_compute in Hg'. discriminate Hg'.
Qed.

(** ** Admission of an inbound event *)

Section Admission.
Variable CONFIG : Config.
Variable env : Env.

Lemma admits_false strip message :
  admits CONFIG strip message = false ->
  startsWith (WaMessage.body message) (triggerChar CONFIG) = false
  \/ WaMessage.from message = u "status@broadcast"
  \/ truthy (trim (if strip then substring (WaMessage.body message) 1
                   else WaMessage.body message)) = false.
Proof.
  unfold admits. intros H.
  apply andb_false_iff in H as [H|H]; [|auto].
  apply andb_false_iff in H as [H|H]; [auto|].
  right. left. apply bool_decide_eq_false in H.
  by destruct (decide (WaMessage.from message = u "status@broadcast")).
Qed.

Lemma admits_true strip message :
  admits CONFIG strip message = true ->
  startsWith (WaMessage.body message) (triggerChar CONFIG) = true
  /\ WaMessage.from message <> u "status@broadcast"
  /\ truthy (trim (if strip then substring (WaMessage.body message) 1
                   else WaMessage.body message)) = true.
Proof.
  unfold admits. intros H.
  apply andb_true_iff in H as [H H3]. apply andb_true_iff in H as [H1 H2].
  apply bool_decide_eq_true in H2. auto.
Qed.

(** An event that fails the test leaves no mark at all. *)
Lemma Batch_ignores message w :
  admits CONFIG true message = false ->
  Batch.handleWhatsAppMessage CONFIG env message w = (Normal tt, w).
Proof.
  intros H. apply admits_false in H. unfold Batch.handleWhatsAppMessage.
  destruct (startsWith (WaMessage.body message) (triggerChar CONFIG)); simpl; [|done].
  destruct (decide (WaMessage.from message = u "status@broadcast")); [done|].
  destruct H as [H|[H|H]]; [done..|]. by rewrite H.
Qed.

Lemma Raw_ignores message w :
  admits CONFIG false message = false ->
  Raw.handleWhatsAppMessage CONFIG env message w = (Normal tt, w).
Proof.
  intros H. apply admits_false in H. unfold Raw.handleWhatsAppMessage.
  destruct (startsWith (WaMessage.body message) (triggerChar CONFIG)); simpl; [|done].
  destruct (decide (WaMessage.from message = u "status@broadcast")); [done|].
  destruct H as [H|[H|H]]; [done..|]. by rewrite H.
Qed.

(** Once the test has passed and the conversation and the contact of the
    event have resolved, the record is stored under a fresh id and the
    forward is tried. *)
Lemma Batch_admits message chat contact w :
  admits CONFIG true message = true ->
  WaMessage.getChat message = Some chat ->
  WaMessage.getContact message = Some contact ->
  Batch.handleWhatsAppMessage CONFIG env message w =
  Batch.forward CONFIG env message contact
    (trim (substring (WaMessage.body message) 1)) (freshId env w)
    (stored (freshId env w)
       (BridgeData.mk (WaMessage.from message) chat message (clock w) []) w).
Proof.
  intros H Hchat Hcontact. apply admits_true in H as (H1 & H2 & H3).
  unfold Batch.handleWhatsAppMessage. rewrite H1. simpl.
  rewrite decide_False by done. rewrite H3, Hchat, Hcontact. simpl. reflexivity.
Qed.

Lemma Raw_admits message chat contact w :
  admits CONFIG false message = true ->
  WaMessage.getChat message = Some chat ->
  WaMessage.getContact message = Some contact ->
  Raw.handleWhatsAppMessage CONFIG env message w =
  Raw.forward CONFIG env message (trim (WaMessage.body message)) (freshId env w)
    (stored (freshId env w)
       (BridgeData.mk (WaMessage.from message) chat message (clock w) []) w).
Proof.
  intros H Hchat Hcontact. apply admits_true in H as (H1 & H2 & H3).
  unfold Raw.handleWhatsAppMessage. rewrite H1. simpl.
  rewrite decide_False by done. rewrite H3, Hchat, Hcontact. simpl. reflexivity.
Qed.

Lemma Live_admits message chat contact w :
  admits CONFIG false message = true ->
  WaMessage.getChat message = Some chat ->
  WaMessage.getContact message = Some contact ->
  Live.handleWhatsAppMessage CONFIG env message w =
  Live.forward CONFIG env message chat contact (trim (WaMessage.body message))
    (freshId env w)
    (stored (freshId env w)
       (LiveBridgeData.mk (Chat.id_serialized chat) chat message (clock w)
          (Chat.isGroup chat)
          (if Chat.isGroup chat then Some (Chat.name chat) else None)) w).
Proof.
  intros H Hchat Hcontact. apply admits_true in H as (H1 & H2 & H3).
  unfold Live.handleWhatsAppMessage. rewrite H1. simpl.
  rewrite decide_False by done. rewrite H3, Hchat, Hcontact. simpl. reflexivity.
Qed.

(** [getChat] and [getContact] are awaited before the record is made and
    outside the [try]: when one of them rejects, the handler throws and
    the world is as it was. *)
Lemma Batch_unresolved message (w : World BridgeData.t) :
  admits CONFIG true message = true ->
  WaMessage.getChat message = None \/ WaMessage.getContact message = None ->
  Batch.handleWhatsAppMessage CONFIG env message w = (Thrown (u "rejected"), w).
Proof.
  intros H Hnone. apply admits_true in H as (H1 & H2 & H3).
  unfold Batch.handleWhatsAppMessage. rewrite H1. simpl.
  rewrite decide_False by done. rewrite H3. simpl.
  destruct (WaMessage.getChat message); [|done].
  destruct Hnone as [Hn|Hn]; [done|by rewrite Hn].
Qed.

Lemma Raw_unresolved message (w : World BridgeData.t) :
  admits CONFIG false message = true ->
  WaMessage.getChat message = None \/ WaMessage.getContact message = None ->
  Raw.handleWhatsAppMessage CONFIG env message w = (Thrown (u "rejected"), w).
Proof.
  intros H Hnone. apply admits_true in H as (H1 & H2 & H3).
  unfold Raw.handleWhatsAppMessage. rewrite H1. simpl.
  rewrite decide_False by done. rewrite H3. simpl.
  destruct (WaMessage.getChat message); [|done].
  destruct Hnone as [Hn|Hn]; [done|by rewrite Hn].
Qed.

Lemma Live_unresolved message (w : World LiveBridgeData.t) :
  admits CONFIG false message = true ->
  WaMessage.getChat message = None \/ WaMessage.getContact message = None ->
  Live.handleWhatsAppMessage CONFIG env message w = (Thrown (u "rejected"), w).
Proof.
  intros H Hnone. apply admits_true in H as (H1 & H2 & H3).
  unfold Live.handleWhatsAppMessage. rewrite H1. simpl.
  rewrite decide_False by done. rewrite H3. simpl.
  destruct (WaMessage.getChat message); [|done].
  destruct Hnone as [Hn|Hn]; [done|by rewrite Hn].
Qed.

(** The forward starts with [channels.fetch]; it ends with the store as it
    found it, or with its error logged. *)
Lemma Batch_forward_spec message contact content bridgeId w :
  let w' := exec (Batch.forward CONFIG env message contact content bridgeId) w in
  (exists evs,
     trace w' = trace w
       ++ ChannelsFetch (discordChannelId CONFIG)
                        (fetch env (tick w) (discordChannelId CONFIG)) :: evs)
  /\ (activeMessages w' = activeMessages w
      \/ In (ConsoleError (u "Error bridging message to Discord:")) (news w w')).
Proof.
  cbv zeta. unfold Batch.forward, exec.
  set (body := bind _ _).
  assert (respects (emits (fun _ => True)) body) as He by (subst body; structure; emitting).
  assert (respects (keeps activeMessages) body) as Hk by (subst body; structure; prim).
  assert (exists evs, trace (snd (body w)) = trace w
            ++ ChannelsFetch (discordChannelId CONFIG)
                             (fetch env (tick w) (discordChannelId CONFIG)) :: evs) as Hf.
  { subst body. unfold bind at 1. unfold channels_fetch at 1.
    set (w1 := record _ w).
    destruct (fetch env (tick w) (discordChannelId CONFIG)) eqn:E; cbn.
    - match goal with |- context [snd (?m w1)] =>
        assert (respects (emits (fun _ => True)) m) as Hm by (structure; emitting);
        destruct (Hm w1) as (evs & -> & _)
      end.
      exists evs. subst w1. simpl. by rewrite <- app_assoc.
    - exists [ConsoleError (u "Discord channel not found")]. subst w1. simpl.
      by rewrite <- app_assoc.
    - by exists []. }
  specialize (He w). specialize (Hk w). unfold try_catch.
  destruct (body w) as [[[]|e] w1]; simpl in *.
  - split; [exact Hf|]. by left.
  - destruct Hf as (evs & Hf). split.
    + exists (evs ++ [ConsoleError (u "Error bridging message to Discord:")]).
      rewrite Hf. by rewrite <- app_assoc.
    + right. erewrite news_app; [|simpl; rewrite Hf; by rewrite <- app_assoc].
      simpl. right. apply in_or_app. right. by left.
Qed.

Lemma Raw_forward_spec message content bridgeId w :
  let w' := exec (Raw.forward CONFIG env message content bridgeId) w in
  (exists evs,
     trace w' = trace w
       ++ ChannelsFetch (discordChannelId CONFIG)
                        (fetch env (tick w) (discordChannelId CONFIG)) :: evs)
  /\ (activeMessages w' = activeMessages w
      \/ In (ConsoleError (u "Error sending message to Discord:")) (news w w')).
Proof.
  cbv zeta. unfold Raw.forward, exec.
  set (body := bind _ _).
  assert (respects (emits (fun _ => True)) body) as He by (subst body; structure; emitting).
  assert (respects (keeps activeMessages) body) as Hk by (subst body; structure; prim).
  assert (exists evs, trace (snd (body w)) = trace w
            ++ ChannelsFetch (discordChannelId CONFIG)
                             (fetch env (tick w) (discordChannelId CONFIG)) :: evs) as Hf.
  { subst body. unfold bind at 1. unfold channels_fetch at 1.
    set (w1 := record _ w).
    destruct (fetch env (tick w) (discordChannelId CONFIG)) eqn:E; cbn.
    - match goal with |- context [snd (?m w1)] =>
        assert (respects (emits (fun _ => True)) m) as Hm by (structure; emitting);
        destruct (Hm w1) as (evs & -> & _)
      end.
      exists evs. subst w1. simpl. by rewrite <- app_assoc.
    - exists [ConsoleError (u "Discord channel not found")]. subst w1. simpl.
      by rewrite <- app_assoc.
    - by exists []. }
  specialize (He w). specialize (Hk w). unfold try_catch.
  destruct (body w) as [[[]|e] w1]; simpl in *.
  - split; [exact Hf|]. by left.
  - destruct Hf as (evs & Hf). split.
    + exists (evs ++ [ConsoleError (u "Error sending message to Discord:")]).
      rewrite Hf. by rewrite <- app_assoc.
    + right. erewrite news_app; [|simpl; rewrite Hf; by rewrite <- app_assoc].
      simpl. right. apply in_or_app. right. by left.
Qed.

(** The forward of a text when the channel is there and takes it. *)
Lemma Batch_forward_text message contact content bridgeId w :
  fetch env (tick w) (discordChannelId CONFIG) = Channel ->
  WaMessage.hasMedia message = false ->
  send env (S (tick w)) (Batch.formatMessage contact content bridgeId) [] = true ->
  Batch.forward CONFIG env message contact content bridgeId w =
  (Normal tt,
   mkWorld (activeMessages w) (files w)
     (timers w ++ [(clock w + messageTimeout CONFIG, ProcessCollectedResponses bridgeId)])
     (trace w ++ [ChannelsFetch (discordChannelId CONFIG) Channel;
                  ChannelSend (Batch.formatMessage contact content bridgeId) [] true])
     (S (S (tick w))) (clock w)).
Proof.
  intros Hf Hm Hs.
  unfold Batch.forward, try_catch, bind, channels_fetch, channel_send, setTimeout, modify.
  rewrite Hf, Hm. cbn. rewrite Hs. cbn. unfold set_timers, record. cbn.
  by rewrite <- app_assoc.
Qed.

Lemma Raw_forward_text message content bridgeId w :
  fetch env (tick w) (discordChannelId CONFIG) = Channel ->
  WaMessage.hasMedia message = false ->
  send env (S (tick w)) content [] = true ->
  Raw.forward CONFIG env message content bridgeId w =
  (Normal tt,
   mkWorld (activeMessages w) (files w)
     (timers w ++ [(clock w + messageTimeout CONFIG, ProcessCollectedResponses bridgeId)])
     (trace w ++ [ChannelsFetch (discordChannelId CONFIG) Channel;
                  ChannelSend content [] true])
     (S (S (tick w))) (clock w)).
Proof.
  intros Hf Hm Hs.
  unfold Raw.forward, try_catch, bind, channels_fetch, channel_send, setTimeout, modify.
  rewrite Hf, Hm. cbn. rewrite Hs. cbn. unfold set_timers, record. cbn.
  by rewrite <- app_assoc.
Qed.

(** The forward of an event with media, when every call succeeds: the
    scratch file is written, sent, and left to the 5 s timer. *)
Lemma Batch_forward_media message media contact content bridgeId w :
  let filePath :=
    path_join env (uploadsDir CONFIG)
              (bridgeId ++ u "_" ++ or (Media.filename media) (u "media")) in
  fetch env (tick w) (discordChannelId CONFIG) = Channel ->
  WaMessage.hasMedia message = true ->
  download env (S (tick w)) message = Some (Some media) ->
  writes env (S (S (tick w))) filePath = true ->
  send env (S (S (tick w))) (Batch.formatMessage contact content bridgeId) [filePath]
  = true ->
  Batch.forward CONFIG env message contact content bridgeId w =
  (Normal tt,
   mkWorld (activeMessages w)
     (<[filePath := base64 env (Media.data media)]> (files w))
     (timers w ++ [(clock w + 5000, UnlinkIfExists filePath);
                   (clock w + messageTimeout CONFIG, ProcessCollectedResponses bridgeId)])
     (trace w ++ [ChannelsFetch (discordChannelId CONFIG) Channel;
                  DownloadMedia true;
                  ChannelSend (Batch.formatMessage contact content bridgeId)
                              [filePath] true])
     (S (S (S (tick w)))) (clock w)).
Proof.
  intros filePath Hf Hm Hd Hw Hs.
  unfold Batch.forward, try_catch, bind, channels_fetch, downloadMedia, channel_send,
    writeFileSync, setTimeout, modify.
  rewrite Hf, Hm. cbn. rewrite Hd. cbn. fold filePath. rewrite Hw. cbn.
  rewrite Hs. cbn.
  unfold set_timers, set_files, record. cbn. by rewrite <- !app_assoc.
Qed.

(** In [Raw] the scratch file is named after the time. *)
Lemma Raw_forward_media message media content bridgeId w :
  let filePath :=
    path_join env (uploadsDir CONFIG)
              (show (clock w) ++ u "_" ++ or (Media.filename media) (u "media")) in
  fetch env (tick w) (discordChannelId CONFIG) = Channel ->
  WaMessage.hasMedia message = true ->
  download env (S (tick w)) message = Some (Some media) ->
  writes env (S (S (tick w))) filePath = true ->
  send env (S (S (tick w))) content [filePath] = true ->
  Raw.forward CONFIG env message content bridgeId w =
  (Normal tt,
   mkWorld (activeMessages w)
     (<[filePath := base64 env (Media.data media)]> (files w))
     (timers w ++ [(clock w + 5000, UnlinkIfExists filePath);
                   (clock w + messageTimeout CONFIG, ProcessCollectedResponses bridgeId)])
     (trace w ++ [ChannelsFetch (discordChannelId CONFIG) Channel;
                  DownloadMedia true;
                  ChannelSend content [filePath] true])
     (S (S (S (tick w)))) (clock w)).
Proof.
  intros filePath Hf Hm Hd Hw Hs.
  unfold Raw.forward, try_catch, bind, channels_fetch, downloadMedia, channel_send,
    writeFileSync, setTimeout, modify, Date_now.
  rewrite Hf, Hm. cbn. rewrite Hd. cbn. fold filePath. rewrite Hw. cbn.
  rewrite Hs. cbn.
  unfold set_timers, set_files, record. cbn. by rewrite <- !app_assoc.
Qed.

(** Once the channel has taken the text, nothing is left that can fail:
    the record stays. *)
Lemma Batch_forward_taken message contact content bridgeId attached w :
  let w' := exec (Batch.forward CONFIG env message contact content bridgeId) w in
  In (ChannelSend (Batch.formatMessage contact content bridgeId) attached true)
     (news w w') ->
  activeMessages w' = activeMessages w.
Proof.
  cbv zeta.
  unfold exec, Batch.forward, try_catch, bind, channels_fetch, downloadMedia,
    channel_send, setTimeout, writeFileSync, console_error, activeMessages_delete,
    modify.
  destruct (fetch env (tick w) (discordChannelId CONFIG)); cbn;
    [destruct (WaMessage.hasMedia message); cbn;
     [destruct (download env _ message) as [[media|]|]; cbn;
      [destruct (writes env _ _); cbn; [destruct (send env _ _ _); cbn|]|..]
     |destruct (send env _ _ _); cbn]|..];
    flatten; intros Hin; cbn in Hin; try done; intuition discriminate.
Qed.

Lemma Raw_forward_taken message content bridgeId attached w :
  let w' := exec (Raw.forward CONFIG env message content bridgeId) w in
  In (ChannelSend content attached true) (news w w') ->
  activeMessages w' = activeMessages w.
Proof.
  cbv zeta.
  unfold exec, Raw.forward, try_catch, bind, channels_fetch, downloadMedia,
    channel_send, setTimeout, writeFileSync, console_error, activeMessages_delete,
    modify, Date_now.
  destruct (fetch env (tick w) (discordChannelId CONFIG)); cbn;
    [destruct (WaMessage.hasMedia message); cbn;
     [destruct (download env _ message) as [[media|]|]; cbn;
      [destruct (writes env _ _); cbn; [destruct (send env _ _ _); cbn|]|..]
     |destruct (send env _ _ _); cbn]|..];
    flatten; intros Hin; cbn in Hin; try done; intuition discriminate.
Qed.

(** C2. In both batch variants an inbound event is admitted, that is, a
    record is stored under a fresh id and the forward to the channel is
    tried, exactly when the body as received, not trimmed, starts with
    the trigger, the origin is not [status@broadcast], the body, trimmed
    ([Batch]: after its first code unit is cut off), is not empty, and
    [getChat] and [getContact] resolve. An event that fails the test
    leaves the world as it was; so does an event that passes the test and
    whose conversation or contact does not resolve, and its handler
    throws. For an admitted event the record stays unless the error of
    the forward is logged, and it stays whenever the channel has taken
    the text, alone or with the media of the event; the channel takes the
    text once it is found and the calls up to the send succeed. *)
Theorem C2_admission_on_the_body_as_received message (w : World BridgeData.t) :
  (let w' := exec (Batch.handleWhatsAppMessage CONFIG env message) w in
   let bridgeId := freshId env w in
   (admits CONFIG true message = false -> w' = w)
   /\ (admits CONFIG true message = true ->
       WaMessage.getChat message = None \/ WaMessage.getContact message = None ->
       Batch.handleWhatsAppMessage CONFIG env message w = (Thrown (u "rejected"), w))
   /\ (forall chat contact,
       admits CONFIG true message = true ->
       WaMessage.getChat message = Some chat ->
       WaMessage.getContact message = Some contact ->
       let bridgeData :=
         BridgeData.mk (WaMessage.from message) chat message (clock w) [] in
       let discordMessage :=
         Batch.formatMessage contact (trim (substring (WaMessage.body message) 1))
                             bridgeId in
       (exists evs,
          news w w' = ChannelsFetch (discordChannelId CONFIG)
                        (fetch env (S (tick w)) (discordChannelId CONFIG)) :: evs)
       /\ (Map_get bridgeId (activeMessages w') = Some bridgeData
           \/ In (ConsoleError (u "Error bridging message to Discord:")) (news w w'))
       /\ (forall attached,
             In (ChannelSend discordMessage attached true) (news w w') ->
             Map_get bridgeId (activeMessages w') = Some bridgeData)
       /\ (fetch env (S (tick w)) (discordChannelId CONFIG) = Channel ->
           WaMessage.hasMedia message = false ->
           send env (S (S (tick w))) discordMessage [] = true ->
           news w w' = [ChannelsFetch (discordChannelId CONFIG) Channel;
                        ChannelSend discordMessage [] true])
       /\ (forall media,
             let filePath :=
               path_join env (uploadsDir CONFIG)
                 (bridgeId ++ u "_" ++ or (Media.filename media) (u "media")) in
             fetch env (S (tick w)) (discordChannelId CONFIG) = Channel ->
             WaMessage.hasMedia message = true ->
             download env (S (S (tick w))) message = Some (Some media) ->
             writes env (S (S (S (tick w)))) filePath = true ->
             send env (S (S (S (tick w)))) discordMessage [filePath] = true ->
             news w w' = [ChannelsFetch (discordChannelId CONFIG) Channel;
                          DownloadMedia true;
                          ChannelSend discordMessage [filePath] true])))
  /\
  (let w' := exec (Raw.handleWhatsAppMessage CONFIG env message) w in
   let bridgeId := freshId env w in
   (admits CONFIG false message = false -> w' = w)
   /\ (admits CONFIG false message = true ->
       WaMessage.getChat message = None \/ WaMessage.getContact message = None ->
       Raw.handleWhatsAppMessage CONFIG env message w = (Thrown (u "rejected"), w))
   /\ (forall chat contact,
       admits CONFIG false message = true ->
       WaMessage.getChat message = Some chat ->
       WaMessage.getContact message = Some contact ->
       let bridgeData :=
         BridgeData.mk (WaMessage.from message) chat message (clock w) [] in
       let discordMessage := trim (WaMessage.body message) in
       (exists evs,
          news w w' = ChannelsFetch (discordChannelId CONFIG)
                        (fetch env (S (tick w)) (discordChannelId CONFIG)) :: evs)
       /\ (Map_get bridgeId (activeMessages w') = Some bridgeData
           \/ In (ConsoleError (u "Error sending message to Discord:")) (news w w'))
       /\ (forall attached,
             In (ChannelSend discordMessage attached true) (news w w') ->
             Map_get bridgeId (activeMessages w') = Some bridgeData)
       /\ (fetch env (S (tick w)) (discordChannelId CONFIG) = Channel ->
           WaMessage.hasMedia message = false ->
           send env (S (S (tick w))) discordMessage [] = true ->
           news w w' = [ChannelsFetch (discordChannelId CONFIG) Channel;
                        ChannelSend discordMessage [] true])
       /\ (forall media,
             let filePath :=
               path_join env (uploadsDir CONFIG)
                 (show (clock w) ++ u "_" ++ or (Media.filename media) (u "media")) in
             fetch env (S (tick w)) (discordChannelId CONFIG) = Channel ->
             WaMessage.hasMedia message = true ->
             download env (S (S (tick w))) message = Some (Some media) ->
             writes env (S (S (S (tick w)))) filePath = true ->
             send env (S (S (S (tick w)))) discordMessage [filePath] = true ->
             news w w' = [ChannelsFetch (discordChannelId CONFIG) Channel;
                          DownloadMedia true;
                          ChannelSend discordMessage [filePath] true]))).
Proof.
  split; cbv zeta; (split; [intros H; unfold exec|split; [intros H Hnone|]]).
  - by rewrite Batch_ignores.
  - by apply Batch_unresolved.
  - intros chat contact H Hchat Hcontact.
    unfold exec. rewrite (Batch_admits _ chat contact _ H Hchat Hcontact).
    set (bridgeData := BridgeData.mk _ _ _ _ _).
    set (w1 := stored _ _ _).
    pose proof (Batch_forward_spec message contact
                  (trim (substring (WaMessage.body message) 1)) (freshId env w) w1)
      as [(evs & Ht) Hs].
    split; [|split; [|split; [|split]]].
    + exists evs. by apply news_app.
    + destruct Hs as [Hs|Hs]; [left|right; exact Hs].
      unfold exec in Hs. rewrite Hs. subst w1. simpl. apply Map_get_set.
    + intros attached Hin.
      pose proof (Batch_forward_taken message contact
                    (trim (substring (WaMessage.body message) 1)) (freshId env w)
                    attached w1) as Hk.
      cbv zeta in Hk. unfold exec in Hk. rewrite Hk.
      * subst w1. simpl. apply Map_get_set.
      * exact Hin.
    + intros Hf Hm Hsend. rewrite Batch_forward_text by done. simpl.
      by apply news_app.
    + intros media Hf Hm Hd Hw Hsend.
      rewrite (Batch_forward_media message media) by done. simpl.
      by apply news_app.
  - by rewrite Raw_ignores.
  - by apply Raw_unresolved.
  - intros chat contact H Hchat Hcontact.
    unfold exec. rewrite (Raw_admits _ chat contact _ H Hchat Hcontact).
    set (bridgeData := BridgeData.mk _ _ _ _ _).
    set (w1 := stored _ _ _).
    pose proof (Raw_forward_spec message (trim (WaMessage.body message))
                  (freshId env w) w1) as [(evs & Ht) Hs].
    split; [|split; [|split; [|split]]].
    + exists evs. by apply news_app.
    + destruct Hs as [Hs|Hs]; [left|right; exact Hs].
      unfold exec in Hs. rewrite Hs. subst w1. simpl. apply Map_get_set.
    + intros attached Hin.
      pose proof (Raw_forward_taken message (trim (WaMessage.body message))
                    (freshId env w) attached w1) as Hk.
      cbv zeta in Hk. unfold exec in Hk. rewrite Hk.
      * subst w1. simpl. apply Map_get_set.
      * exact Hin.
    + intros Hf Hm Hsend. rewrite Raw_forward_text by done. simpl.
      by apply news_app.
    + intros media Hf Hm Hd Hw Hsend.
      rewrite (Raw_forward_media message media) by done. simpl.
      by apply news_app.
Qed.

End Admission.

Lemma C2_admission_on_the_body_as_received_witness :
  let w : World BridgeData.t := Sample.empty 1000 in
  let w' := exec (Batch.handleWhatsAppMessage Sample.CONFIG Sample.reliable Sample.ping) w in
  let w'' := exec (Batch.handleWhatsAppMessage Sample.CONFIG Sample.reliable Sample.hello) w in
  (Map_get (u "1000_k3x9q2m1z") (activeMessages w')
   = Some (BridgeData.mk (u "4911@c.us") Sample.alice Sample.ping 1000 [])
   /\ news w w' =
      [ChannelsFetch (u "bridge-channel") Channel;
       ChannelSend (Batch.formatMessage Sample.nobody (u "ping") (u "1000_k3x9q2m1z"))
                   [] true])
  /\ w'' = w
  /\ Batch.handleWhatsAppMessage Sample.CONFIG Sample.reliable Sample.lost w
     = (Thrown (u "rejected"), w).
Proof.
  cbv zeta.
  destruct (C2_admission_on_the_body_as_received Sample.CONFIG Sample.reliable
              Sample.ping (Sample.empty 1000)) as [(_ & _ & Hping) _].
  destruct (C2_admission_on_the_body_as_received Sample.CONFIG Sample.reliable
              Sample.hello (Sample.empty 1000)) as [(Hhello & _) _].
  destruct (C2_admission_on_the_body_as_received Sample.CONFIG Sample.reliable
              Sample.lost (Sample.empty 1000)) as [(_ & Hlost & _) _].
  destruct (Hping Sample.alice Sample.nobody eq_refl eq_refl eq_refl)
    as (_ & _ & Htaken & Htext & _).
  split; [split|split].
  - apply (Htaken []). rewrite Htext by reflexivity. right. by left.
  - apply Htext; reflexivity.
  - apply Hhello. reflexivity.
  - apply Hlost; [reflexivity|by left].
Defined.

(** The body [" .ping"] passes the test on the trimmed body and is ignored
    all the same, in both batch variants: no record, nothing forwarded. *)
Lemma C2_counterexample :
  let w : World BridgeData.t := Sample.empty 1000 in
  admitsTrimmed Sample.CONFIG true Sample.spacePing = true
  /\ exec (Batch.handleWhatsAppMessage Sample.CONFIG Sample.reliable Sample.spacePing) w = w
  /\ admitsTrimmed Sample.CONFIG false Sample.spacePing = true
  /\ exec (Raw.handleWhatsAppMessage Sample.CONFIG Sample.reliable Sample.spacePing) w = w.
Proof. cbv zeta. repeat split. Qed.

(** ** The conversation reference of a record *)

Section ConversationRef.
Variable CONFIG : Config.
Variable env : Env.

Lemma Live_forward_store message chat contact content bridgeId w :
  let w' := exec (Live.forward CONFIG env message chat contact content bridgeId) w in
  activeMessages w' = activeMessages w
  \/ activeMessages w' = Map_delete bridgeId (activeMessages w).
Proof.
  cbv zeta. unfold Live.forward, exec.
  set (body := bind _ _).
  assert (respects (keeps activeMessages) body) as Hk by (subst body; structure; prim).
  specialize (Hk w). unfold try_catch, keeps in *.
  destruct (body w) as [[[]|e] w1]; simpl in *.
  - by left.
  - right. by rewrite Hk.
Qed.

Lemma Batch_forward_store message contact content bridgeId w :
  let w' := exec (Batch.forward CONFIG env message contact content bridgeId) w in
  activeMessages w' = activeMessages w
  \/ activeMessages w' = Map_delete bridgeId (activeMessages w).
Proof.
  cbv zeta. unfold Batch.forward, exec.
  set (body := bind _ _).
  assert (respects (keeps activeMessages) body) as Hk by (subst body; structure; prim).
  specialize (Hk w). unfold try_catch, keeps in *.
  destruct (body w) as [[[]|e] w1]; simpl in *.
  - by left.
  - right. by rewrite Hk.
Qed.

Lemma Raw_forward_store message content bridgeId w :
  let w' := exec (Raw.forward CONFIG env message content bridgeId) w in
  activeMessages w' = activeMessages w
  \/ activeMessages w' = Map_delete bridgeId (activeMessages w).
Proof.
  cbv zeta. unfold Raw.forward, exec.
  set (body := bind _ _).
  assert (respects (keeps activeMessages) body) as Hk by (subst body; structure; prim).
  specialize (Hk w). unfold try_catch, keeps in *.
  destruct (body w) as [[[]|e] w1]; simpl in *.
  - by left.
  - right. by rewrite Hk.
Qed.

(** The forward of the immediate variant leaves the store as it found it
    or logs its error. *)
Lemma Live_forward_spec message chat contact content bridgeId w :
  let w' := exec (Live.forward CONFIG env message chat contact content bridgeId) w in
  activeMessages w' = activeMessages w
  \/ In (ConsoleError (u "Error sending message to Discord:")) (news w w').
Proof.
  cbv zeta. unfold Live.forward, exec.
  set (body := bind _ _).
  assert (respects (emits (fun _ => True)) body) as He by (subst body; structure; emitting).
  assert (respects (keeps activeMessages) body) as Hk by (subst body; structure; prim).
  specialize (He w). specialize (Hk w). unfold try_catch, keeps in *.
  destruct (body w) as [[[]|e] w1]; simpl in *.
  - by left.
  - right. destruct He as (evs & Ht & _).
    erewrite news_app; [|simpl; rewrite Ht; by rewrite <- app_assoc].
    apply in_or_app. right. by left.
Qed.

(** C5. The record of an admitted event refers to the conversation that
    [getChat] resolved: in every variant its [whatsappChat], through
    which the replies are sent, is the resolved conversation; in the
    immediate variant its [whatsappChatId] is the id of that
    conversation; in the batch variants its [whatsappChatId] is
    [message.from], which is the id of the conversation, of a group as of
    a private one, on every event that the client delivers. The record
    is in the store when the handler returns unless the error of the
    forward was logged. *)
Theorem C5_record_refers_to_the_resolved_conversation message chat contact :
  WaMessage.getChat message = Some chat ->
  WaMessage.getContact message = Some contact ->
  (forall w : World BridgeData.t,
     admits CONFIG true message = true ->
     let w' := exec (Batch.handleWhatsAppMessage CONFIG env message) w in
     (Map_get (freshId env w) (activeMessages w')
      = Some (BridgeData.mk (WaMessage.from message) chat message (clock w) [])
      \/ In (ConsoleError (u "Error bridging message to Discord:")) (news w w'))
     /\ forall bridgeData,
          Map_get (freshId env w) (activeMessages w') = Some bridgeData ->
          BridgeData.whatsappChat bridgeData = chat
          /\ (WaMessage.from message = Chat.id_serialized chat ->
              BridgeData.whatsappChatId bridgeData = Chat.id_serialized chat))
  /\
  (forall w : World BridgeData.t,
     admits CONFIG false message = true ->
     let w' := exec (Raw.handleWhatsAppMessage CONFIG env message) w in
     (Map_get (freshId env w) (activeMessages w')
      = Some (BridgeData.mk (WaMessage.from message) chat message (clock w) [])
      \/ In (ConsoleError (u "Error sending message to Discord:")) (news w w'))
     /\ forall bridgeData,
          Map_get (freshId env w) (activeMessages w') = Some bridgeData ->
          BridgeData.whatsappChat bridgeData = chat
          /\ (WaMessage.from message = Chat.id_serialized chat ->
              BridgeData.whatsappChatId bridgeData = Chat.id_serialized chat))
  /\
  (forall w : World LiveBridgeData.t,
     admits CONFIG false message = true ->
     let w' := exec (Live.handleWhatsAppMessage CONFIG env message) w in
     (Map_get (freshId env w) (activeMessages w')
      = Some (LiveBridgeData.mk (Chat.id_serialized chat) chat message (clock w)
                (Chat.isGroup chat)
                (if Chat.isGroup chat then Some (Chat.name chat) else None))
      \/ In (ConsoleError (u "Error sending message to Discord:")) (news w w'))
     /\ forall bridgeData,
          Map_get (freshId env w) (activeMessages w') = Some bridgeData ->
          LiveBridgeData.whatsappChat bridgeData = chat
          /\ LiveBridgeData.whatsappChatId bridgeData = Chat.id_serialized chat).
Proof.
  intros Hchat Hcontact. split; [|split]; intros w Hadm; cbv zeta; unfold exec.
  - rewrite (Batch_admits CONFIG env _ chat contact _ Hadm Hchat Hcontact).
    set (w1 := stored _ _ _).
    destruct (Batch_forward_spec CONFIG env message contact
                (trim (substring (WaMessage.body message) 1)) (freshId env w) w1)
      as [_ Hspec].
    destruct (Batch_forward_store message contact
                (trim (substring (WaMessage.body message) 1)) (freshId env w) w1)
      as [Hs|Hs]; unfold exec in *.
    + rewrite Hs. subst w1. simpl. rewrite Map_get_set.
      split; [by left|]. by intros bridgeData [= <-].
    + split; [|by rewrite Hs, Map_get_delete].
      destruct Hspec as [Hsame|Hlog]; [|by right].
      left. rewrite Hsame. subst w1. simpl. by rewrite Map_get_set.
  - rewrite (Raw_admits CONFIG env _ chat contact _ Hadm Hchat Hcontact).
    set (w1 := stored _ _ _).
    destruct (Raw_forward_spec CONFIG env message (trim (WaMessage.body message))
                (freshId env w) w1) as [_ Hspec].
    destruct (Raw_forward_store message (trim (WaMessage.body message))
                (freshId env w) w1) as [Hs|Hs]; unfold exec in *.
    + rewrite Hs. subst w1. simpl. rewrite Map_get_set.
      split; [by left|]. by intros bridgeData [= <-].
    + split; [|by rewrite Hs, Map_get_delete].
      destruct Hspec as [Hsame|Hlog]; [|by right].
      left. rewrite Hsame. subst w1. simpl. by rewrite Map_get_set.
  - rewrite (Live_admits CONFIG env _ chat contact _ Hadm Hchat Hcontact).
    set (w1 := stored _ _ _).
    pose proof (Live_forward_spec message chat contact (trim (WaMessage.body message))
                  (freshId env w) w1) as Hspec.
    destruct (Live_forward_store message chat contact (trim (WaMessage.body message))
                (freshId env w) w1) as [Hs|Hs]; unfold exec in *.
    + rewrite Hs. subst w1. simpl. rewrite Map_get_set.
      split; [by left|]. by intros bridgeData [= <-].
    + split; [|by rewrite Hs, Map_get_delete].
      destruct Hspec as [Hsame|Hlog]; [|by right].
      left. rewrite Hsame. subst w1. simpl. by rewrite Map_get_set.
Qed.

End ConversationRef.

Lemma C5_record_refers_to_the_resolved_conversation_witness :
  let message := Sample.groupPing in
  let w : World BridgeData.t := Sample.empty 1000 in
  let w' : World LiveBridgeData.t := Sample.empty 1000 in
  Chat.isGroup Sample.family = true
  /\ BridgeData.whatsappChatId <$>
       Map_get (u "1000_k3x9q2m1z")
         (activeMessages
            (exec (Batch.handleWhatsAppMessage Sample.CONFIG Sample.reliable message) w))
     = Some (Chat.id_serialized Sample.family)
  /\ BridgeData.whatsappChatId <$>
       Map_get (u "1000_k3x9q2m1z")
         (activeMessages
            (exec (Raw.handleWhatsAppMessage Sample.CONFIG Sample.reliable message) w))
     = Some (Chat.id_serialized Sample.family)
  /\ LiveBridgeData.whatsappChatId <$>
       Map_get (u "1000_k3x9q2m1z")
         (activeMessages
            (exec (Live.handleWhatsAppMessage Sample.CONFIG Sample.reliable message) w'))
     = Some (Chat.id_serialized Sample.family).
Proof.
  cbv zeta.
  destruct (C5_record_refers_to_the_resolved_conversation Sample.CONFIG Sample.reliable
              Sample.groupPing Sample.family Sample.nobody eq_refl eq_refl)
    as (Hbatch & Hraw & Hlive).
  split; [reflexivity|]. split; [|split].
  - destruct (Hbatch (Sample.empty 1000) eq_refl) as [_ H].
    destruct (H _ eq_refl) as [_ Hid]. exact (f_equal Some (Hid eq_refl)).
  - destruct (Hraw (Sample.empty 1000) eq_refl) as [_ H].
    destruct (H _ eq_refl) as [_ Hid]. exact (f_equal Some (Hid eq_refl)).
  - destruct (Hlive (Sample.empty 1000) eq_refl) as [_ H].
    destruct (H _ eq_refl) as [_ Hid]. exact (f_equal Some Hid).
Defined.

(** ** A forward that fails *)

Section Rollback.
Variable CONFIG : Config.
Variable env : Env.

(** A forward that throws takes the record out again. *)
Lemma Batch_forward_rejected message contact content bridgeId w :
  fetch env (tick w) (discordChannelId CONFIG) = FetchRejected ->
  activeMessages (exec (Batch.forward CONFIG env message contact content bridgeId) w)
  = Map_delete bridgeId (activeMessages w).
Proof.
  intros Hf. unfold Batch.forward, exec, try_catch, bind, channels_fetch.
  by rewrite Hf.
Qed.

Lemma Batch_forward_send_failed message contact content bridgeId w :
  fetch env (tick w) (discordChannelId CONFIG) = Channel ->
  WaMessage.hasMedia message = false ->
  send env (S (tick w)) (Batch.formatMessage contact content bridgeId) [] = false ->
  activeMessages (exec (Batch.forward CONFIG env message contact content bridgeId) w)
  = Map_delete bridgeId (activeMessages w).
Proof.
  intros Hf Hm Hs. unfold Batch.forward, exec, try_catch, bind, channels_fetch, channel_send.
  rewrite Hf, Hm. cbn. by rewrite Hs.
Qed.

(** The early [return] on a missing channel is inside the [try] and not
    under its [catch]: the record stays, and no timer is set for it. *)
Lemma Batch_forward_channel_missing message contact content bridgeId w :
  fetch env (tick w) (discordChannelId CONFIG) = Null ->
  Batch.forward CONFIG env message contact content bridgeId w =
  (Normal tt,
   mkWorld (activeMessages w) (files w) (timers w)
     (trace w ++ [ChannelsFetch (discordChannelId CONFIG) Null;
                  ConsoleError (u "Discord channel not found")])
     (S (tick w)) (clock w)).
Proof.
  intros Hf. unfold Batch.forward, try_catch, bind, channels_fetch, console_error.
  rewrite Hf. cbn. by rewrite <- app_assoc.
Qed.

Lemma Raw_forward_channel_missing message content bridgeId w :
  fetch env (tick w) (discordChannelId CONFIG) = Null ->
  Raw.forward CONFIG env message content bridgeId w =
  (Normal tt,
   mkWorld (activeMessages w) (files w) (timers w)
     (trace w ++ [ChannelsFetch (discordChannelId CONFIG) Null;
                  ConsoleError (u "Discord channel not found")])
     (S (tick w)) (clock w)).
Proof.
  intros Hf. unfold Raw.forward, try_catch, bind, channels_fetch, console_error.
  rewrite Hf. cbn. by rewrite <- app_assoc.
Qed.

(** With a fresh id, a forward that throws leaves the store as it was
    before the event. *)
Lemma Batch_rollback message chat contact w :
  admits CONFIG true message = true ->
  WaMessage.getChat message = Some chat ->
  WaMessage.getContact message = Some contact ->
  Map_get (freshId env w) (activeMessages w) = None ->
  fetch env (S (tick w)) (discordChannelId CONFIG) = FetchRejected ->
  activeMessages (exec (Batch.handleWhatsAppMessage CONFIG env message) w)
  = activeMessages w.
Proof.
  intros Hadm Hchat Hcontact Hfresh Hf. unfold exec.
  rewrite (Batch_admits CONFIG env _ chat contact _ Hadm Hchat Hcontact).
  fold (exec (Batch.forward CONFIG env message contact
                (trim (substring (WaMessage.body message) 1)) (freshId env w))
             (stored (freshId env w)
                (BridgeData.mk (WaMessage.from message) chat message (clock w) []) w)).
  rewrite Batch_forward_rejected by done. simpl.
  by apply Map_delete_set_fresh.
Qed.

End Rollback.

(** C6. When [channels.fetch] resolves to [null] for an admitted event, in
    both batch variants the record just created is still in the store
    when the handler returns, the failure is logged, and no timer is set
    that would ever flush or remove the record. *)
Theorem C6_channel_missing_record_stays :
  let w : World BridgeData.t := Sample.empty 1000 in
  let record := BridgeData.mk (u "4911@c.us") Sample.alice Sample.ping 1000 [] in
  (let w' := exec (Batch.handleWhatsAppMessage Sample.CONFIG Sample.channelMissing
                     Sample.ping) w in
   activeMessages w = []
   /\ activeMessages w' = [(u "1000_k3x9q2m1z", record)]
   /\ timers w' = []
   /\ trace w' = [ChannelsFetch (u "bridge-channel") Null;
                  ConsoleError (u "Discord channel not found")])
  /\
  (let w' := exec (Raw.handleWhatsAppMessage Sample.CONFIG Sample.channelMissing
                     Sample.ping) w in
   activeMessages w = []
   /\ activeMessages w' = [(u "1000_k3x9q2m1z", record)]
   /\ timers w' = []
   /\ trace w' = [ChannelsFetch (u "bridge-channel") Null;
                  ConsoleError (u "Discord channel not found")]).
Proof. cbv zeta. repeat split. Qed.

(** ** Attachments that are texts *)

Section TextAttachments.
Variable CONFIG : Config.
Variable env : Env.

(** In [Raw] and in [Live] an attachment whose name ends in [.txt], in
    any case of the letters, is never sent as a file. *)
Lemma Raw_txt_never_a_file chat attachment :
  endsWith (toLowerCase (Descriptor.name attachment)) (u ".txt") = true ->
  respects (emits (fun e => ~ sendsFile e)) (Raw.sendAttachment env chat attachment).
Proof.
  intros Htxt. unfold Raw.sendAttachment. rewrite Htxt. cbv iota.
  structure;
    first [ apply sendMessage_emits; intros ok; simpl; tauto
          | apply console_error_emits; simpl; tauto | emitting ].
Qed.

Lemma Live_txt_never_a_file bridgeId chat attachment :
  endsWith (toLowerCase (Attachment.name attachment)) (u ".txt") = true ->
  respects (emits (fun e => ~ sendsFile e))
           (Live.relayAttachment CONFIG env bridgeId chat attachment).
Proof.
  intros Htxt. unfold Live.relayAttachment. rewrite Htxt. cbv iota.
  structure;
    first [ apply sendMessage_emits; intros ok; simpl; tauto
          | apply axios_get_emits; intros ok; simpl; tauto
          | apply console_error_emits; simpl; tauto | emitting ].
Qed.

(** With the file in place and the send accepted, [Raw] sends the content
    of a [.txt] attachment, decoded as UTF-8, as a text. *)
Lemma Raw_txt_inline chat attachment bytes w :
  endsWith (toLowerCase (Descriptor.name attachment)) (u ".txt") = true ->
  files w !! Descriptor.path attachment = Some bytes ->
  deliver env (tick w) chat (Text (utf8 env bytes)) = true ->
  news w (exec (Raw.sendAttachment env chat attachment) w)
  = [SendMessage chat (Text (utf8 env bytes)) true].
Proof.
  intros Htxt Hfile Hok. apply news_app.
  unfold Raw.sendAttachment, exec, try_catch, bind, existsSync, readFileSync,
    sendMessage, unlinkSync.
  rewrite Htxt, Hfile. cbn. rewrite Hfile. cbn. rewrite Hok. cbn.
  unfold record. cbn. by rewrite Hfile.
Qed.

End TextAttachments.

(** C7. The flush of [Batch] has no case for [.txt]: the attachment
    [notes.txt] of a collected reply is sent as a file with a caption.
    The flush of [Raw] sends its content as a text. *)
Theorem C7_batch_flush_sends_txt_as_file :
  let fs : gmap str str := {[ u "/tmp/1_a_notes.txt" := u "remember the milk" ]} in
  let w := Sample.due [Sample.said (u "") [Sample.notesFile]] fs in
  endsWith (Descriptor.name Sample.notesFile) (u ".txt") = true
  /\ trace (exec (Batch.processCollectedResponses Sample.reliable (u "1_a")) w)
     = [SendMessage Sample.alice
          (MediaFile (u "/tmp/1_a_notes.txt") (u "remember the milk")
             (Some (Batch.caption (u "notes.txt") (u "carol")))) true;
        SendMessage Sample.alice (Text (Batch.summary 1)) true]
  /\ trace (exec (Raw.processCollectedResponses Sample.reliable (u "1_a")) w)
     = [SendMessage Sample.alice (Text (u "remember the milk")) true].
Proof. cbv zeta. repeat split. Qed.

(** ** Loops *)

Section Loops.
Context {R A : Type}.
Variable body : A -> M R unit.


(** A loop whose steps each succeed and establish something that the
    later steps keep. *)
Lemma for_of_post (post : A -> World R -> Prop) :
  (forall x w, fst (body x w) = Normal tt /\ post x (snd (body x w))) ->
  (forall x y w, post x w -> post x (snd (body y w))) ->
  forall xs w,
    fst (for_of xs body w) = Normal tt
    /\ forall x, In x xs -> post x (snd (for_of xs body w)).
Proof.
  intros Hbody Hkeep xs. induction xs as [|x xs IH]; intros w; simpl.
  - split; [done|tauto].
  - unfold bind. destruct (Hbody x w) as [Hn Hp].
    destruct (body x w) as [c w1]. simpl in *. subst c.
    destruct (IH w1) as [Hn' Hp']. split; [done|].
    intros y [<-|Hy]; [|by apply Hp'].
    clear -Hp Hkeep. revert w1 Hp.
    induction xs as [|z xs IH]; intros w1 Hp; simpl; [done|].
    unfold bind. specialize (Hkeep x z w1 Hp).
    destruct (body z w1) as [[[]|e] w2]; simpl in *; [by apply IH|done].
Qed.

End Loops.

Section Delivered.
Context {R : Type}.
Implicit Types (w : World R) (fs : gmap str str) (chat : Chat.t).

Lemma lookup_unlinked fs gone p :
  p ∉ gone -> foldl (fun fs p => delete p fs) fs gone !! p = fs !! p.
Proof.
  revert fs. induction gone as [|q gone IH]; intros fs Hp; simpl; [done|].
  apply not_elem_of_cons in Hp as [Hne Hp].
  rewrite IH by done. by apply lookup_delete_ne.
Qed.

Lemma delivered_delivered chat ps1 ps2 g1 g2 dt1 dt2 w :
  delivered chat ps2 g2 dt2 (delivered chat ps1 g1 dt1 w)
  = delivered chat (ps1 ++ ps2) (g1 ++ g2) (dt1 + dt2) w.
Proof.
  unfold delivered. simpl. f_equal.
  - by rewrite foldl_app.
  - by rewrite map_app, app_assoc.
  - rewrite length_app. lia.
  - lia.
Qed.

Lemma delivered_nothing chat w : delivered chat [] [] 0 w = w.
Proof.
  destruct w. unfold delivered. simpl. f_equal.
  - by rewrite app_nil_r.
  - lia.
  - lia.
Qed.

(** A loop whose steps each deliver payloads read from their own files,
    which they then unlink. *)
Lemma for_of_delivered {A} chat (body : A -> M R unit)
    (pay : gmap str str -> A -> list WaPayload) (gone : A -> list str) (dt : A -> Z) :
  (forall x fs fs', (forall p, p ∈ gone x -> fs !! p = fs' !! p) -> pay fs x = pay fs' x) ->
  (forall x w,
     NoDup (gone x) ->
     (forall p, p ∈ gone x -> is_Some (files w !! p)) ->
     body x w = (Normal tt, delivered chat (pay (files w) x) (gone x) (dt x) w)) ->
  forall xs w,
    NoDup (flat_map gone xs) ->
    (forall p, p ∈ flat_map gone xs -> is_Some (files w !! p)) ->
    for_of xs body w
    = (Normal tt,
       delivered chat (flat_map (pay (files w)) xs) (flat_map gone xs)
                 (foldr (fun x acc => dt x + acc) 0 xs) w).
Proof.
  intros Hpay Hbody xs. induction xs as [|x xs IH]; intros w Hnd Hex; simpl.
  - by rewrite delivered_nothing.
  - simpl in Hnd. apply NoDup_app in Hnd as (Hx & Hdisj & Hxs).
    unfold bind. rewrite Hbody; [|done|].
    2:{ intros p Hp. apply Hex. simpl. apply elem_of_app. by left. }
    remember (delivered chat (pay (files w) x) (gone x) (dt x) w) as w1 eqn:Ew1.
    assert (forall p, p ∈ flat_map gone xs -> files w1 !! p = files w !! p) as Hsame.
    { intros p Hp. subst w1. simpl. apply lookup_unlinked.
      intros Hin. by apply (Hdisj p). }
    rewrite IH; [|done|].
    2:{ intros p Hp. rewrite Hsame by done. apply Hex. simpl.
        apply elem_of_app. by right. }
    assert (flat_map (pay (files w1)) xs = flat_map (pay (files w)) xs) as ->.
    { clear -Hpay Hsame. induction xs as [|y xs IH]; simpl; [done|].
      rewrite IH.
      - f_equal. apply Hpay. intros p Hp. apply Hsame. simpl.
        apply elem_of_app. by left.
      - intros p Hp. apply Hsame. simpl. apply elem_of_app. by right. }
    subst w1. by rewrite delivered_delivered.
Qed.

End Delivered.

(** ** The flush when every send succeeds *)

Section FlushDelivers.
Variable env : Env.
Hypothesis Hok : forall n chat p, deliver env n chat p = true.

Lemma sendMessage_ok {R} chat p (w : World R) :
  sendMessage env chat p w = (Normal tt, delivered chat [p] [] 0 w).
Proof.
  unfold sendMessage, delivered, record. rewrite Hok. simpl. do 2 f_equal; lia.
Qed.

Lemma flat_map_singleton {A B} (f : A -> B) (l : list A) :
  flat_map (fun x => [f x]) l = map f l.
Proof. induction l as [|x l IH]; simpl; [done|by rewrite IH]. Qed.

Lemma foldr_zero {A} (l : list A) : foldr (fun _ acc => 0 + acc) 0 l = 0.
Proof. induction l as [|x l IH]; simpl; [done|by rewrite IH]. Qed.

Lemma foldr_sleep {A} (l : list A) :
  foldr (fun _ acc => 1000 + acc) 0 l = 1000 * Z.of_nat (length l).
Proof. induction l as [|x l IH]; simpl length; simpl foldr; [done|rewrite IH; lia]. Qed.

Lemma Raw_sendAttachment_ok chat attachment (w : World BridgeData.t) :
  is_Some (files w !! Descriptor.path attachment) ->
  Raw.sendAttachment env chat attachment w
  = (Normal tt,
     delivered chat [Raw_payload env (files w) attachment] [Descriptor.path attachment] 0 w).
Proof.
  intros [bytes Hfile].
  unfold Raw.sendAttachment, Raw_payload, try_catch, bind, existsSync, readFileSync,
    fromFilePath, unlinkSync, bind, readFileSync, ret.
  rewrite Hfile. cbn.
  destruct (endsWith (toLowerCase (Descriptor.name attachment)) (u ".txt"));
    rewrite ?Hfile; cbn; rewrite sendMessage_ok; cbn; rewrite Hfile; cbn;
    unfold delivered, set_files; cbn; do 2 f_equal; lia.
Qed.

Lemma Batch_sendAttachment_ok chat response attachment (w : World BridgeData.t) :
  is_Some (files w !! Descriptor.path attachment) ->
  Batch.sendAttachment env chat response attachment w
  = (Normal tt,
     delivered chat [Batch_payload (files w) response attachment]
               [Descriptor.path attachment] 0 w).
Proof.
  intros [bytes Hfile].
  unfold Batch.sendAttachment, Batch_payload, try_catch, bind, existsSync,
    fromFilePath, unlinkSync, bind, readFileSync, ret.
  rewrite Hfile. cbn. rewrite Hfile. cbn. rewrite sendMessage_ok. cbn.
  rewrite Hfile. cbn. unfold delivered, set_files. cbn. do 2 f_equal; lia.
Qed.

Lemma Raw_sendResponse_ok chat response (w : World BridgeData.t) :
  NoDup (map Descriptor.path (Response.attachments response)) ->
  (forall p, p ∈ map Descriptor.path (Response.attachments response) ->
             is_Some (files w !! p)) ->
  Raw.sendResponse env chat response w
  = (Normal tt,
     delivered chat (Raw_relayed env (files w) response)
               (map Descriptor.path (Response.attachments response)) 1000 w).
Proof.
  intros Hnd Hex. unfold Raw.sendResponse, Raw_relayed.
  set (text := if truthy (trim (Response.content response))
               then [Text (Response.content response)] else []).
  assert ((if truthy (trim (Response.content response))
           then sendMessage env chat (Text (Response.content response))
           else ret tt) w = (Normal tt, delivered chat text [] 0 w)) as Htext.
  { subst text. destruct (truthy _); [apply sendMessage_ok|].
    by rewrite delivered_nothing. }
  unfold bind at 1. rewrite Htext.
  unfold bind at 1.
  rewrite (for_of_delivered chat (Raw.sendAttachment env chat)
             (fun fs a => [Raw_payload env fs a]) (fun a => [Descriptor.path a])
             (fun _ => 0)).
  - unfold sleep, modify. rewrite !flat_map_singleton, foldr_zero.
    rewrite delivered_delivered. simpl.
    f_equal. unfold delivered, set_clock. simpl. f_equal. lia.
  - intros a fs fs' H. unfold Raw_payload. rewrite (H (Descriptor.path a)); [done|].
    apply list_elem_of_singleton. done.
  - intros a w' _ H. apply Raw_sendAttachment_ok. apply H.
    by apply list_elem_of_singleton.
  - by rewrite flat_map_singleton.
  - rewrite flat_map_singleton. exact Hex.
Qed.

Lemma Batch_sendResponse_ok chat response (w : World BridgeData.t) :
  NoDup (map Descriptor.path (Response.attachments response)) ->
  (forall p, p ∈ map Descriptor.path (Response.attachments response) ->
             is_Some (files w !! p)) ->
  Batch.sendResponse env chat response w
  = (Normal tt,
     delivered chat (Batch_relayed (files w) response)
               (map Descriptor.path (Response.attachments response)) 1000 w).
Proof.
  intros Hnd Hex. unfold Batch.sendResponse, Batch_relayed.
  set (text := if truthy (trim (Response.content response))
               then [Text (Batch.messageText response)] else []).
  assert ((if truthy (trim (Response.content response))
           then sendMessage env chat (Text (Batch.messageText response))
           else ret tt) w = (Normal tt, delivered chat text [] 0 w)) as Htext.
  { subst text. destruct (truthy _); [apply sendMessage_ok|].
    by rewrite delivered_nothing. }
  unfold bind at 1. rewrite Htext.
  unfold bind at 1.
  rewrite (for_of_delivered chat (Batch.sendAttachment env chat response)
             (fun fs a => [Batch_payload fs response a]) (fun a => [Descriptor.path a])
             (fun _ => 0)).
  - unfold sleep, modify. rewrite !flat_map_singleton, foldr_zero.
    rewrite delivered_delivered. simpl.
    f_equal. unfold delivered, set_clock. simpl. f_equal. lia.
  - intros a fs fs' H. unfold Batch_payload. rewrite (H (Descriptor.path a)); [done|].
    apply list_elem_of_singleton. done.
  - intros a w' _ H. apply Batch_sendAttachment_ok. apply H.
    by apply list_elem_of_singleton.
  - by rewrite flat_map_singleton.
  - rewrite flat_map_singleton. exact Hex.
Qed.

End FlushDelivers.

Section FlushInOrder.
Variable env : Env.

Lemma Batch_relayed_local fs fs' response :
  (forall p, p ∈ map Descriptor.path (Response.attachments response) -> fs !! p = fs' !! p) ->
  Batch_relayed fs response = Batch_relayed fs' response.
Proof.
  intros H. unfold Batch_relayed. f_equal. apply map_ext_in. intros a Ha.
  unfold Batch_payload. rewrite H; [done|].
  apply list_elem_of_In. by apply in_map.
Qed.

Lemma Raw_relayed_local fs fs' response :
  (forall p, p ∈ map Descriptor.path (Response.attachments response) -> fs !! p = fs' !! p) ->
  Raw_relayed env fs response = Raw_relayed env fs' response.
Proof.
  intros H. unfold Raw_relayed. f_equal. apply map_ext_in. intros a Ha.
  unfold Raw_payload. rewrite H; [done|].
  apply list_elem_of_In. by apply in_map.
Qed.


End FlushInOrder.



(** ** Scratch files *)

Section NoNewFile.
Context {R : Type}.
Variable env : Env.

Lemma sendMessage_noNewFile chat p : respects noNewFile (@sendMessage R env chat p).
Proof. intros w q Hq. unfold sendMessage. by case_match. Qed.

Lemma console_error_noNewFile msg : respects noNewFile (@console_error R msg).
Proof. by intros w q Hq. Qed.

Lemma existsSync_noNewFile filePath : respects noNewFile (@existsSync R filePath).
Proof. by intros w q Hq. Qed.

Lemma readFileSync_noNewFile filePath : respects noNewFile (@readFileSync R env filePath).
Proof. intros w q Hq. unfold readFileSync. by case_match. Qed.

Lemma fromFilePath_noNewFile filePath caption :
  respects noNewFile (@fromFilePath R filePath caption).
Proof. intros w q Hq. unfold fromFilePath. by case_match. Qed.

Lemma unlinkSync_noNewFile filePath : respects noNewFile (@unlinkSync R filePath).
Proof.
  intros w q Hq. unfold unlinkSync. case_match; simpl; [|done].
  rewrite lookup_delete. by case_decide.
Qed.

Lemma sleep_noNewFile delay : respects noNewFile (@sleep R delay).
Proof. by intros w q Hq. Qed.

(** The callback of the linger timer leaves no file at its path, whenever
    it runs. *)
Lemma unlinkIfExists_releases filePath (w : World R) :
  files (exec (unlinkIfExists filePath) w) !! filePath = None.
Proof.
  unfold unlinkIfExists, exec, bind, existsSync, unlinkSync. simpl.
  destruct (files w !! filePath) eqn:E; simpl.
  - rewrite E. simpl. apply lookup_delete_eq.
  - done.
Qed.

End NoNewFile.

Ltac shrinking :=
  first [ apply sendMessage_noNewFile | apply console_error_noNewFile
        | apply existsSync_noNewFile | apply readFileSync_noNewFile
        | apply fromFilePath_noNewFile
        | apply unlinkSync_noNewFile | apply sleep_noNewFile ].

Section Scratch.
Variable CONFIG : Config.
Variable env : Env.

(** When the channel refuses the send, the file that was written stays,
    the record is deleted and no timer is set. *)
Lemma Batch_forward_media_refused message media contact content bridgeId
    (w : World BridgeData.t) :
  let filePath :=
    path_join env (uploadsDir CONFIG)
              (bridgeId ++ u "_" ++ or (Media.filename media) (u "media")) in
  fetch env (tick w) (discordChannelId CONFIG) = Channel ->
  WaMessage.hasMedia message = true ->
  download env (S (tick w)) message = Some (Some media) ->
  writes env (S (S (tick w))) filePath = true ->
  send env (S (S (tick w))) (Batch.formatMessage contact content bridgeId) [filePath]
  = false ->
  Batch.forward CONFIG env message contact content bridgeId w =
  (Normal tt,
   mkWorld (Map_delete bridgeId (activeMessages w))
     (<[filePath := base64 env (Media.data media)]> (files w))
     (timers w)
     (trace w ++ [ChannelsFetch (discordChannelId CONFIG) Channel;
                  DownloadMedia true;
                  ChannelSend (Batch.formatMessage contact content bridgeId)
                              [filePath] false;
                  ConsoleError (u "Error bridging message to Discord:")])
     (S (S (S (tick w)))) (clock w)).
Proof.
  intros filePath Hf Hm Hd Hw Hs.
  unfold Batch.forward, try_catch, bind, channels_fetch, downloadMedia, writeFileSync,
    channel_send, console_error, activeMessages_delete, modify.
  rewrite Hf, Hm. cbn. rewrite Hd. cbn. fold filePath. rewrite Hw. cbn. rewrite Hs. cbn.
  unfold set_activeMessages. cbn. by rewrite <- !app_assoc.
Qed.

Lemma Raw_forward_media_refused message media content bridgeId (w : World BridgeData.t) :
  let filePath :=
    path_join env (uploadsDir CONFIG)
              (show (clock w) ++ u "_" ++ or (Media.filename media) (u "media")) in
  fetch env (tick w) (discordChannelId CONFIG) = Channel ->
  WaMessage.hasMedia message = true ->
  download env (S (tick w)) message = Some (Some media) ->
  writes env (S (S (tick w))) filePath = true ->
  send env (S (S (tick w))) content [filePath] = false ->
  Raw.forward CONFIG env message content bridgeId w =
  (Normal tt,
   mkWorld (Map_delete bridgeId (activeMessages w))
     (<[filePath := base64 env (Media.data media)]> (files w))
     (timers w)
     (trace w ++ [ChannelsFetch (discordChannelId CONFIG) Channel;
                  DownloadMedia true;
                  ChannelSend content [filePath] false;
                  ConsoleError (u "Error sending message to Discord:")])
     (S (S (S (tick w)))) (clock w)).
Proof.
  intros filePath Hf Hm Hd Hw Hs.
  unfold Raw.forward, try_catch, bind, channels_fetch, downloadMedia, writeFileSync,
    channel_send, console_error, activeMessages_delete, modify, Date_now.
  rewrite Hf, Hm. cbn. rewrite Hd. cbn. fold filePath. rewrite Hw. cbn. rewrite Hs. cbn.
  unfold set_activeMessages. cbn. by rewrite <- !app_assoc.
Qed.

Lemma Live_forward_media_refused message media chat contact content bridgeId
    (w : World LiveBridgeData.t) :
  let filePath :=
    path_join env (uploadsDir CONFIG)
              (show (clock w) ++ u "_" ++ or (Media.filename media) (u "media")) in
  fetch env (tick w) (discordChannelId CONFIG) = Channel ->
  WaMessage.hasMedia message = true ->
  download env (S (tick w)) message = Some (Some media) ->
  writes env (S (S (tick w))) filePath = true ->
  send env (S (S (tick w))) (Live.formatMessage message chat contact content) [filePath]
  = false ->
  Live.forward CONFIG env message chat contact content bridgeId w =
  (Normal tt,
   mkWorld (Map_delete bridgeId (activeMessages w))
     (<[filePath := base64 env (Media.data media)]> (files w))
     (timers w)
     (trace w ++ [ChannelsFetch (discordChannelId CONFIG) Channel;
                  DownloadMedia true;
                  ChannelSend (Live.formatMessage message chat contact content)
                              [filePath] false;
                  ConsoleError (u "Error sending message to Discord:")])
     (S (S (S (tick w)))) (clock w)).
Proof.
  intros filePath Hf Hm Hd Hw Hs.
  unfold Live.forward, try_catch, bind, channels_fetch, downloadMedia, writeFileSync,
    channel_send, console_error, activeMessages_delete, modify, Date_now.
  rewrite Hf, Hm. cbn. rewrite Hd. cbn. fold filePath. rewrite Hw. cbn. rewrite Hs. cbn.
  unfold set_activeMessages. cbn. by rewrite <- !app_assoc.
Qed.

(** The forward of a media event in the immediate variant, when every
    call succeeds. *)
Lemma Live_forward_media message media chat contact content bridgeId
    (w : World LiveBridgeData.t) :
  let filePath :=
    path_join env (uploadsDir CONFIG)
              (show (clock w) ++ u "_" ++ or (Media.filename media) (u "media")) in
  fetch env (tick w) (discordChannelId CONFIG) = Channel ->
  WaMessage.hasMedia message = true ->
  download env (S (tick w)) message = Some (Some media) ->
  writes env (S (S (tick w))) filePath = true ->
  send env (S (S (tick w))) (Live.formatMessage message chat contact content) [filePath]
  = true ->
  Live.forward CONFIG env message chat contact content bridgeId w =
  (Normal tt,
   mkWorld (activeMessages w)
     (<[filePath := base64 env (Media.data media)]> (files w))
     (timers w ++ [(clock w + 5000, UnlinkIfExists filePath);
                   (clock w + messageTimeout CONFIG, CleanupBridgeSession bridgeId)])
     (trace w ++ [ChannelsFetch (discordChannelId CONFIG) Channel;
                  DownloadMedia true;
                  ChannelSend (Live.formatMessage message chat contact content)
                              [filePath] true])
     (S (S (S (tick w)))) (clock w)).
Proof.
  intros filePath Hf Hm Hd Hw Hs.
  unfold Live.forward, try_catch, bind, channels_fetch, downloadMedia, channel_send,
    writeFileSync, setTimeout, modify, Date_now.
  rewrite Hf, Hm. cbn. rewrite Hd. cbn. fold filePath. rewrite Hw. cbn.
  rewrite Hs. cbn.
  unfold set_timers, set_files, record. cbn. by rewrite <- !app_assoc.
Qed.

(** The file of an attachment of a reply, at the flush: deleted when the
    conversation takes it, left when the delivery fails. *)
Lemma Batch_sendAttachment_file chat response attachment bytes (w : World BridgeData.t) :
  files w !! Descriptor.path attachment = Some bytes ->
  let payload :=
    MediaFile (Descriptor.path attachment) bytes
      (Some (Batch.caption (Descriptor.name attachment) (Response.author response))) in
  let w' := exec (Batch.sendAttachment env chat response attachment) w in
  if deliver env (tick w) chat payload
  then files w' = delete (Descriptor.path attachment) (files w)
  else files w' = files w.
Proof.
  intros Hfile. cbv zeta.
  unfold exec, Batch.sendAttachment, try_catch, bind, existsSync, fromFilePath,
    sendMessage, unlinkSync, console_error.
  rewrite Hfile. cbn. rewrite Hfile. cbn.
  destruct (deliver env (tick w) chat _); cbn.
  - by rewrite Hfile.
  - by case_match.
Qed.

Lemma Raw_sendAttachment_file chat attachment bytes (w : World BridgeData.t) :
  files w !! Descriptor.path attachment = Some bytes ->
  let w' := exec (Raw.sendAttachment env chat attachment) w in
  if deliver env (tick w) chat (Raw_payload env (files w) attachment)
  then files w' = delete (Descriptor.path attachment) (files w)
  else files w' = files w.
Proof.
  intros Hfile. cbv zeta.
  unfold exec, Raw.sendAttachment, Raw_payload, try_catch, bind, existsSync,
    readFileSync, fromFilePath, sendMessage, unlinkSync, console_error.
  rewrite Hfile. cbn.
  destruct (endsWith (toLowerCase (Descriptor.name attachment)) (u ".txt"));
    rewrite ?Hfile; cbn;
    (destruct (deliver env (tick w) chat _); cbn; [by rewrite Hfile|by case_match]).
Qed.

(** The file of an attachment of a reply, in the immediate variant. *)
Lemma Live_relayAttachment_files bridgeId chat attachment (w : World LiveBridgeData.t) :
  let filePath :=
    path_join env (uploadsDir CONFIG) (bridgeId ++ u "_" ++ Attachment.name attachment) in
  let w' := exec (Live.relayAttachment CONFIG env bridgeId chat attachment) w in
  timers w' = timers w
  /\ activeMessages w' = activeMessages w
  /\ match axios env (tick w) (Attachment.url attachment) with
     | None => files w' = files w
     | Some bytes =>
         if writes env (S (tick w)) filePath then
           let payload :=
             if endsWith (toLowerCase (Attachment.name attachment)) (u ".txt")
             then Text (Live.robot (utf8 env bytes))
             else MediaFile filePath bytes (Some (Live.robot (u "Datei von Discord"))) in
           if deliver env (S (tick w)) chat payload
           then files w' = delete filePath (files w)
           else files w' = <[filePath := bytes]> (files w)
         else files w' = files w
     end.
Proof.
  cbv zeta.
  set (p := path_join env (uploadsDir CONFIG) (bridgeId ++ u "_" ++ Attachment.name attachment)).
  unfold exec, Live.relayAttachment, try_catch, bind, axios_get, writeFileSync, modify,
    console_error.
  fold p.
  destruct (axios env (tick w) (Attachment.url attachment)) as [bytes|]; cbn; [|done].
  destruct (writes env (S (tick w)) p); cbn; [|done].
  destruct (endsWith (toLowerCase (Attachment.name attachment)) (u ".txt")).
  - unfold bind, readFileSync, sendMessage. cbn. rewrite !lookup_insert_eq. cbn.
    destruct (deliver env (S (tick w)) chat (Text (Live.robot (utf8 env bytes)))); cbn;
      [|done].
    unfold unlinkIfExists, bind, existsSync, unlinkSync. cbn.
    rewrite !lookup_insert_eq. rewrite !bool_decide_eq_true_2 by by eexists.
    cbn. rewrite !lookup_insert_eq. cbn. by rewrite delete_insert_eq.
  - unfold fromFilePath, bind, readFileSync, sendMessage, ret. cbn.
    rewrite !lookup_insert_eq. cbn.
    destruct (deliver env (S (tick w)) chat _); cbn; [|done].
    unfold unlinkIfExists, bind, existsSync, unlinkSync. cbn.
    rewrite !lookup_insert_eq. rewrite !bool_decide_eq_true_2 by by eexists.
    cbn. rewrite !lookup_insert_eq. cbn. by rewrite delete_insert_eq.
Qed.

Hypothesis Hok : forall n chat p, deliver env n chat p = true.

Lemma Batch_sendAttachment_releases chat response attachment (w : World BridgeData.t) :
  fst (Batch.sendAttachment env chat response attachment w) = Normal tt
  /\ files (snd (Batch.sendAttachment env chat response attachment w))
       !! Descriptor.path attachment = None.
Proof.
  destruct (files w !! Descriptor.path attachment) as [bytes|] eqn:Hfile.
  - rewrite Batch_sendAttachment_ok by eauto. simpl. split; [done|].
    apply lookup_delete_eq.
  - unfold Batch.sendAttachment, try_catch, bind, existsSync. rewrite Hfile. by cbn.
Qed.

Lemma Batch_sendAttachment_noNewFile chat response attachment :
  respects noNewFile (Batch.sendAttachment env chat response attachment).
Proof. unfold Batch.sendAttachment. structure; shrinking. Qed.

Lemma Batch_sendResponse_noNewFile chat response :
  respects noNewFile (Batch.sendResponse env chat response).
Proof. unfold Batch.sendResponse. structure; shrinking. Qed.

Lemma Batch_sendResponse_releases chat response (w : World BridgeData.t) :
  fst (Batch.sendResponse env chat response w) = Normal tt
  /\ forall attachment,
       In attachment (Response.attachments response) ->
       files (snd (Batch.sendResponse env chat response w))
         !! Descriptor.path attachment = None.
Proof.
  unfold Batch.sendResponse.
  set (text := if truthy _ then _ else _).
  assert (exists w1, text w = (Normal tt, w1)) as [w1 Ht].
  { subst text. destruct (truthy _); [|by eexists].
    rewrite sendMessage_ok by done. by eexists. }
  assert (exists w2,
            (text ;; for_of (Response.attachments response)
                            (Batch.sendAttachment env chat response) ;; sleep 1000) w
            = (Normal tt, w2)
            /\ forall a, In a (Response.attachments response) ->
                         files w2 !! Descriptor.path a = None) as (w2 & -> & H).
  { unfold bind. rewrite Ht.
    destruct (for_of_post (Batch.sendAttachment env chat response)
                (fun a w => files w !! Descriptor.path a = None)
                (fun a w => Batch_sendAttachment_releases chat response a w)
                (fun a b w H => Batch_sendAttachment_noNewFile chat response b w _ H)
                (Response.attachments response) w1) as [Hn Hp].
    destruct (for_of _ _ w1) as [c w2]. simpl in Hn, Hp. subst c.
    eexists. split; [reflexivity|]. exact Hp. }
  by split.
Qed.

(** When every send succeeds, the flush of [Batch] leaves no scratch file
    of the replies. *)
Lemma Batch_flush_releases bridgeId bridgeData (w : World BridgeData.t) :
  Map_get bridgeId (activeMessages w) = Some bridgeData ->
  scratchReleased (BridgeData.responses bridgeData)
                  (exec (Batch.processCollectedResponses env bridgeId) w).
Proof.
  intros Hget p Hp. unfold scratchPaths in Hp.
  apply in_flat_map in Hp as (response & Hr & Hp).
  apply in_map_iff in Hp as (attachment & <- & Ha).
  unfold Batch.processCollectedResponses, exec, bind, activeMessages_get.
  rewrite Hget. cbn. unfold try_finally, try_catch.
  destruct (BridgeData.responses bridgeData) as [|r rs] eqn:Hrs; [done|].
  cbn [length Nat.eqb].
  destruct (for_of_post (Batch.sendResponse env (BridgeData.whatsappChat bridgeData))
              (fun r w => forall a, In a (Response.attachments r) ->
                                    files w !! Descriptor.path a = None)
              (fun r w => Batch_sendResponse_releases _ r w)
              (fun r r' w H a Ha =>
                 Batch_sendResponse_noNewFile _ r' w _ (H a Ha))
              (r :: rs) w) as [Hn Hpost].
  unfold bind.
  destruct (for_of (r :: rs) _ w) as [c w1]. simpl in Hn, Hpost. subst c.
  rewrite sendMessage_ok by done. cbn. by apply (Hpost response).
Qed.

End Scratch.

(** C9. A scratch file is deleted once the send it was written for has
    succeeded, and is left in place after a send that failed, file by
    file and in every variant. The file of an inbound attachment is in
    place when the channel has taken it and is deleted by the timer set
    5 s later, whenever that timer runs; when the channel refuses it the
    file stays and no timer is set. The file of an attachment of a reply
    is deleted, at the flush or in the immediate relay, when the
    conversation has taken it, and is left when the delivery fails. When
    every send of the flush succeeds, no scratch file of the collected
    replies is left once the flush is over. *)
Theorem C9_scratch_file_released_after_successful_send CONFIG env :
  (forall message chat contact media (w : World BridgeData.t),
     let bridgeId := freshId env w in
     let content := trim (substring (WaMessage.body message) 1) in
     let filePath :=
       path_join env (uploadsDir CONFIG)
                 (bridgeId ++ u "_" ++ or (Media.filename media) (u "media")) in
     let discordMessage := Batch.formatMessage contact content bridgeId in
     admits CONFIG true message = true ->
     WaMessage.getChat message = Some chat ->
     WaMessage.getContact message = Some contact ->
     WaMessage.hasMedia message = true ->
     fetch env (S (tick w)) (discordChannelId CONFIG) = Channel ->
     download env (S (S (tick w))) message = Some (Some media) ->
     writes env (S (S (S (tick w)))) filePath = true ->
     let w' := exec (Batch.handleWhatsAppMessage CONFIG env message) w in
     (send env (S (S (S (tick w)))) discordMessage [filePath] = true ->
      files w' !! filePath = Some (base64 env (Media.data media))
      /\ In (clock w + 5000, UnlinkIfExists filePath) (timers w')
      /\ forall w'' : World BridgeData.t,
           files (exec (Batch.run env (UnlinkIfExists filePath)) w'') !! filePath = None)
     /\ (send env (S (S (S (tick w)))) discordMessage [filePath] = false ->
         files w' !! filePath = Some (base64 env (Media.data media))
         /\ timers w' = timers w))
  /\
  (forall message chat contact media (w : World BridgeData.t),
     let content := trim (WaMessage.body message) in
     let filePath :=
       path_join env (uploadsDir CONFIG)
                 (show (clock w) ++ u "_" ++ or (Media.filename media) (u "media")) in
     admits CONFIG false message = true ->
     WaMessage.getChat message = Some chat ->
     WaMessage.getContact message = Some contact ->
     WaMessage.hasMedia message = true ->
     fetch env (S (tick w)) (discordChannelId CONFIG) = Channel ->
     download env (S (S (tick w))) message = Some (Some media) ->
     writes env (S (S (S (tick w)))) filePath = true ->
     let w' := exec (Raw.handleWhatsAppMessage CONFIG env message) w in
     (send env (S (S (S (tick w)))) content [filePath] = true ->
      files w' !! filePath = Some (base64 env (Media.data media))
      /\ In (clock w + 5000, UnlinkIfExists filePath) (timers w')
      /\ forall w'' : World BridgeData.t,
           files (exec (Raw.run env (UnlinkIfExists filePath)) w'') !! filePath = None)
     /\ (send env (S (S (S (tick w)))) content [filePath] = false ->
         files w' !! filePath = Some (base64 env (Media.data media))
         /\ timers w' = timers w))
  /\
  (forall message chat contact media (w : World LiveBridgeData.t),
     let content := trim (WaMessage.body message) in
     let filePath :=
       path_join env (uploadsDir CONFIG)
                 (show (clock w) ++ u "_" ++ or (Media.filename media) (u "media")) in
     let discordMessage := Live.formatMessage message chat contact content in
     admits CONFIG false message = true ->
     WaMessage.getChat message = Some chat ->
     WaMessage.getContact message = Some contact ->
     WaMessage.hasMedia message = true ->
     fetch env (S (tick w)) (discordChannelId CONFIG) = Channel ->
     download env (S (S (tick w))) message = Some (Some media) ->
     writes env (S (S (S (tick w)))) filePath = true ->
     let w' := exec (Live.handleWhatsAppMessage CONFIG env message) w in
     (send env (S (S (S (tick w)))) discordMessage [filePath] = true ->
      files w' !! filePath = Some (base64 env (Media.data media))
      /\ In (clock w + 5000, UnlinkIfExists filePath) (timers w')
      /\ forall w'' : World LiveBridgeData.t,
           files (exec (Live.run (UnlinkIfExists filePath)) w'') !! filePath = None)
     /\ (send env (S (S (S (tick w)))) discordMessage [filePath] = false ->
         files w' !! filePath = Some (base64 env (Media.data media))
         /\ timers w' = timers w))
  /\
  (forall chat response attachment bytes (w : World BridgeData.t),
     files w !! Descriptor.path attachment = Some bytes ->
     let payload :=
       MediaFile (Descriptor.path attachment) bytes
         (Some (Batch.caption (Descriptor.name attachment) (Response.author response))) in
     let w' := exec (Batch.sendAttachment env chat response attachment) w in
     (deliver env (tick w) chat payload = true ->
      files w' = delete (Descriptor.path attachment) (files w))
     /\ (deliver env (tick w) chat payload = false -> files w' = files w))
  /\
  (forall chat attachment bytes (w : World BridgeData.t),
     files w !! Descriptor.path attachment = Some bytes ->
     let payload := Raw_payload env (files w) attachment in
     let w' := exec (Raw.sendAttachment env chat attachment) w in
     (deliver env (tick w) chat payload = true ->
      files w' = delete (Descriptor.path attachment) (files w))
     /\ (deliver env (tick w) chat payload = false -> files w' = files w))
  /\
  (forall bridgeId chat attachment bytes (w : World LiveBridgeData.t),
     let filePath :=
       path_join env (uploadsDir CONFIG)
                 (bridgeId ++ u "_" ++ Attachment.name attachment) in
     let payload :=
       if endsWith (toLowerCase (Attachment.name attachment)) (u ".txt")
       then Text (Live.robot (utf8 env bytes))
       else MediaFile filePath bytes (Some (Live.robot (u "Datei von Discord"))) in
     axios env (tick w) (Attachment.url attachment) = Some bytes ->
     writes env (S (tick w)) filePath = true ->
     let w' := exec (Live.relayAttachment CONFIG env bridgeId chat attachment) w in
     (deliver env (S (tick w)) chat payload = true ->
      files w' = delete filePath (files w))
     /\ (deliver env (S (tick w)) chat payload = false ->
         files w' = <[filePath := bytes]> (files w)))
  /\
  ((forall n chat p, deliver env n chat p = true) ->
   forall bridgeId bridgeData (w : World BridgeData.t),
     Map_get bridgeId (activeMessages w) = Some bridgeData ->
     scratchReleased (BridgeData.responses bridgeData)
                     (exec (Batch.processCollectedResponses env bridgeId) w)).
Proof.
  repeat apply conj.
  - intros message chat contact media w bridgeId content filePath discordMessage
      Hadm Hchat Hcontact Hm Hf Hd Hw. cbv zeta.
    change (exec (Batch.handleWhatsAppMessage CONFIG env message) w)
      with (snd (Batch.handleWhatsAppMessage CONFIG env message w)).
    rewrite (Batch_admits CONFIG env _ chat contact _ Hadm Hchat Hcontact).
    split; intros Hs.
    + rewrite (Batch_forward_media CONFIG env message media) by done. simpl.
      split; [apply lookup_insert_eq|]. split.
      * apply in_or_app. right. by left.
      * intros w''. apply unlinkIfExists_releases.
    + rewrite (Batch_forward_media_refused CONFIG env message media) by done. simpl.
      split; [apply lookup_insert_eq|reflexivity].
  - intros message chat contact media w content filePath
      Hadm Hchat Hcontact Hm Hf Hd Hw. cbv zeta.
    change (exec (Raw.handleWhatsAppMessage CONFIG env message) w)
      with (snd (Raw.handleWhatsAppMessage CONFIG env message w)).
    rewrite (Raw_admits CONFIG env _ chat contact _ Hadm Hchat Hcontact).
    split; intros Hs.
    + rewrite (Raw_forward_media CONFIG env message media) by done. simpl.
      split; [apply lookup_insert_eq|]. split.
      * apply in_or_app. right. by left.
      * intros w''. apply unlinkIfExists_releases.
    + rewrite (Raw_forward_media_refused CONFIG env message media) by done. simpl.
      split; [apply lookup_insert_eq|reflexivity].
  - intros message chat contact media w content filePath discordMessage
      Hadm Hchat Hcontact Hm Hf Hd Hw. cbv zeta.
    change (exec (Live.handleWhatsAppMessage CONFIG env message) w)
      with (snd (Live.handleWhatsAppMessage CONFIG env message w)).
    rewrite (Live_admits CONFIG env _ chat contact _ Hadm Hchat Hcontact).
    split; intros Hs.
    + rewrite (Live_forward_media CONFIG env message media) by done. simpl.
      split; [apply lookup_insert_eq|]. split.
      * apply in_or_app. right. by left.
      * intros w''. apply unlinkIfExists_releases.
    + rewrite (Live_forward_media_refused CONFIG env message media) by done. simpl.
      split; [apply lookup_insert_eq|reflexivity].
  - intros chat response attachment bytes w Hfile. cbv zeta.
    pose proof (Batch_sendAttachment_file env chat response attachment bytes w Hfile) as H.
    cbv zeta in H. split; intros Hd; by rewrite Hd in H.
  - intros chat attachment bytes w Hfile. cbv zeta.
    pose proof (Raw_sendAttachment_file env chat attachment bytes w Hfile) as H.
    cbv zeta in H. split; intros Hd; by rewrite Hd in H.
  - intros bridgeId chat attachment bytes w filePath payload Ha Hw. cbv zeta.
    pose proof (Live_relayAttachment_files CONFIG env bridgeId chat attachment w)
      as (_ & _ & H).
    cbv zeta in H. fold filePath in H. rewrite Ha, Hw in H. fold payload in H.
    split; intros Hd; by rewrite Hd in H.
  - intros Hok bridgeId bridgeData w Hget. by apply Batch_flush_releases.
Qed.

Lemma C9_scratch_file_released_after_successful_send_witness :
  let filePath := u "/tmp/1000_k3x9q2m1z_photo.jpg" in
  let w : World BridgeData.t := Sample.empty 1000 in
  let w' := exec (Batch.handleWhatsAppMessage Sample.CONFIG Sample.reliable Sample.photo) w in
  let fs : gmap str str := {[ u "/tmp/1_a_cat.png" := u "PNG" ]} in
  let responses := [Sample.said (u "look") [Sample.catFile]] in
  (files w' !! filePath = Some (u "aGk=")
   /\ In (6000, UnlinkIfExists filePath) (timers w')
   /\ forall w'' : World BridgeData.t,
        files (exec (Batch.run Sample.reliable (UnlinkIfExists filePath)) w'') !! filePath
        = None)
  /\ files (exec (Batch.sendAttachment Sample.reliable Sample.alice
                    (Sample.said (u "look") [Sample.catFile]) Sample.catFile)
                 (Sample.due responses fs))
     = delete (u "/tmp/1_a_cat.png") fs
  /\ files (exec (Batch.sendAttachment Sample.textOnly Sample.alice
                    (Sample.said (u "look") [Sample.catFile]) Sample.catFile)
                 (Sample.due responses fs))
     = fs
  /\ scratchReleased responses
       (exec (Batch.processCollectedResponses Sample.reliable (u "1_a"))
             (Sample.due responses fs)).
Proof.
  cbv zeta.
  destruct (C9_scratch_file_released_after_successful_send Sample.CONFIG Sample.reliable)
    as (Hin & _ & _ & Hsent & _ & _ & Hout).
  destruct (C9_scratch_file_released_after_successful_send Sample.CONFIG Sample.textOnly)
    as (_ & _ & _ & Hkept & _).
  split; [|split; [|split]].
  - apply (proj1 (Hin Sample.photo Sample.alice Sample.nobody
                      (Media.mk (u "aGk=") (Some (u "photo.jpg")))
                      (Sample.empty 1000)
                      eq_refl eq_refl eq_refl eq_refl eq_refl eq_refl eq_refl)).
    reflexivity.
  - assert (files (Sample.due [Sample.said (u "look") [Sample.catFile]]
                      {[ u "/tmp/1_a_cat.png" := u "PNG" ]})
              !! Descriptor.path Sample.catFile = Some (u "PNG")) as Hfile
      by (by vm_compute).
    apply (proj1 (Hsent Sample.alice (Sample.said (u "look") [Sample.catFile])
                    Sample.catFile (u "PNG") _ Hfile)).
    reflexivity.
  - assert (files (Sample.due [Sample.said (u "look") [Sample.catFile]]
                      {[ u "/tmp/1_a_cat.png" := u "PNG" ]})
              !! Descriptor.path Sample.catFile = Some (u "PNG")) as Hfile
      by (by vm_compute).
    apply (proj2 (Hkept Sample.alice (Sample.said (u "look") [Sample.catFile])
                    Sample.catFile (u "PNG") _ Hfile)).
    reflexivity.
  - apply (Hout (fun _ _ _ => eq_refl) (u "1_a")
             (Sample.record Sample.alice 0 [Sample.said (u "look") [Sample.catFile]])).
    reflexivity.
Defined.

(** The send of a reply attachment is rejected: the failure is logged,
    the notice is sent, the flush ends, and the scratch file is still
    there. *)
Lemma C9_counterexample :
  let fs : gmap str str := {[ u "/tmp/1_a_cat.png" := u "PNG" ]} in
  let responses := [Sample.said (u "look") [Sample.catFile]] in
  let w := Sample.due responses fs in
  let w' := exec (Batch.processCollectedResponses Sample.textOnly (u "1_a")) w in
  trace w'
  = [SendMessage Sample.alice (Text (u "**carol**: look")) true;
     SendMessage Sample.alice
       (MediaFile (u "/tmp/1_a_cat.png") (u "PNG")
          (Some (Batch.caption (u "cat.png") (u "carol")))) false;
     ConsoleError (u "Error sending attachment to WhatsApp:");
     SendMessage Sample.alice (Text (Batch.sendFailed (u "cat.png"))) true;
     SendMessage Sample.alice (Text (Batch.summary 1)) true]
  /\ activeMessages w' = []
  /\ ~ scratchReleased responses w'.
Proof.
  cbv zeta. split; [reflexivity|]. split; [reflexivity|].
  intros H. specialize (H (u "/tmp/1_a_cat.png") (or_introl eq_refl)).
  vm_compute in H. discriminate H.
Qed.

(** ** Failures of single attachments *)

Section Failures.
Variable CONFIG : Config.
Variable env : Env.









End Failures.



(** * Further properties *)

(** ** The hourly sweep *)

Section Sweep.
Context {R : Type}.
Variable timestamp : R -> Z.
Implicit Types (m : list (str * R)) (w : World R).

Lemma keys_not_in m k : Map_get k m = None -> k ∉ keys m.
Proof.
  unfold keys. induction m as [|[k' v] m IH]; simpl; [intros _; apply not_elem_of_nil|].
  destruct (decide (k' = k)) as [->|Hne]; [done|].
  intros H. apply not_elem_of_cons. split; [congruence|by apply IH].
Qed.

Lemma Map_get_not_in m k : k ∉ keys m -> Map_get k m = None.
Proof.
  unfold keys. induction m as [|[k' v] m IH]; simpl; [done|].
  intros H. apply not_elem_of_cons in H as [Hne H].
  rewrite decide_False by congruence. by apply IH.
Qed.

Lemma keys_filter_subset (P : str * R -> Prop) `{!forall e, Decision (P e)} m k :
  k ∈ keys (filter P m) -> k ∈ keys m.
Proof.
  unfold keys. intros Hk. apply list_elem_of_fmap in Hk as (e & -> & He).
  apply list_elem_of_filter in He as [_ He]. apply list_elem_of_fmap. eauto.
Qed.

Lemma Map_delete_middle m1 m2 k (v : R) :
  k ∉ keys m1 -> k ∉ keys m2 -> Map_delete k (m1 ++ (k, v) :: m2) = m1 ++ m2.
Proof.
  intros H1 H2. unfold Map_delete. rewrite filter_app, filter_cons. simpl.
  rewrite decide_False by (intros H; by apply H).
  fold (Map_delete k m1). fold (Map_delete k m2).
  by rewrite !Map_delete_absent by by apply Map_get_not_in.
Qed.

(** The loop from the middle of the store: the entries before are swept
    already, the entries after are as they were. *)
Lemma sweep_from now pre suf w :
  NoDup (keys (pre ++ suf)) ->
  activeMessages w = filter (kept timestamp now) pre ++ suf ->
  for_of suf
    (fun '(bridgeId, bridgeData) =>
       if decide (now - timestamp bridgeData > 60 * 60 * 1000)
       then activeMessages_delete bridgeId
       else ret tt) w
  = (Normal tt, set_activeMessages (filter (kept timestamp now) (pre ++ suf)) w).
Proof.
  revert pre w. induction suf as [|[k v] suf IH]; intros pre w Hnd Hw.
  - simpl. rewrite app_nil_r in *. unfold ret. rewrite <- Hw. by destruct w.
  - simpl. unfold bind.
    assert (NoDup (keys ((pre ++ [(k, v)]) ++ suf))) as Hnd'
      by by rewrite <- app_assoc.
    assert ((k ∉ keys pre) /\ (k ∉ keys suf)) as [Hk1 Hk2].
    { unfold keys in *. rewrite fmap_app in Hnd. simpl in Hnd.
      apply NoDup_app in Hnd as (_ & Hdisj & Hsuf).
      apply NoDup_cons in Hsuf as [Hk _]. split; [|done].
      intros Hin. apply (Hdisj k Hin). by left. }
    destruct (decide (now - timestamp v > 60 * 60 * 1000)) as [Hold|Hyoung].
    + unfold activeMessages_delete, modify.
      rewrite (IH (pre ++ [(k, v)])); [|done|].
      * by rewrite <- app_assoc.
      * simpl. rewrite Hw, Map_delete_middle; [|intros H; by apply keys_filter_subset in H|done].
        rewrite filter_app, filter_cons, filter_nil. simpl.
        rewrite decide_False by (unfold kept, retention; simpl; lia).
        by rewrite app_nil_r.
    + unfold ret. rewrite (IH (pre ++ [(k, v)])); [|done|].
      * by rewrite <- app_assoc.
      * rewrite Hw, filter_app, filter_cons, filter_nil. simpl.
        rewrite decide_True by (unfold kept, retention; simpl; lia).
        by rewrite <- app_assoc.
Qed.

(** X1. The sweep keeps exactly the records that are at most one hour
    old, in their order, and touches nothing else: no file, no timer, no
    call to a platform. *)
Theorem sweep_keeps_the_records_of_the_last_hour w :
  NoDup (keys (activeMessages w)) ->
  sweep timestamp w
  = (Normal tt,
     set_activeMessages (filter (kept timestamp (clock w)) (activeMessages w)) w).
Proof.
  intros Hnd. unfold sweep, bind, Date_now, activeMessages_entries.
  by apply (sweep_from (clock w) [] (activeMessages w) w).
Qed.

End Sweep.

Lemma sweep_keeps_the_records_of_the_last_hour_witness :
  let w : World BridgeData.t :=
    mkWorld [(u "1_a", Sample.record Sample.alice 0 []);
             (u "2_b", Sample.record Sample.bob 500 [])] ∅ [] [] 0 3600300 in
  sweep BridgeData.timestamp w
  = (Normal tt,
     set_activeMessages
       (filter (kept BridgeData.timestamp 3600300) (activeMessages w)) w)
  /\ filter (kept BridgeData.timestamp 3600300) (activeMessages w)
     = [(u "2_b", Sample.record Sample.bob 500 [])].
Proof.
  cbv zeta. split; [|reflexivity].
  apply (sweep_keeps_the_records_of_the_last_hour BridgeData.timestamp).
  apply (bool_decide_unpack _). by vm_compute.
Defined.

(** ** Receipt of a reply: what it never does *)

#[global] Instance sameKeys_preorder {R} : PreOrder (@sameKeys R).
Proof.
  split.
  - by intros w.
  - intros w1 w2 w3 H1 H2. unfold sameKeys in *. congruence.
Qed.

#[global] Instance noFileLost_preorder {R} : PreOrder (@noFileLost R).
Proof.
  split.
  - by intros w p.
  - intros w1 w2 w3 H1 H2 p Hp. by apply H2, H1.
Qed.

Lemma keys_alter {R} (f : R -> R) k (m : list (str * R)) :
  keys (Map_alter f k m) = keys m.
Proof.
  unfold keys. induction m as [|[k' v] m IH]; simpl; [done|].
  destruct (decide (k' = k)); simpl; [done|by rewrite IH].
Qed.

Lemma total_try_finally {R A} (m : M R A) (fin : M R unit) :
  total m -> total fin -> total (try_finally m fin).
Proof.
  intros Hm Hf w. unfold try_finally. destruct (Hm w) as [a Ha].
  destruct (m w) as [c w1]. simpl in Ha. subst c.
  destruct (Hf w1) as [[] Hb]. destruct (fin w1) as [c w2]. simpl in Hb. subst c.
  by exists a.
Qed.

Lemma total_if {R A} (b : bool) (m1 m2 : M R A) :
  total m1 -> total m2 -> total (if b then m1 else m2).
Proof. by destruct b. Qed.

(** The primitives under binders. *)
Ltac prims := intros; prim.

Section ReceiptFrames.
Variable CONFIG : Config.
Variable env : Env.

Lemma collectResponse_respects (step : relation (World BridgeData.t))
    `{!PreOrder step} message entries :
  (forall url, respects step (axios_get env url)) ->
  (forall p b, respects step (writeFileSync env p b)) ->
  (forall m, respects step (console_error m)) ->
  (forall f k,
     respects step
       (modify (fun w : World BridgeData.t =>
                  set_activeMessages (Map_alter f k (activeMessages w)) w))) ->
  respects step (collectResponse CONFIG env message entries).
Proof.
  intros Ha Hw Hc Hm. induction entries as [|[k v] rest IH]; simpl.
  - by apply respects_ret.
  - apply respects_bind; [done|intros w; reflexivity|intros now].
    destruct (decide _); [|exact IH].
    apply respects_bind; [done|intros w; reflexivity|intros now'].
    apply respects_bind; [done|by apply downloadAttachments_respects|intros atts].
    apply Hm.
Qed.

Lemma collectResponse_frame message entries (w : World BridgeData.t) :
  let w' := exec (collectResponse CONFIG env message entries) w in
  keys (activeMessages w') = keys (activeMessages w)
  /\ timers w' = timers w
  /\ (forall p, is_Some (files w !! p) -> is_Some (files w' !! p)).
Proof.
  cbv zeta. split; [|split].
  - apply (collectResponse_respects sameKeys).
    + intros url w0. unfold sameKeys, axios_get. by case_match.
    + intros p b w0. unfold sameKeys, writeFileSync. by case_match.
    + by intros m w0.
    + intros f k w0. unfold sameKeys. simpl. apply keys_alter.
  - apply (collectResponse_respects (keeps timers)).
    + intros url w0. unfold keeps, axios_get. by case_match.
    + intros p b w0. unfold keeps, writeFileSync. by case_match.
    + by intros m w0.
    + by intros f k w0.
  - apply (collectResponse_respects noFileLost).
    + intros url w0 p Hp. unfold axios_get. by case_match.
    + intros q b w0 p Hp. unfold writeFileSync. case_match; simpl; [|done].
      rewrite lookup_insert. by case_decide.
    + by intros m w0 p Hp.
    + by intros f k w0 p Hp.
Qed.

(** With no record inside its window the loop does nothing at all. *)
Lemma collectResponse_none message entries (w : World BridgeData.t) :
  firstActive CONFIG BridgeData.timestamp (clock w) entries = None ->
  collectResponse CONFIG env message entries w = (Normal tt, w).
Proof.
  induction entries as [|[k v] rest IH]; simpl; [done|].
  unfold bind at 1, Date_now at 1. simpl. unfold inWindow.
  destruct (decide _); [done|exact IH].
Qed.

Lemma Live_relayResponse_none message entries (w : World LiveBridgeData.t) :
  firstActive CONFIG LiveBridgeData.timestamp (clock w) entries = None ->
  Live.relayResponse CONFIG env message entries w = (Normal tt, w).
Proof.
  induction entries as [|[k v] rest IH]; simpl; [done|].
  unfold bind at 1, Date_now at 1. simpl. unfold inWindow.
  destruct (decide _); [done|exact IH].
Qed.

Lemma Live_relayResponse_respects (step : relation (World LiveBridgeData.t))
    `{!PreOrder step} message entries :
  (forall chat p, respects step (sendMessage env chat p)) ->
  (forall url, respects step (axios_get env url)) ->
  (forall p b, respects step (writeFileSync env p b)) ->
  (forall p, respects step (readFileSync env p)) ->
  (forall p c, respects step (fromFilePath p c)) ->
  (forall p, respects step (existsSync p)) ->
  (forall p, respects step (unlinkSync p)) ->
  (forall m, respects step (console_error m)) ->
  respects step (Live.relayResponse CONFIG env message entries).
Proof.
  intros H1 H2 H3 H4 H4' H5 H6 H7. induction entries as [|[k v] rest IH]; simpl.
  - by apply respects_ret.
  - apply respects_bind; [done|intros w; reflexivity|intros now].
    destruct (decide _); [|exact IH].
    structure; auto.
Qed.

End ReceiptFrames.

(** X2. A reply that finds no record inside its window, or that is not in
    the bridge channel, or that comes from a bot ([Batch]) or from the
    bridge itself ([Live]), leaves the world exactly as it was: nothing is
    downloaded, written, collected or sent. *)
Theorem reply_without_active_record_changes_nothing CONFIG env clientUserId message :
  (forall w : World BridgeData.t,
     Author.bot (DiscordMessage.author message) = true
     \/ DiscordMessage.channel_id message <> discordChannelId CONFIG
     \/ firstActive CONFIG BridgeData.timestamp (clock w) (activeMessages w) = None ->
     Batch.handleDiscordMessage CONFIG env message w = (Normal tt, w))
  /\
  (forall w : World BridgeData.t,
     DiscordMessage.channel_id message <> discordChannelId CONFIG
     \/ firstActive CONFIG BridgeData.timestamp (clock w) (activeMessages w) = None ->
     Raw.handleDiscordMessage CONFIG env message w = (Normal tt, w))
  /\
  (forall w : World LiveBridgeData.t,
     DiscordMessage.channel_id message <> discordChannelId CONFIG
     \/ Author.id (DiscordMessage.author message) = clientUserId
     \/ firstActive CONFIG LiveBridgeData.timestamp (clock w) (activeMessages w) = None ->
     Live.handleDiscordMessage CONFIG env clientUserId message w = (Normal tt, w)).
Proof.
  split; [|split]; intros w H.
  - unfold Batch.handleDiscordMessage.
    destruct (Author.bot (DiscordMessage.author message)); [done|].
    destruct (decide _) as [|Hch]; [done|].
    destruct H as [H|[H|H]]; [done..|].
    unfold bind, activeMessages_entries. by apply collectResponse_none.
  - unfold Raw.handleDiscordMessage.
    destruct (decide _) as [|Hch]; [done|].
    destruct H as [H|H]; [done|].
    unfold bind, activeMessages_entries. by apply collectResponse_none.
  - unfold Live.handleDiscordMessage.
    destruct (decide _) as [|Hch]; [done|].
    destruct (decide _) as [|Hid]; [done|].
    destruct H as [H|[H|H]]; [done..|].
    unfold bind, activeMessages_entries. by apply Live_relayResponse_none.
Qed.

Lemma reply_without_active_record_changes_nothing_witness :
  let expired : World BridgeData.t := later 200000 Sample.twoActive in
  Raw.handleDiscordMessage Sample.CONFIG Sample.reliable
    (Sample.reply (u "too late") [Sample.cat]) expired
  = (Normal tt, expired).
Proof.
  cbv zeta.
  destruct (reply_without_active_record_changes_nothing Sample.CONFIG Sample.reliable
              (u "1") (Sample.reply (u "too late") [Sample.cat])) as (_ & HRaw & _).
  apply HRaw. right. reflexivity.
Defined.

(** X3. Receipt of a reply never creates or deletes a record and never
    sets a timer, whatever the platform calls do; in the batch variants no
    scratch file that was there is lost, and in the immediate variant the
    store is left as it was. *)
Theorem reply_keeps_the_records_and_the_timers CONFIG env clientUserId message :
  (forall w : World BridgeData.t,
     let w' := exec (Batch.handleDiscordMessage CONFIG env message) w in
     keys (activeMessages w') = keys (activeMessages w)
     /\ timers w' = timers w
     /\ noFileLost w w')
  /\
  (forall w : World BridgeData.t,
     let w' := exec (Raw.handleDiscordMessage CONFIG env message) w in
     keys (activeMessages w') = keys (activeMessages w)
     /\ timers w' = timers w
     /\ noFileLost w w')
  /\
  (forall w : World LiveBridgeData.t,
     let w' := exec (Live.handleDiscordMessage CONFIG env clientUserId message) w in
     activeMessages w' = activeMessages w /\ timers w' = timers w).
Proof.
  split; [|split]; intros w; cbv zeta.
  - unfold Batch.handleDiscordMessage.
    destruct (Author.bot (DiscordMessage.author message)); [done|].
    destruct (decide _); [done|].
    apply (collectResponse_frame CONFIG env message (activeMessages w) w).
  - unfold Raw.handleDiscordMessage.
    destruct (decide _); [done|].
    apply (collectResponse_frame CONFIG env message (activeMessages w) w).
  - unfold Live.handleDiscordMessage.
    destruct (decide _); [done|]. destruct (decide _); [done|].
    unfold exec, bind, activeMessages_entries. simpl. split.
    + apply (Live_relayResponse_respects CONFIG env (keeps activeMessages)); prims.
    + apply (Live_relayResponse_respects CONFIG env (keeps timers)); prims.
Qed.

(** ** Failures stay inside the handlers *)

Section Containment.
Variable CONFIG : Config.
Variable env : Env.

Lemma total_activeMessages_delete {R} bridgeId : total (@activeMessages_delete R bridgeId).
Proof. apply total_modify. Qed.

Lemma total_unlinkIfExists {R} filePath : total (@unlinkIfExists R filePath).
Proof.
  intros w. unfold unlinkIfExists, bind, existsSync, unlinkSync. simpl.
  destruct (files w !! filePath) eqn:E; simpl; [rewrite E|]; by exists tt.
Qed.

Lemma total_sweep {R} (timestamp : R -> Z) : total (sweep timestamp).
Proof.
  unfold sweep. apply total_bind; [intros w; by eexists|intros now].
  apply total_bind; [intros w; by eexists|intros entries].
  apply total_for_of. intros [k v].
  destruct (decide _); [apply total_modify|apply total_ret].
Qed.

Lemma total_Batch_flush bridgeId : total (Batch.processCollectedResponses env bridgeId).
Proof.
  unfold Batch.processCollectedResponses.
  apply total_bind; [intros w; by eexists|intros [bridgeData|]]; [|apply total_ret].
  apply total_try_finally; [|apply total_modify].
  apply total_try_catch. intros e. apply total_console_error.
Qed.

Lemma total_Raw_flush bridgeId : total (Raw.processCollectedResponses env bridgeId).
Proof.
  unfold Raw.processCollectedResponses.
  apply total_bind; [intros w; by eexists|intros [bridgeData|]]; [|apply total_ret].
  apply total_try_finally; [|apply total_modify].
  apply total_try_catch. intros e. apply total_console_error.
Qed.

Lemma total_cleanupBridgeSession bridgeId : total (Live.cleanupBridgeSession bridgeId).
Proof.
  unfold Live.cleanupBridgeSession.
  apply total_bind; [intros w; by eexists|intros [bridgeData|]];
    [apply total_modify|apply total_ret].
Qed.

(** X4. No failure of a platform call escapes the engine: the reply
    handlers, the flush, the expiry and linger callbacks, the sweep, and
    the forward block of the inbound relay all complete normally, whatever
    the calls to Discord, WhatsApp and the network do; and so do the
    listeners of both platforms, which catch what their handlers throw,
    a rejected [getChat] or [getContact] included. *)
Theorem failures_never_escape clientUserId :
  (forall message, total (Batch.handleDiscordMessage CONFIG env message))
  /\ (forall message, total (Raw.handleDiscordMessage CONFIG env message))
  /\ (forall message, total (Live.handleDiscordMessage CONFIG env clientUserId message))
  /\ (forall cb, total (Batch.run env cb))
  /\ (forall cb, total (Raw.run env cb))
  /\ (forall cb, total (Live.run cb))
  /\ (forall message contact content bridgeId,
        total (Batch.forward CONFIG env message contact content bridgeId))
  /\ (forall message content bridgeId,
        total (Raw.forward CONFIG env message content bridgeId))
  /\ (forall message chat contact content bridgeId,
        total (Live.forward CONFIG env message chat contact content bridgeId))
  /\ total (sweep BridgeData.timestamp)
  /\ total (sweep LiveBridgeData.timestamp)
  /\ (forall message, total (Batch.onMessage CONFIG env message))
  /\ (forall message, total (Raw.onMessage CONFIG env message))
  /\ (forall message, total (Live.onMessage CONFIG env message))
  /\ (forall message, total (Batch.onMessageCreate CONFIG env message))
  /\ (forall message, total (Raw.onMessageCreate CONFIG env message))
  /\ (forall message, total (Live.onMessageCreate CONFIG env clientUserId message)).
Proof.
  repeat split.
  - intros message w. unfold Batch.handleDiscordMessage.
    destruct (Author.bot _); [by exists tt|]. destruct (decide _); [by exists tt|].
    unfold bind, activeMessages_entries.
    destruct (collectResponse_spec CONFIG env message (activeMessages w) w)
      as (w' & -> & _). by exists tt.
  - intros message w. unfold Raw.handleDiscordMessage.
    destruct (decide _); [by exists tt|].
    unfold bind, activeMessages_entries.
    destruct (collectResponse_spec CONFIG env message (activeMessages w) w)
      as (w' & -> & _). by exists tt.
  - intros message w. unfold Live.handleDiscordMessage.
    destruct (decide _); [by exists tt|]. destruct (decide _); [by exists tt|].
    unfold bind, activeMessages_entries.
    destruct (Live_relayResponse_spec CONFIG env message (activeMessages w) w)
      as (w' & -> & _). by exists tt.
  - intros [p|k|k]; simpl;
      [apply total_unlinkIfExists|apply total_Batch_flush|apply total_ret].
  - intros [p|k|k]; simpl;
      [apply total_unlinkIfExists|apply total_Raw_flush|apply total_ret].
  - intros [p|k|k]; simpl;
      [apply total_unlinkIfExists|apply total_ret|apply total_cleanupBridgeSession].
  - intros. apply total_try_catch. intros e.
    apply total_bind; [apply total_console_error|intros; apply total_modify].
  - intros. apply total_try_catch. intros e.
    apply total_bind; [apply total_console_error|intros; apply total_modify].
  - intros. apply total_try_catch. intros e.
    apply total_bind; [apply total_console_error|intros; apply total_modify].
  - apply total_sweep.
  - apply total_sweep.
  - intros. apply total_try_catch. intros e. apply total_console_error.
  - intros. apply total_try_catch. intros e. apply total_console_error.
  - intros. apply total_try_catch. intros e. apply total_console_error.
  - intros. apply total_try_catch. intros e. apply total_console_error.
  - intros. apply total_try_catch. intros e. apply total_console_error.
  - intros. apply total_try_catch. intros e. apply total_console_error.
Qed.

End Containment.

(** ** Replies in the order of receipt *)

Section Order.
Variable CONFIG : Config.
Variable env : Env.

Lemma firstActive_push response k now (m : list (str * BridgeData.t)) :
  fst <$> firstActive CONFIG BridgeData.timestamp now
            (Map_alter (BridgeData.push response) k m)
  = fst <$> firstActive CONFIG BridgeData.timestamp now m.
Proof.
  induction m as [|[k' v] m IH]; simpl; [done|].
  destruct (decide (k' = k)) as [->|Hne]; simpl.
  - destruct v. simpl. by destruct (decide _).
  - destruct (decide _); [done|exact IH].
Qed.

(** A reply without attachments: nothing is awaited between the window
    test and the push; the record gains one entry and nothing else
    happens. *)
Lemma collectResponse_text message entries k bridgeData (w : World BridgeData.t) :
  firstActive CONFIG BridgeData.timestamp (clock w) entries = Some (k, bridgeData) ->
  DiscordMessage.attachments message = [] ->
  collectResponse CONFIG env message entries w
  = (Normal tt,
     set_activeMessages
       (Map_alter
          (BridgeData.push
             (Response.mk (DiscordMessage.content message)
                          (Author.username (DiscordMessage.author message))
                          [] (clock w)))
          k (activeMessages w)) w).
Proof.
  intros Hfirst Hno.
  induction entries as [|[k' v] rest IH]; simpl in *; [done|].
  unfold bind at 1. unfold Date_now at 1. simpl. unfold inWindow in Hfirst.
  destruct (decide (clock w - BridgeData.timestamp v <= messageTimeout CONFIG));
    [|by apply IH].
  injection Hfirst as -> ->. rewrite Hno. reflexivity.
Qed.

(** Two replies without attachments to the same record, the second at a
    later time [t]. *)
Lemma collectResponse_twice message1 message2 k bridgeData t (w : World BridgeData.t) :
  DiscordMessage.attachments message1 = [] ->
  DiscordMessage.attachments message2 = [] ->
  Map_get k (activeMessages w) = Some bridgeData ->
  fst <$> firstActive CONFIG BridgeData.timestamp (clock w) (activeMessages w) = Some k ->
  fst <$> firstActive CONFIG BridgeData.timestamp t (activeMessages w) = Some k ->
  let w1 := exec (collectResponse CONFIG env message1 (activeMessages w)) w in
  let w2 := exec (collectResponse CONFIG env message2 (activeMessages (later t w1)))
                 (later t w1) in
  BridgeData.responses <$> Map_get k (activeMessages w2)
  = Some (BridgeData.responses bridgeData
          ++ [Response.mk (DiscordMessage.content message1)
                          (Author.username (DiscordMessage.author message1))
                          [] (clock w);
              Response.mk (DiscordMessage.content message2)
                          (Author.username (DiscordMessage.author message2))
                          [] t])
  /\ news w w2 = [].
Proof.
  intros Hno1 Hno2 Hget H1 H2. cbv zeta. unfold exec.
  destruct (firstActive CONFIG BridgeData.timestamp (clock w) (activeMessages w))
    as [[k1 bd1]|] eqn:E1; [|done]. injection H1 as ->.
  rewrite (collectResponse_text message1 _ k bd1 w E1 Hno1). simpl.
  set (store1 := Map_alter _ k (activeMessages w)).
  assert (fst <$> firstActive CONFIG BridgeData.timestamp t store1 = Some k) as H2'.
  { subst store1. by rewrite firstActive_push. }
  destruct (firstActive CONFIG BridgeData.timestamp t store1)
    as [[k2 bd2]|] eqn:E2; [|done].
  injection H2' as ->.
  rewrite (collectResponse_text message2 store1 k bd2
             (later t (set_activeMessages store1 w)) E2 Hno2).
  simpl. split; [|apply news_app; simpl; by rewrite app_nil_r].
  subst store1. rewrite !Map_get_alter, Hget. simpl. by rewrite <- app_assoc.
Qed.

(** X5. In the batch variants two replies without attachments in the
    bridge channel, received while the same record is the first one
    inside its window, are both appended to that record, in the order of
    receipt and with their times of receipt, and nothing is sent or
    logged. (A reply with attachments is appended only after its
    downloads, which other replies can overtake.) *)
Theorem replies_are_collected_in_receipt_order
    message1 message2 k bridgeData t (w : World BridgeData.t) :
  DiscordMessage.channel_id message1 = discordChannelId CONFIG ->
  DiscordMessage.channel_id message2 = discordChannelId CONFIG ->
  DiscordMessage.attachments message1 = [] ->
  DiscordMessage.attachments message2 = [] ->
  Map_get k (activeMessages w) = Some bridgeData ->
  fst <$> firstActive CONFIG BridgeData.timestamp (clock w) (activeMessages w) = Some k ->
  fst <$> firstActive CONFIG BridgeData.timestamp t (activeMessages w) = Some k ->
  (let w1 := exec (Raw.handleDiscordMessage CONFIG env message1) w in
   let w2 := exec (Raw.handleDiscordMessage CONFIG env message2) (later t w1) in
   BridgeData.responses <$> Map_get k (activeMessages w2)
   = Some (BridgeData.responses bridgeData
           ++ [Response.mk (DiscordMessage.content message1)
                           (Author.username (DiscordMessage.author message1))
                           [] (clock w);
               Response.mk (DiscordMessage.content message2)
                           (Author.username (DiscordMessage.author message2))
                           [] t])
   /\ news w w2 = [])
  /\
  (Author.bot (DiscordMessage.author message1) = false ->
   Author.bot (DiscordMessage.author message2) = false ->
   let w1 := exec (Batch.handleDiscordMessage CONFIG env message1) w in
   let w2 := exec (Batch.handleDiscordMessage CONFIG env message2) (later t w1) in
   BridgeData.responses <$> Map_get k (activeMessages w2)
   = Some (BridgeData.responses bridgeData
           ++ [Response.mk (DiscordMessage.content message1)
                           (Author.username (DiscordMessage.author message1))
                           [] (clock w);
               Response.mk (DiscordMessage.content message2)
                           (Author.username (DiscordMessage.author message2))
                           [] t])
   /\ news w w2 = []).
Proof.
  intros Hc1 Hc2 Hno1 Hno2 Hget H1 H2.
  pose proof (collectResponse_twice message1 message2 k bridgeData t w
                Hno1 Hno2 Hget H1 H2) as H.
  split.
  - cbv zeta. unfold Raw.handleDiscordMessage.
    rewrite !decide_False by (intros Hne; by apply Hne).
    exact H.
  - intros Hb1 Hb2. cbv zeta. unfold Batch.handleDiscordMessage. rewrite Hb1, Hb2.
    rewrite !decide_False by (intros Hne; by apply Hne).
    exact H.
Qed.

(** The immediate relay of a reply that is a text only. *)
Lemma Live_relay_text message entries k bridgeData (w : World LiveBridgeData.t) :
  firstActive CONFIG LiveBridgeData.timestamp (clock w) entries = Some (k, bridgeData) ->
  DiscordMessage.attachments message = [] ->
  truthy (trim (DiscordMessage.content message)) = true ->
  deliver env (tick w) (LiveBridgeData.whatsappChat bridgeData)
          (Text (Live.robot (DiscordMessage.content message))) = true ->
  Live.relayResponse CONFIG env message entries w
  = (Normal tt,
     record (SendMessage (LiveBridgeData.whatsappChat bridgeData)
                         (Text (Live.robot (DiscordMessage.content message))) true) w).
Proof.
  intros Hf Ha Ht Hd. induction entries as [|[k' v] rest IH]; simpl; [done|].
  simpl in Hf. unfold bind at 1. unfold Date_now at 1. simpl. unfold inWindow in *.
  destruct (decide (clock w - LiveBridgeData.timestamp v <= messageTimeout CONFIG))
    as [Hin|Hout]; [|by apply IH].
  injection Hf as -> ->.
  unfold try_catch, bind, sendMessage. rewrite Ha, Ht, Hd. reflexivity.
Qed.

(** X6. In the immediate variant two text replies, received while the
    same record is the first one inside its window, both reach the
    conversation of that record, in the order of receipt, each behind the
    robot mark; the record stays in the store for further replies. *)
Theorem Live_replies_reach_the_conversation_in_order
    clientUserId message1 message2 k bridgeData t (w : World LiveBridgeData.t) :
  (forall n chat p, deliver env n chat p = true) ->
  DiscordMessage.channel_id message1 = discordChannelId CONFIG ->
  DiscordMessage.channel_id message2 = discordChannelId CONFIG ->
  Author.id (DiscordMessage.author message1) <> clientUserId ->
  Author.id (DiscordMessage.author message2) <> clientUserId ->
  DiscordMessage.attachments message1 = [] ->
  DiscordMessage.attachments message2 = [] ->
  truthy (trim (DiscordMessage.content message1)) = true ->
  truthy (trim (DiscordMessage.content message2)) = true ->
  firstActive CONFIG LiveBridgeData.timestamp (clock w) (activeMessages w)
  = Some (k, bridgeData) ->
  firstActive CONFIG LiveBridgeData.timestamp t (activeMessages w)
  = Some (k, bridgeData) ->
  let chat := LiveBridgeData.whatsappChat bridgeData in
  let w1 := exec (Live.handleDiscordMessage CONFIG env clientUserId message1) w in
  let w2 := exec (Live.handleDiscordMessage CONFIG env clientUserId message2) (later t w1) in
  news w w2
  = [SendMessage chat (Text (Live.robot (DiscordMessage.content message1))) true;
     SendMessage chat (Text (Live.robot (DiscordMessage.content message2))) true]
  /\ activeMessages w2 = activeMessages w.
Proof.
  intros Hok Hc1 Hc2 Hi1 Hi2 Ha1 Ha2 Ht1 Ht2 Hf1 Hf2. cbv zeta.
  unfold Live.handleDiscordMessage.
  rewrite !decide_False by (first [done | intros Hne; by apply Hne]).
  unfold exec, bind, activeMessages_entries.
  rewrite (Live_relay_text message1 _ k bridgeData w) by done. simpl.
  rewrite (Live_relay_text message2 _ k bridgeData) by done. simpl.
  split; [|done]. apply news_app. simpl. by rewrite <- app_assoc.
Qed.

End Order.

Lemma replies_are_collected_in_receipt_order_witness :
  let w := Sample.twoActive in
  let w1 := exec (Raw.handleDiscordMessage Sample.CONFIG Sample.reliable
                    (Sample.reply (u "one") [])) w in
  let w2 := exec (Raw.handleDiscordMessage Sample.CONFIG Sample.reliable
                    (Sample.reply (u "two") [])) (later 2000 w1) in
  BridgeData.responses <$> Map_get (u "1_a") (activeMessages w2)
  = Some ([] ++ [Response.mk (u "one") (u "carol") [] 1000;
                 Response.mk (u "two") (u "carol") [] 2000])
  /\ news w w2 = [].
Proof.
  cbv zeta.
  destruct (replies_are_collected_in_receipt_order Sample.CONFIG Sample.reliable
              (Sample.reply (u "one") []) (Sample.reply (u "two") [])
              (u "1_a") (Sample.record Sample.alice 0 []) 2000 Sample.twoActive)
    as [HRaw _]; try reflexivity.
  exact HRaw.
Defined.

Lemma Live_replies_reach_the_conversation_in_order_witness :
  let w := Sample.twoActiveLive in
  let w1 := exec (Live.handleDiscordMessage Sample.CONFIG Sample.reliable (u "1")
                    (Sample.reply (u "one") [])) w in
  let w2 := exec (Live.handleDiscordMessage Sample.CONFIG Sample.reliable (u "1")
                    (Sample.reply (u "two") [])) (later 2000 w1) in
  news w w2
  = [SendMessage Sample.alice (Text (Live.robot (u "one"))) true;
     SendMessage Sample.alice (Text (Live.robot (u "two"))) true]
  /\ activeMessages w2 = activeMessages w.
Proof.
  cbv zeta.
  apply (Live_replies_reach_the_conversation_in_order Sample.CONFIG Sample.reliable
           (u "1") (Sample.reply (u "one") []) (Sample.reply (u "two") [])
           (u "1_a") (Sample.liveRecord Sample.alice 0) 2000 Sample.twoActiveLive);
    try reflexivity.
  - by vm_compute.
  - by vm_compute.
Defined.

(** ** Which bodies are admitted *)

Section Blank.

Lemma trimStart_blank s : blank s -> trimStart s = [].
Proof.
  induction s as [|c s IH]; [done|]. intros H. apply Forall_cons in H as [Hc Hs].
  simpl. rewrite Hc. by apply IH.
Qed.

Lemma trimStart_nil s : trimStart s = [] -> blank s.
Proof.
  induction s as [|c s IH]; [intros _; constructor|]. simpl.
  destruct (isWhiteSpace c) eqn:Hc; [|done].
  intros H. constructor; [done|by apply IH].
Qed.

Lemma trimStart_suffix s : exists pre, s = pre ++ trimStart s /\ blank pre.
Proof.
  induction s as [|c s IH]; [exists []; split; [done|constructor]|]. simpl.
  destruct (isWhiteSpace c) eqn:Hc.
  - destruct IH as (pre & H1 & H2). exists (c :: pre). simpl. split; [by f_equal|].
    by constructor.
  - exists []. split; [done|constructor].
Qed.

Lemma blank_app s1 s2 : blank (s1 ++ s2) <-> blank s1 /\ blank s2.
Proof. apply Forall_app. Qed.

Lemma blank_rev s : blank (rev s) <-> blank s.
Proof.
  unfold blank. rewrite !Forall_forall. split; intros H c Hc; apply H.
  - apply list_elem_of_In. apply in_rev. rewrite rev_involutive.
    by apply list_elem_of_In.
  - apply list_elem_of_In. apply in_rev. by apply list_elem_of_In.
Qed.

(** [trim] leaves nothing exactly of the strings that are white space
    throughout. *)
Lemma trim_nil s : trim s = [] <-> blank s.
Proof.
  unfold trim, trimEnd. split.
  - intros H. apply (f_equal (@rev N)) in H. rewrite rev_involutive in H. simpl in H.
    apply trimStart_nil in H. apply (proj1 (blank_rev _)) in H.
    destruct (trimStart_suffix s) as (pre & Hs & Hpre).
    rewrite Hs. apply blank_app. by split.
  - intros H. rewrite (trimStart_blank s H). done.
Qed.

Lemma truthy_trim s : truthy (trim s) = true <-> ~ blank s.
Proof.
  rewrite <- trim_nil. destruct (trim s); simpl; split; done.
Qed.

Lemma startsWith_cons s c p :
  startsWith s (c :: p) = true <-> exists s', s = c :: s' /\ startsWith s' p = true.
Proof.
  unfold startsWith. destruct s as [|d s]; simpl.
  - split; [done|]. by intros (s' & H & _).
  - fold (startsWith s p). split.
    + intros H. apply andb_true_iff in H as [H1 H2]. apply N.eqb_eq in H1 as ->.
      by exists s.
    + intros (s' & [= -> ->] & H). by rewrite N.eqb_refl.
Qed.

Lemma startsWith_nil s : startsWith s [] = true.
Proof. by destruct s. Qed.

End Blank.

Section IgnoredBodies.
Variable CONFIG : Config.
Variable env : Env.

Lemma Live_forward_begins message chat contact content bridgeId w :
  exists evs,
    trace (exec (Live.forward CONFIG env message chat contact content bridgeId) w)
    = trace w ++ ChannelsFetch (discordChannelId CONFIG)
                   (fetch env (tick w) (discordChannelId CONFIG)) :: evs.
Proof.
  unfold Live.forward, exec.
  set (body := bind _ _).
  assert (exists evs, trace (snd (body w)) = trace w
            ++ ChannelsFetch (discordChannelId CONFIG)
                             (fetch env (tick w) (discordChannelId CONFIG)) :: evs) as Hf.
  { subst body. unfold bind at 1. unfold channels_fetch at 1.
    set (w1 := record _ w).
    destruct (fetch env (tick w) (discordChannelId CONFIG)) eqn:E; cbn.
    - match goal with |- context [snd (?m w1)] =>
        assert (respects (emits (fun _ => True)) m) as Hm by (structure; emitting);
        destruct (Hm w1) as (evs & -> & _)
      end.
      exists evs. subst w1. simpl. by rewrite <- app_assoc.
    - exists [ConsoleError (u "Discord channel not found")]. subst w1. simpl.
      by rewrite <- app_assoc.
    - by exists []. }
  unfold try_catch. destruct (body w) as [[[]|e] w1]; simpl in *; [exact Hf|].
  destruct Hf as (evs & Hf).
  exists (evs ++ [ConsoleError (u "Error sending message to Discord:")]).
  rewrite Hf. by rewrite <- app_assoc.
Qed.

Lemma Live_ignores_event message (w : World LiveBridgeData.t) :
  admits CONFIG false message = false ->
  Live.handleWhatsAppMessage CONFIG env message w = (Normal tt, w).
Proof.
  intros H. apply admits_false in H. unfold Live.handleWhatsAppMessage.
  destruct (startsWith (WaMessage.body message) (triggerChar CONFIG)); simpl; [|done].
  destruct (decide (WaMessage.from message = u "status@broadcast")); [done|].
  destruct H as [H|[H|H]]; [done..|]. by rewrite H.
Qed.

Lemma grown_trace_differs {R} (w w' : World R) e evs :
  trace w' = trace w ++ e :: evs -> w' <> w.
Proof.
  intros H ->. apply (f_equal length) in H. rewrite length_app in H. simpl in H. lia.
Qed.

(** X7. When the trigger begins with a code unit that is not white space,
    the variants that keep the trigger ignore an inbound event exactly
    when its body does not start with the trigger or its origin is
    [status@broadcast]: their test for an empty content never fires. With
    a trigger of one code unit, [Batch] ignores in addition every body
    that has only white space after the trigger, such as the bare
    trigger. *)
Theorem which_bodies_are_ignored c rest message :
  triggerChar CONFIG = c :: rest ->
  (isWhiteSpace c = false ->
   (forall w : World BridgeData.t,
      Raw.handleWhatsAppMessage CONFIG env message w = (Normal tt, w)
      <-> startsWith (WaMessage.body message) (triggerChar CONFIG) = false
          \/ WaMessage.from message = u "status@broadcast")
   /\
   (forall w : World LiveBridgeData.t,
      Live.handleWhatsAppMessage CONFIG env message w = (Normal tt, w)
      <-> startsWith (WaMessage.body message) (triggerChar CONFIG) = false
          \/ WaMessage.from message = u "status@broadcast"))
  /\
  (rest = [] ->
   forall w : World BridgeData.t,
     Batch.handleWhatsAppMessage CONFIG env message w = (Normal tt, w)
     <-> (forall tail, WaMessage.body message = c :: tail -> blank tail)
         \/ WaMessage.from message = u "status@broadcast").
Proof.
  intros Htrig. split.
  - intros Hc.
    assert (admits CONFIG false message = false
            <-> startsWith (WaMessage.body message) (triggerChar CONFIG) = false
                \/ WaMessage.from message = u "status@broadcast") as Hadm.
    { split.
      - intros H. apply admits_false in H as [H|[H|H]]; [by left|by right|].
        left. destruct (startsWith _ _) eqn:Hs; [|done]. exfalso.
        rewrite Htrig in Hs. apply startsWith_cons in Hs as (s' & Hb & _).
        assert (truthy (trim (WaMessage.body message)) = true) as Ht; [|congruence].
        apply truthy_trim. rewrite Hb. intros Hbl. apply Forall_cons in Hbl as [Hbl _].
        congruence.
      - intros [H|H]; unfold admits; [by rewrite H|].
        rewrite (bool_decide_eq_false_2 _) by (intros Hne; by apply Hne).
        by rewrite andb_false_r. }
    split; intros w; rewrite <- Hadm; (split; [|first [apply Raw_ignores | apply Live_ignores_event]]).
    + intros H. destruct (admits CONFIG false message) eqn:Ha; [|done]. exfalso.
      destruct (WaMessage.getChat message) as [chat|] eqn:Hchat;
        [|rewrite (Raw_unresolved CONFIG env _ _ Ha (or_introl Hchat)) in H;
          discriminate H].
      destruct (WaMessage.getContact message) as [contact|] eqn:Hcontact;
        [|rewrite (Raw_unresolved CONFIG env _ _ Ha (or_intror Hcontact)) in H;
          discriminate H].
      rewrite (Raw_admits CONFIG env _ chat contact _ Ha Hchat Hcontact) in H.
      match type of H with ?f ?w1 = _ =>
        destruct (Raw_forward_spec CONFIG env message (trim (WaMessage.body message))
                    (freshId env w) w1) as [(evs & Ht) _]
      end.
      unfold exec in Ht. rewrite H in Ht. simpl in Ht.
      exact (grown_trace_differs _ _ _ _ Ht eq_refl).
    + intros H. destruct (admits CONFIG false message) eqn:Ha; [|done]. exfalso.
      destruct (WaMessage.getChat message) as [chat|] eqn:Hchat;
        [|rewrite (Live_unresolved CONFIG env _ _ Ha (or_introl Hchat)) in H;
          discriminate H].
      destruct (WaMessage.getContact message) as [contact|] eqn:Hcontact;
        [|rewrite (Live_unresolved CONFIG env _ _ Ha (or_intror Hcontact)) in H;
          discriminate H].
      rewrite (Live_admits CONFIG env _ chat contact _ Ha Hchat Hcontact) in H.
      match type of H with ?f ?w1 = _ =>
        destruct (Live_forward_begins message chat contact
                    (trim (WaMessage.body message)) (freshId env w) w1) as (evs & Ht)
      end.
      unfold exec in Ht. rewrite H in Ht. simpl in Ht.
      exact (grown_trace_differs _ _ _ _ Ht eq_refl).
  - intros ->.
    assert (admits CONFIG true message = false
            <-> (forall tail, WaMessage.body message = c :: tail -> blank tail)
                \/ WaMessage.from message = u "status@broadcast") as Hadm.
    { split.
      - intros H. apply admits_false in H as [H|[H|H]]; [left|by right|left].
        + intros tail Hb. exfalso. rewrite Htrig, Hb in H.
          assert (startsWith (c :: tail) [c] = true); [|congruence].
          apply startsWith_cons. exists tail. split; [done|apply startsWith_nil].
        + intros tail Hb. rewrite Hb in H. change (substring (c :: tail) 1) with tail in H.
          destruct (decide (blank tail)) as [|Hn]; [done|].
          apply truthy_trim in Hn. congruence.
      - intros [H|H]; unfold admits.
        + destruct (startsWith _ _) eqn:Hs; [|done]. simpl.
          rewrite Htrig in Hs. apply startsWith_cons in Hs as (tail & Hb & _).
          specialize (H tail Hb). rewrite Hb. change (substring (c :: tail) 1) with tail.
          apply trim_nil in H. rewrite H. by rewrite andb_false_r.
        + rewrite (bool_decide_eq_false_2 _) by (intros Hne; by apply Hne).
          by rewrite andb_false_r. }
    intros w. rewrite <- Hadm. split; [|apply Batch_ignores].
    intros H. destruct (admits CONFIG true message) eqn:Ha; [|done]. exfalso.
    destruct (WaMessage.getChat message) as [chat|] eqn:Hchat;
      [|rewrite (Batch_unresolved CONFIG env _ _ Ha (or_introl Hchat)) in H;
        discriminate H].
    destruct (WaMessage.getContact message) as [contact|] eqn:Hcontact;
      [|rewrite (Batch_unresolved CONFIG env _ _ Ha (or_intror Hcontact)) in H;
        discriminate H].
    rewrite (Batch_admits CONFIG env _ chat contact _ Ha Hchat Hcontact) in H.
    match type of H with ?f ?w1 = _ =>
      destruct (Batch_forward_spec CONFIG env message contact
                  (trim (substring (WaMessage.body message) 1)) (freshId env w) w1)
        as [(evs & Ht) _]
    end.
    unfold exec in Ht. rewrite H in Ht. simpl in Ht.
    exact (grown_trace_differs _ _ _ _ Ht eq_refl).
Qed.

End IgnoredBodies.

Lemma which_bodies_are_ignored_witness :
  (forall w : World BridgeData.t,
     Raw.handleWhatsAppMessage Sample.CONFIG Sample.reliable bareTrigger w = (Normal tt, w)
     <-> startsWith (WaMessage.body bareTrigger) (triggerChar Sample.CONFIG) = false
         \/ WaMessage.from bareTrigger = u "status@broadcast")
  /\
  (forall w : World BridgeData.t,
     Batch.handleWhatsAppMessage Sample.CONFIG Sample.reliable bareTrigger w = (Normal tt, w)
     <-> (forall tail, WaMessage.body bareTrigger = 46%N :: tail -> blank tail)
         \/ WaMessage.from bareTrigger = u "status@broadcast").
Proof.
  destruct (which_bodies_are_ignored Sample.CONFIG Sample.reliable 46%N [] bareTrigger)
    as [H1 H2]; [reflexivity|].
  split; [apply (H1 eq_refl)|apply (H2 eq_refl)].
Defined.

(** ** How a forward ends *)

Ltac went_through :=
  left; flatten; split;
  [intros msg Hin; cbn in Hin; intuition discriminate
  |split; [done|first [by exists [] | by eexists [_]]]].

Ltac not_found := right; left; flatten; done.

Ltac rolled_back :=
  right; right; flatten; split; [|done];
  first [by eexists [_] | by eexists [_; _] | by eexists [_; _; _]].

Section Outcomes.
Variable CONFIG : Config.
Variable env : Env.

Lemma Batch_forward_outcome message contact content bridgeId (w : World BridgeData.t) :
  forwardOutcome CONFIG (u "Error bridging message to Discord:")
    (ProcessCollectedResponses bridgeId) bridgeId w
    (exec (Batch.forward CONFIG env message contact content bridgeId) w).
Proof.
  unfold forwardOutcome, noErrorLogged, exec, Batch.forward, try_catch, bind, channels_fetch,
    downloadMedia, channel_send, setTimeout, writeFileSync, console_error,
    activeMessages_delete, modify.
  destruct (fetch env (tick w) (discordChannelId CONFIG)) eqn:Hf; cbn.
  - destruct (WaMessage.hasMedia message); cbn.
    + destruct (download env _ message) as [[media|]|]; cbn.
      * destruct (writes env _ _); cbn;
          [destruct (send env _ _ _); cbn; [went_through|rolled_back]|rolled_back].
      * went_through.
      * rolled_back.
    + destruct (send env _ _ _); cbn; [went_through|rolled_back].
  - not_found.
  - rolled_back.
Qed.

Lemma Raw_forward_outcome message content bridgeId (w : World BridgeData.t) :
  forwardOutcome CONFIG (u "Error sending message to Discord:")
    (ProcessCollectedResponses bridgeId) bridgeId w
    (exec (Raw.forward CONFIG env message content bridgeId) w).
Proof.
  unfold forwardOutcome, noErrorLogged, exec, Raw.forward, try_catch, bind, channels_fetch,
    downloadMedia, channel_send, setTimeout, writeFileSync, console_error,
    activeMessages_delete, modify.
  destruct (fetch env (tick w) (discordChannelId CONFIG)) eqn:Hf; cbn.
  - destruct (WaMessage.hasMedia message); cbn.
    + destruct (download env _ message) as [[media|]|]; cbn.
      * destruct (writes env _ _); cbn;
          [destruct (send env _ _ _); cbn; [went_through|rolled_back]|rolled_back].
      * went_through.
      * rolled_back.
    + destruct (send env _ _ _); cbn; [went_through|rolled_back].
  - not_found.
  - rolled_back.
Qed.

Lemma Live_forward_outcome message chat contact content bridgeId
    (w : World LiveBridgeData.t) :
  forwardOutcome CONFIG (u "Error sending message to Discord:")
    (CleanupBridgeSession bridgeId) bridgeId w
    (exec (Live.forward CONFIG env message chat contact content bridgeId) w).
Proof.
  unfold forwardOutcome, noErrorLogged, exec, Live.forward, try_catch, bind, channels_fetch,
    downloadMedia, channel_send, setTimeout, writeFileSync, console_error,
    activeMessages_delete, modify, Date_now.
  destruct (fetch env (tick w) (discordChannelId CONFIG)) eqn:Hf; cbn.
  - destruct (WaMessage.hasMedia message); cbn.
    + destruct (download env _ message) as [[media|]|]; cbn.
      * destruct (writes env _ _); cbn;
          [destruct (send env _ _ _); cbn; [went_through|rolled_back]|rolled_back].
      * went_through.
      * rolled_back.
    + destruct (send env _ _ _); cbn; [went_through|rolled_back].
  - not_found.
  - rolled_back.
Qed.

Lemma total_Batch_forward message contact content bridgeId :
  total (Batch.forward CONFIG env message contact content bridgeId).
Proof.
  apply total_try_catch. intros e.
  apply total_bind; [apply total_console_error|intros; apply total_modify].
Qed.

Lemma total_Raw_forward message content bridgeId :
  total (Raw.forward CONFIG env message content bridgeId).
Proof.
  apply total_try_catch. intros e.
  apply total_bind; [apply total_console_error|intros; apply total_modify].
Qed.

Lemma total_Live_forward message chat contact content bridgeId :
  total (Live.forward CONFIG env message chat contact content bridgeId).
Proof.
  apply total_try_catch. intros e.
  apply total_bind; [apply total_console_error|intros; apply total_modify].
Qed.

(** What the listener makes of a handler that throws. *)
Lemma caught_by_listener {R} (handler : M R unit) msg e (w : World R) :
  handler w = (Thrown e, w) ->
  try_catch handler (fun error => console_error msg) w
  = (Normal tt, exec (console_error msg) w).
Proof. intros H. unfold try_catch. by rewrite H. Qed.

(** X8. The handler of an admitted event ends in one of four ways, in
    every variant. Either [getChat] or [getContact] rejects: the handler
    throws before any record is made, the world is as it was, and the
    listener logs the error. Or the record is stored and the handler
    returns, in one of three ways. The forward went through: no error is
    logged, the record stays, and the timer of the record is the last
    one set. Or the channel was not found: that is logged, the record
    stays and no timer is set. Or a call failed, the write of the
    scratch file included: that is logged last, the record is deleted
    and no timer is set. So a record is left behind without a timer only
    when the channel was not found. *)
Theorem admitted_event_ends_in_one_of_four_ways message :
  (admits CONFIG true message = true ->
   forall w : World BridgeData.t,
     match WaMessage.getChat message, WaMessage.getContact message with
     | Some chat, Some contact =>
         fst (Batch.handleWhatsAppMessage CONFIG env message w) = Normal tt
         /\ forwardOutcome CONFIG (u "Error bridging message to Discord:")
              (ProcessCollectedResponses (freshId env w)) (freshId env w)
              (stored (freshId env w)
                 (BridgeData.mk (WaMessage.from message) chat message (clock w) []) w)
              (exec (Batch.handleWhatsAppMessage CONFIG env message) w)
     | _, _ =>
         Batch.handleWhatsAppMessage CONFIG env message w = (Thrown (u "rejected"), w)
         /\ Batch.onMessage CONFIG env message w
            = (Normal tt, exec (console_error (u "Error handling WhatsApp message:")) w)
     end)
  /\
  (admits CONFIG false message = true ->
   (forall w : World BridgeData.t,
      match WaMessage.getChat message, WaMessage.getContact message with
      | Some chat, Some contact =>
          fst (Raw.handleWhatsAppMessage CONFIG env message w) = Normal tt
          /\ forwardOutcome CONFIG (u "Error sending message to Discord:")
               (ProcessCollectedResponses (freshId env w)) (freshId env w)
               (stored (freshId env w)
                  (BridgeData.mk (WaMessage.from message) chat message (clock w) []) w)
               (exec (Raw.handleWhatsAppMessage CONFIG env message) w)
      | _, _ =>
          Raw.handleWhatsAppMessage CONFIG env message w = (Thrown (u "rejected"), w)
          /\ Raw.onMessage CONFIG env message w
             = (Normal tt, exec (console_error (u "Error handling WhatsApp message:")) w)
      end)
   /\
   (forall w : World LiveBridgeData.t,
      match WaMessage.getChat message, WaMessage.getContact message with
      | Some chat, Some contact =>
          fst (Live.handleWhatsAppMessage CONFIG env message w) = Normal tt
          /\ forwardOutcome CONFIG (u "Error sending message to Discord:")
               (CleanupBridgeSession (freshId env w)) (freshId env w)
               (stored (freshId env w)
                  (LiveBridgeData.mk (Chat.id_serialized chat) chat message (clock w)
                     (Chat.isGroup chat)
                     (if Chat.isGroup chat then Some (Chat.name chat) else None)) w)
               (exec (Live.handleWhatsAppMessage CONFIG env message) w)
      | _, _ =>
          Live.handleWhatsAppMessage CONFIG env message w = (Thrown (u "rejected"), w)
          /\ Live.onMessage CONFIG env message w
             = (Normal tt, exec (console_error (u "Error handling WhatsApp message:")) w)
      end)).
Proof.
  split; [intros Ha w|intros Ha; split; intros w].
  - destruct (WaMessage.getChat message) as [chat|] eqn:Hchat;
      [destruct (WaMessage.getContact message) as [contact|] eqn:Hcontact|].
    + unfold exec. rewrite (Batch_admits CONFIG env _ chat contact _ Ha Hchat Hcontact).
      split; [|apply Batch_forward_outcome].
      by destruct (total_Batch_forward message contact
                     (trim (substring (WaMessage.body message) 1)) (freshId env w)
                     (stored (freshId env w)
                        (BridgeData.mk (WaMessage.from message) chat message (clock w) [])
                        w)) as [[] ->].
    + pose proof (Batch_unresolved CONFIG env message w Ha (or_intror Hcontact)) as H.
      split; [exact H|]. by apply caught_by_listener with (u "rejected").
    + pose proof (Batch_unresolved CONFIG env message w Ha (or_introl Hchat)) as H.
      split; [exact H|]. by apply caught_by_listener with (u "rejected").
  - destruct (WaMessage.getChat message) as [chat|] eqn:Hchat;
      [destruct (WaMessage.getContact message) as [contact|] eqn:Hcontact|].
    + unfold exec. rewrite (Raw_admits CONFIG env _ chat contact _ Ha Hchat Hcontact).
      split; [|apply Raw_forward_outcome].
      by destruct (total_Raw_forward message (trim (WaMessage.body message))
                     (freshId env w)
                     (stored (freshId env w)
                        (BridgeData.mk (WaMessage.from message) chat message (clock w) [])
                        w)) as [[] ->].
    + pose proof (Raw_unresolved CONFIG env message w Ha (or_intror Hcontact)) as H.
      split; [exact H|]. by apply caught_by_listener with (u "rejected").
    + pose proof (Raw_unresolved CONFIG env message w Ha (or_introl Hchat)) as H.
      split; [exact H|]. by apply caught_by_listener with (u "rejected").
  - destruct (WaMessage.getChat message) as [chat|] eqn:Hchat;
      [destruct (WaMessage.getContact message) as [contact|] eqn:Hcontact|].
    + unfold exec. rewrite (Live_admits CONFIG env _ chat contact _ Ha Hchat Hcontact).
      split; [|apply Live_forward_outcome].
      by destruct (total_Live_forward message chat contact (trim (WaMessage.body message))
                     (freshId env w)
                     (stored (freshId env w)
                        (LiveBridgeData.mk (Chat.id_serialized chat) chat message (clock w)
                           (Chat.isGroup chat)
                           (if Chat.isGroup chat then Some (Chat.name chat) else None))
                        w)) as [[] ->].
    + pose proof (Live_unresolved CONFIG env message w Ha (or_intror Hcontact)) as H.
      split; [exact H|]. by apply caught_by_listener with (u "rejected").
    + pose proof (Live_unresolved CONFIG env message w Ha (or_introl Hchat)) as H.
      split; [exact H|]. by apply caught_by_listener with (u "rejected").
Qed.

End Outcomes.

Lemma admitted_event_ends_in_one_of_four_ways_witness :
  let w : World BridgeData.t := Sample.empty 1000 in
  (fst (Batch.handleWhatsAppMessage Sample.CONFIG Sample.reliable Sample.ping w) = Normal tt
   /\ forwardOutcome Sample.CONFIG (u "Error bridging message to Discord:")
        (ProcessCollectedResponses (u "1000_k3x9q2m1z")) (u "1000_k3x9q2m1z")
        (stored (u "1000_k3x9q2m1z")
           (BridgeData.mk (u "4911@c.us") Sample.alice Sample.ping 1000 []) w)
        (exec (Batch.handleWhatsAppMessage Sample.CONFIG Sample.reliable Sample.ping) w))
  /\
  (Batch.handleWhatsAppMessage Sample.CONFIG Sample.reliable Sample.lost w
   = (Thrown (u "rejected"), w)
   /\ Batch.onMessage Sample.CONFIG Sample.reliable Sample.lost w
      = (Normal tt, exec (console_error (u "Error handling WhatsApp message:")) w)).
Proof.
  cbv zeta.
  destruct (admitted_event_ends_in_one_of_four_ways Sample.CONFIG Sample.reliable
              Sample.ping) as [Hping _].
  destruct (admitted_event_ends_in_one_of_four_ways Sample.CONFIG Sample.reliable
              Sample.lost) as [Hlost _].
  split.
  - apply (Hping eq_refl (Sample.empty 1000)).
  - apply (Hlost eq_refl (Sample.empty 1000)).
Defined.

(** ** Media that resolves to nothing *)

Section NoMedia.
Variable CONFIG : Config.
Variable env : Env.

Lemma Batch_forward_no_media message contact content bridgeId (w : World BridgeData.t) :
  fetch env (tick w) (discordChannelId CONFIG) = Channel ->
  WaMessage.hasMedia message = true ->
  download env (S (tick w)) message = Some None ->
  Batch.forward CONFIG env message contact content bridgeId w =
  (Normal tt,
   mkWorld (activeMessages w) (files w)
     (timers w ++ [(clock w + messageTimeout CONFIG, ProcessCollectedResponses bridgeId)])
     (trace w ++ [ChannelsFetch (discordChannelId CONFIG) Channel; DownloadMedia true])
     (S (S (tick w))) (clock w)).
Proof.
  intros Hf Hm Hd.
  unfold Batch.forward, try_catch, bind, channels_fetch, downloadMedia, setTimeout, modify.
  rewrite Hf, Hm. cbn. rewrite Hd. cbn. unfold set_timers, record. cbn.
  by rewrite <- app_assoc.
Qed.

Lemma Raw_forward_no_media message content bridgeId (w : World BridgeData.t) :
  fetch env (tick w) (discordChannelId CONFIG) = Channel ->
  WaMessage.hasMedia message = true ->
  download env (S (tick w)) message = Some None ->
  Raw.forward CONFIG env message content bridgeId w =
  (Normal tt,
   mkWorld (activeMessages w) (files w)
     (timers w ++ [(clock w + messageTimeout CONFIG, ProcessCollectedResponses bridgeId)])
     (trace w ++ [ChannelsFetch (discordChannelId CONFIG) Channel; DownloadMedia true])
     (S (S (tick w))) (clock w)).
Proof.
  intros Hf Hm Hd.
  unfold Raw.forward, try_catch, bind, channels_fetch, downloadMedia, setTimeout, modify.
  rewrite Hf, Hm. cbn. rewrite Hd. cbn. unfold set_timers, record. cbn.
  by rewrite <- app_assoc.
Qed.

Lemma Live_forward_no_media message chat contact content bridgeId
    (w : World LiveBridgeData.t) :
  fetch env (tick w) (discordChannelId CONFIG) = Channel ->
  WaMessage.hasMedia message = true ->
  download env (S (tick w)) message = Some None ->
  Live.forward CONFIG env message chat contact content bridgeId w =
  (Normal tt,
   mkWorld (activeMessages w) (files w)
     (timers w ++ [(clock w + messageTimeout CONFIG, CleanupBridgeSession bridgeId)])
     (trace w ++ [ChannelsFetch (discordChannelId CONFIG) Channel; DownloadMedia true])
     (S (S (tick w))) (clock w)).
Proof.
  intros Hf Hm Hd.
  unfold Live.forward, try_catch, bind, channels_fetch, downloadMedia, setTimeout, modify.
  rewrite Hf, Hm. cbn. rewrite Hd. cbn. unfold set_timers, record. cbn.
  by rewrite <- app_assoc.
Qed.

(** X9. An admitted event that announces media which then resolves to
    nothing is not forwarded at all: in every variant the channel is
    fetched and the media asked for, and nothing is sent to the channel,
    not even the text of the event. The record is stored all the same and
    its timer is set, no file is written, and no error is logged: the
    handler goes on as after a forward that went through. *)
Theorem media_that_resolves_to_nothing_silences_the_event message chat contact :
  WaMessage.hasMedia message = true ->
  WaMessage.getChat message = Some chat ->
  WaMessage.getContact message = Some contact ->
  (forall w : World BridgeData.t,
     admits CONFIG true message = true ->
     fetch env (S (tick w)) (discordChannelId CONFIG) = Channel ->
     download env (S (S (tick w))) message = Some None ->
     let w' := exec (Batch.handleWhatsAppMessage CONFIG env message) w in
     news w w' = [ChannelsFetch (discordChannelId CONFIG) Channel; DownloadMedia true]
     /\ activeMessages w'
        = Map_set (freshId env w)
            (BridgeData.mk (WaMessage.from message) chat message (clock w) [])
            (activeMessages w)
     /\ timers w' = timers w ++ [(clock w + messageTimeout CONFIG,
                                  ProcessCollectedResponses (freshId env w))]
     /\ files w' = files w)
  /\
  (forall w : World BridgeData.t,
     admits CONFIG false message = true ->
     fetch env (S (tick w)) (discordChannelId CONFIG) = Channel ->
     download env (S (S (tick w))) message = Some None ->
     let w' := exec (Raw.handleWhatsAppMessage CONFIG env message) w in
     news w w' = [ChannelsFetch (discordChannelId CONFIG) Channel; DownloadMedia true]
     /\ activeMessages w'
        = Map_set (freshId env w)
            (BridgeData.mk (WaMessage.from message) chat message (clock w) [])
            (activeMessages w)
     /\ timers w' = timers w ++ [(clock w + messageTimeout CONFIG,
                                  ProcessCollectedResponses (freshId env w))]
     /\ files w' = files w)
  /\
  (forall w : World LiveBridgeData.t,
     admits CONFIG false message = true ->
     fetch env (S (tick w)) (discordChannelId CONFIG) = Channel ->
     download env (S (S (tick w))) message = Some None ->
     let w' := exec (Live.handleWhatsAppMessage CONFIG env message) w in
     news w w' = [ChannelsFetch (discordChannelId CONFIG) Channel; DownloadMedia true]
     /\ Map_get (freshId env w) (activeMessages w')
        = Some (LiveBridgeData.mk (Chat.id_serialized chat) chat message (clock w)
                  (Chat.isGroup chat)
                  (if Chat.isGroup chat then Some (Chat.name chat) else None))
     /\ timers w' = timers w ++ [(clock w + messageTimeout CONFIG,
                                  CleanupBridgeSession (freshId env w))]
     /\ files w' = files w).
Proof.
  intros Hm Hchat Hcontact. split; [|split]; intros w Ha Hf Hd; cbv zeta; unfold exec.
  - rewrite (Batch_admits CONFIG env _ chat contact _ Ha Hchat Hcontact).
    rewrite Batch_forward_no_media by done.
    cbn. by rewrite news_of.
  - rewrite (Raw_admits CONFIG env _ chat contact _ Ha Hchat Hcontact).
    rewrite Raw_forward_no_media by done.
    cbn. by rewrite news_of.
  - rewrite (Live_admits CONFIG env _ chat contact _ Ha Hchat Hcontact).
    rewrite Live_forward_no_media by done.
    cbn. rewrite news_of. by rewrite Map_get_set.
Qed.

End NoMedia.

Lemma media_that_resolves_to_nothing_silences_the_event_witness :
  let w : World BridgeData.t := Sample.empty 1000 in
  let w' := exec (Batch.handleWhatsAppMessage Sample.CONFIG Sample.offline Sample.photo) w in
  news w w' = [ChannelsFetch (u "bridge-channel") Channel; DownloadMedia true]
  /\ activeMessages w'
     = [(u "1000_k3x9q2m1z",
         BridgeData.mk (u "4911@c.us") Sample.alice Sample.photo 1000 [])]
  /\ timers w' = [(121000, ProcessCollectedResponses (u "1000_k3x9q2m1z"))]
  /\ files w' = ∅.
Proof.
  destruct (media_that_resolves_to_nothing_silences_the_event Sample.CONFIG Sample.offline
              Sample.photo Sample.alice Sample.nobody eq_refl eq_refl eq_refl) as [H _].
  apply (H (Sample.empty 1000)); reflexivity.
Defined.

(** ** A text, its reply and the flush *)

Section StoreMore.
Context {R : Type}.
Implicit Types (m : list (str * R)).

Lemma Map_delete_alter (f : R -> R) k m :
  Map_delete k (Map_alter f k m) = Map_delete k m.
Proof.
  unfold Map_delete. induction m as [|[k' v] m IH]; simpl; [done|].
  destruct (decide (k' = k)) as [->|Hne]; simpl.
  - rewrite !filter_cons. simpl. by rewrite !decide_False by (intros H; by apply H).
  - rewrite !filter_cons. simpl. rewrite !decide_True by done. by rewrite IH.
Qed.

Lemma firstActive_set_fresh CONFIG (timestamp : R -> Z) now k v m :
  Map_get k m = None ->
  firstActive CONFIG timestamp now m = None ->
  inWindow CONFIG now (timestamp v) ->
  firstActive CONFIG timestamp now (Map_set k v m) = Some (k, v).
Proof.
  intros Hk Hnone Hin. rewrite Map_set_fresh by done. clear Hk.
  induction m as [|[k' v'] m IH]; simpl in *.
  - by rewrite decide_True.
  - destruct (decide (inWindow CONFIG now (timestamp v'))); [done|by apply IH].
Qed.

End StoreMore.

Section RoundTrip.
Variable CONFIG : Config.
Variable env : Env.

(** The world the handler leaves when a reply without attachments is
    collected. *)
Lemma Raw_reply_collected reply k bridgeData (w : World BridgeData.t) :
  firstActive CONFIG BridgeData.timestamp (clock w) (activeMessages w)
  = Some (k, bridgeData) ->
  DiscordMessage.channel_id reply = discordChannelId CONFIG ->
  DiscordMessage.attachments reply = [] ->
  exec (Raw.handleDiscordMessage CONFIG env reply) w
  = set_activeMessages
      (Map_alter
         (BridgeData.push
            (Response.mk (DiscordMessage.content reply)
                         (Author.username (DiscordMessage.author reply)) [] (clock w)))
         k (activeMessages w)) w.
Proof.
  intros Hfirst Hch Hno. unfold Raw.handleDiscordMessage.
  rewrite decide_False by (intros H; by apply H).
  unfold exec, bind, activeMessages_entries.
  by rewrite (collectResponse_text CONFIG env reply _ k bridgeData).
Qed.

Lemma Batch_reply_collected reply k bridgeData (w : World BridgeData.t) :
  firstActive CONFIG BridgeData.timestamp (clock w) (activeMessages w)
  = Some (k, bridgeData) ->
  Author.bot (DiscordMessage.author reply) = false ->
  DiscordMessage.channel_id reply = discordChannelId CONFIG ->
  DiscordMessage.attachments reply = [] ->
  exec (Batch.handleDiscordMessage CONFIG env reply) w
  = set_activeMessages
      (Map_alter
         (BridgeData.push
            (Response.mk (DiscordMessage.content reply)
                         (Author.username (DiscordMessage.author reply)) [] (clock w)))
         k (activeMessages w)) w.
Proof.
  intros Hfirst Hbot Hch Hno. unfold Batch.handleDiscordMessage. rewrite Hbot.
  rewrite decide_False by (intros H; by apply H).
  unfold exec, bind, activeMessages_entries.
  by rewrite (collectResponse_text CONFIG env reply _ k bridgeData).
Qed.

(** The world the handler leaves when a text was forwarded. *)
Lemma Raw_text_forwarded message chat contact (w : World BridgeData.t) :
  WaMessage.getChat message = Some chat ->
  WaMessage.getContact message = Some contact ->
  admits CONFIG false message = true ->
  WaMessage.hasMedia message = false ->
  fetch env (S (tick w)) (discordChannelId CONFIG) = Channel ->
  send env (S (S (tick w))) (trim (WaMessage.body message)) [] = true ->
  exec (Raw.handleWhatsAppMessage CONFIG env message) w
  = mkWorld
      (Map_set (freshId env w)
         (BridgeData.mk (WaMessage.from message) chat message
                        (clock w) [])
         (activeMessages w))
      (files w)
      (timers w ++ [(clock w + messageTimeout CONFIG,
                     ProcessCollectedResponses (freshId env w))])
      (trace w ++ [ChannelsFetch (discordChannelId CONFIG) Channel;
                   ChannelSend (trim (WaMessage.body message)) [] true])
      (S (S (S (tick w)))) (clock w).
Proof.
  intros Hchat Hcontact Ha Hm Hf Hs. unfold exec.
  rewrite (Raw_admits CONFIG env _ chat contact _ Ha Hchat Hcontact).
  by rewrite Raw_forward_text.
Qed.

Lemma Batch_text_forwarded message chat contact (w : World BridgeData.t) :
  WaMessage.getChat message = Some chat ->
  WaMessage.getContact message = Some contact ->
  admits CONFIG true message = true ->
  WaMessage.hasMedia message = false ->
  fetch env (S (tick w)) (discordChannelId CONFIG) = Channel ->
  send env (S (S (tick w)))
       (Batch.formatMessage contact
          (trim (substring (WaMessage.body message) 1)) (freshId env w)) [] = true ->
  exec (Batch.handleWhatsAppMessage CONFIG env message) w
  = mkWorld
      (Map_set (freshId env w)
         (BridgeData.mk (WaMessage.from message) chat message
                        (clock w) [])
         (activeMessages w))
      (files w)
      (timers w ++ [(clock w + messageTimeout CONFIG,
                     ProcessCollectedResponses (freshId env w))])
      (trace w ++ [ChannelsFetch (discordChannelId CONFIG) Channel;
                   ChannelSend
                     (Batch.formatMessage contact
                        (trim (substring (WaMessage.body message) 1)) (freshId env w))
                     [] true])
      (S (S (S (tick w)))) (clock w).
Proof.
  intros Hchat Hcontact Ha Hm Hf Hs. unfold exec.
  rewrite (Batch_admits CONFIG env _ chat contact _ Ha Hchat Hcontact).
  by rewrite Batch_forward_text.
Qed.

(** The flush of a record that holds no reply. *)
Lemma Batch_flush_no_reply bridgeId bridgeData (w : World BridgeData.t) :
  (forall n p, deliver env n (BridgeData.whatsappChat bridgeData) p = true) ->
  Map_get bridgeId (activeMessages w) = Some bridgeData ->
  BridgeData.responses bridgeData = [] ->
  Batch.processCollectedResponses env bridgeId w
  = (Normal tt,
     mkWorld (Map_delete bridgeId (activeMessages w)) (files w) (timers w)
       (trace w ++ [SendMessage (BridgeData.whatsappChat bridgeData)
                      (Text Batch.noResponse) true])
       (S (tick w)) (clock w)).
Proof.
  intros Hok Hget Hr.
  unfold Batch.processCollectedResponses, bind at 1, activeMessages_get.
  rewrite Hget. unfold try_finally, try_catch. rewrite Hr. simpl.
  unfold sendMessage. rewrite Hok. reflexivity.
Qed.

(** The flush of a record that holds one reply, a text. *)
Lemma Raw_flush_one_text bridgeId bridgeData response (w : World BridgeData.t) :
  (forall n p, deliver env n (BridgeData.whatsappChat bridgeData) p = true) ->
  Map_get bridgeId (activeMessages w) = Some bridgeData ->
  BridgeData.responses bridgeData = [response] ->
  Response.attachments response = [] ->
  truthy (trim (Response.content response)) = true ->
  Raw.processCollectedResponses env bridgeId w
  = (Normal tt,
     mkWorld (Map_delete bridgeId (activeMessages w)) (files w) (timers w)
       (trace w ++ [SendMessage (BridgeData.whatsappChat bridgeData)
                      (Text (Response.content response)) true])
       (S (tick w)) (clock w + 1000)).
Proof.
  intros Hok Hget Hr Hno Ht.
  unfold Raw.processCollectedResponses, bind at 1, activeMessages_get.
  rewrite Hget. unfold try_finally, try_catch. rewrite Hr. simpl.
  unfold Raw.sendResponse. rewrite Ht, Hno. simpl.
  unfold bind, sendMessage. rewrite Hok. reflexivity.
Qed.

Lemma Batch_flush_one_text bridgeId bridgeData response (w : World BridgeData.t) :
  (forall n p, deliver env n (BridgeData.whatsappChat bridgeData) p = true) ->
  Map_get bridgeId (activeMessages w) = Some bridgeData ->
  BridgeData.responses bridgeData = [response] ->
  Response.attachments response = [] ->
  truthy (trim (Response.content response)) = true ->
  Batch.processCollectedResponses env bridgeId w
  = (Normal tt,
     mkWorld (Map_delete bridgeId (activeMessages w)) (files w) (timers w)
       (trace w ++ [SendMessage (BridgeData.whatsappChat bridgeData)
                      (Text (Batch.messageText response)) true;
                    SendMessage (BridgeData.whatsappChat bridgeData)
                      (Text (Batch.summary 1)) true])
       (S (S (tick w))) (clock w + 1000)).
Proof.
  intros Hok Hget Hr Hno Ht.
  unfold Batch.processCollectedResponses, bind at 1, activeMessages_get.
  rewrite Hget. unfold try_finally, try_catch. rewrite Hr. simpl.
  unfold Batch.sendResponse. rewrite Ht, Hno. simpl.
  unfold bind, sendMessage. rewrite !Hok. simpl. rewrite Hok. simpl.
  unfold record, set_activeMessages, set_clock. simpl. by rewrite <- app_assoc.
Qed.

(** X10. A text event, one text reply and the flush, in the batch
    variants. The event, whose conversation and contact resolve, is
    admitted under a fresh id and forwarded; a
    reply without attachments arrives in the channel while the new record
    is inside its window and no older record is; the timer of the record
    then runs, and every delivery succeeds. Then the conversation of the
    event receives the reply and the store and the files are as before
    the event. [Raw] forwards the body as it is and relays the content of
    the reply as it is, whoever wrote it, a bot included; [Batch]
    forwards the decorated body, drops the reply of a bot, and otherwise
    relays the reply under the name of its author, followed by the
    count. *)
Theorem a_text_and_its_reply_go_round message chat contact reply t1 t2
    (w : World BridgeData.t) :
  WaMessage.getChat message = Some chat ->
  WaMessage.getContact message = Some contact ->
  WaMessage.hasMedia message = false ->
  Map_get (freshId env w) (activeMessages w) = None ->
  firstActive CONFIG BridgeData.timestamp t1 (activeMessages w) = None ->
  t1 - clock w <= messageTimeout CONFIG ->
  fetch env (S (tick w)) (discordChannelId CONFIG) = Channel ->
  DiscordMessage.channel_id reply = discordChannelId CONFIG ->
  DiscordMessage.attachments reply = [] ->
  truthy (trim (DiscordMessage.content reply)) = true ->
  (forall n p, deliver env n chat p = true) ->
  let bridgeId := freshId env w in
  (admits CONFIG false message = true ->
   send env (S (S (tick w))) (trim (WaMessage.body message)) [] = true ->
   let w1 := exec (Raw.handleWhatsAppMessage CONFIG env message) w in
   let w2 := exec (Raw.handleDiscordMessage CONFIG env reply) (later t1 w1) in
   let w3 := exec (Raw.run env (ProcessCollectedResponses bridgeId)) (later t2 w2) in
   news w w3
   = [ChannelsFetch (discordChannelId CONFIG) Channel;
      ChannelSend (trim (WaMessage.body message)) [] true;
      SendMessage chat (Text (DiscordMessage.content reply)) true]
   /\ activeMessages w3 = activeMessages w
   /\ files w3 = files w)
  /\
  (admits CONFIG true message = true ->
   send env (S (S (tick w)))
        (Batch.formatMessage contact
           (trim (substring (WaMessage.body message) 1)) bridgeId) [] = true ->
   let w1 := exec (Batch.handleWhatsAppMessage CONFIG env message) w in
   let w2 := exec (Batch.handleDiscordMessage CONFIG env reply) (later t1 w1) in
   let w3 := exec (Batch.run env (ProcessCollectedResponses bridgeId)) (later t2 w2) in
   if Author.bot (DiscordMessage.author reply) then
     news w w3
     = [ChannelsFetch (discordChannelId CONFIG) Channel;
        ChannelSend
          (Batch.formatMessage contact
             (trim (substring (WaMessage.body message) 1)) bridgeId) [] true;
        SendMessage chat (Text Batch.noResponse) true]
     /\ activeMessages w3 = activeMessages w
     /\ files w3 = files w
   else
     news w w3
     = [ChannelsFetch (discordChannelId CONFIG) Channel;
        ChannelSend
          (Batch.formatMessage contact
             (trim (substring (WaMessage.body message) 1)) bridgeId) [] true;
        SendMessage chat
          (Text (u "**" ++ Author.username (DiscordMessage.author reply) ++ u "**: "
                 ++ DiscordMessage.content reply)) true;
        SendMessage chat (Text (Batch.summary 1)) true]
     /\ activeMessages w3 = activeMessages w
     /\ files w3 = files w).
Proof.
  intros Hchat Hcontact Hm Hfresh Hnone Ht1 Hf Hch Hno Htext Hok bridgeId.
  set (bridgeData := BridgeData.mk (WaMessage.from message) chat
                       message (clock w) []).
  set (response := Response.mk (DiscordMessage.content reply)
                     (Author.username (DiscordMessage.author reply)) [] t1).
  assert (firstActive CONFIG BridgeData.timestamp t1
            (Map_set bridgeId bridgeData (activeMessages w)) = Some (bridgeId, bridgeData))
    as Hfirst by by apply firstActive_set_fresh.
  split; intros Ha Hs; cbv zeta.
  - rewrite (Raw_text_forwarded message chat contact) by done. fold bridgeId bridgeData.
    match goal with |- context [later t1 ?w1] =>
      rewrite (Raw_reply_collected reply bridgeId bridgeData (later t1 w1)) by done
    end.
    fold response. unfold exec, Raw.run.
    match goal with |- context [later t2 ?w2] =>
      rewrite (Raw_flush_one_text bridgeId (BridgeData.push response bridgeData) response
                 (later t2 w2));
        [|exact Hok|simpl; by rewrite Map_get_alter, Map_get_set|done..]
    end.
    simpl. split; [|split; [|done]].
    + rewrite <- app_assoc. by apply news_app.
    + rewrite Map_delete_alter. by apply Map_delete_set_fresh.
  - rewrite (Batch_text_forwarded message chat contact) by done. fold bridgeId bridgeData.
    destruct (Author.bot (DiscordMessage.author reply)) eqn:Hbot.
    + unfold Batch.handleDiscordMessage. rewrite Hbot.
      unfold exec, ret, Batch.run. simpl.
      match goal with |- context [later t2 ?w2] =>
        rewrite (Batch_flush_no_reply bridgeId bridgeData (later t2 w2));
          [|exact Hok|simpl; by rewrite Map_get_set|done]
      end.
      simpl. split; [|split; [|done]].
      * rewrite <- app_assoc. by apply news_app.
      * by apply Map_delete_set_fresh.
    + match goal with |- context [later t1 ?w1] =>
        rewrite (Batch_reply_collected reply bridgeId bridgeData (later t1 w1)) by done
      end.
      fold response. unfold exec, Batch.run.
      match goal with |- context [later t2 ?w2] =>
        rewrite (Batch_flush_one_text bridgeId (BridgeData.push response bridgeData)
                   response (later t2 w2));
          [|exact Hok|simpl; by rewrite Map_get_alter, Map_get_set|done..]
      end.
      simpl. split; [|split; [|done]].
      * rewrite <- app_assoc. by apply news_app.
      * rewrite Map_delete_alter. by apply Map_delete_set_fresh.
Qed.

End RoundTrip.

Lemma a_text_and_its_reply_go_round_witness :
  let w : World BridgeData.t := Sample.empty 1000 in
  let w1 := exec (Raw.handleWhatsAppMessage Sample.CONFIG Sample.reliable Sample.ping) w in
  let w2 := exec (Raw.handleDiscordMessage Sample.CONFIG Sample.reliable Sample.pong)
                 (later 2000 w1) in
  let w3 := exec (Raw.run Sample.reliable (ProcessCollectedResponses (u "1000_k3x9q2m1z")))
                 (later 121000 w2) in
  news w w3
  = [ChannelsFetch (u "bridge-channel") Channel;
     ChannelSend (u ".ping") [] true;
     SendMessage Sample.alice (Text (u "pong")) true]
  /\ activeMessages w3 = []
  /\ files w3 = ∅.
Proof.
  cbv zeta.
  destruct (a_text_and_its_reply_go_round Sample.CONFIG Sample.reliable Sample.ping
              Sample.alice Sample.nobody Sample.pong 2000 121000 (Sample.empty 1000))
    as [H _];
    try reflexivity.
  - by vm_compute.
  - apply H; reflexivity.
Defined.

(** ** The life of a record *)

Section Lifetime.
Variable CONFIG : Config.
Variable env : Env.

Lemma Live_reply_keeps_store clientUserId message (w : World LiveBridgeData.t) :
  activeMessages (exec (Live.handleDiscordMessage CONFIG env clientUserId message) w)
  = activeMessages w.
Proof.
  unfold Live.handleDiscordMessage.
  destruct (decide _); [done|]. destruct (decide _); [done|].
  unfold exec, bind, activeMessages_entries. simpl.
  apply (Live_relayResponse_respects CONFIG env (keeps activeMessages)); prims.
Qed.

Lemma Live_replies_keep_store clientUserId events (w : World LiveBridgeData.t) :
  activeMessages (Live_replies CONFIG env clientUserId events w) = activeMessages w.
Proof.
  revert w. induction events as [|[t message] rest IH]; intros w; simpl; [done|].
  rewrite IH. by rewrite Live_reply_keeps_store.
Qed.

Lemma cleanupBridgeSession_deletes bridgeId (w : World LiveBridgeData.t) :
  exec (Live.run (CleanupBridgeSession bridgeId)) w
  = set_activeMessages (Map_delete bridgeId (activeMessages w)) w.
Proof.
  unfold exec, Live.run, Live.cleanupBridgeSession, bind, activeMessages_get.
  destruct (Map_get bridgeId (activeMessages w)) eqn:E; [done|].
  unfold ret. rewrite Map_delete_absent by done. by destruct w.
Qed.

(** X11. In the immediate variant an admitted event whose channel is
    found leaves no record behind. Either its forward fails, and the
    store is at once as it was before the event; or the timer of the
    session is set, and when that timer runs, after whatever replies have
    arrived in between, the store is as it was before the event. The
    timer sends nothing and touches no file. *)
Theorem Live_session_leaves_no_record clientUserId message events t
    (w : World LiveBridgeData.t) :
  admits CONFIG false message = true ->
  Map_get (freshId env w) (activeMessages w) = None ->
  fetch env (S (tick w)) (discordChannelId CONFIG) <> Null ->
  let bridgeId := freshId env w in
  let w1 := exec (Live.handleWhatsAppMessage CONFIG env message) w in
  let w2 := Live_replies CONFIG env clientUserId events w1 in
  let w3 := exec (Live.run (CleanupBridgeSession bridgeId)) (later t w2) in
  (activeMessages w1 = activeMessages w
   \/ In (clock w + messageTimeout CONFIG, CleanupBridgeSession bridgeId) (timers w1))
  /\ activeMessages w3 = activeMessages w
  /\ trace w3 = trace w2
  /\ files w3 = files w2.
Proof.
  intros Ha Hfresh Hf. cbv zeta.
  rewrite cleanupBridgeSession_deletes. simpl.
  rewrite Live_replies_keep_store.
  assert (WaMessage.getChat message = None \/ WaMessage.getContact message = None
          \/ exists chat contact,
               WaMessage.getChat message = Some chat
               /\ WaMessage.getContact message = Some contact) as [Hn|[Hn|Hr]].
  { destruct (WaMessage.getChat message) as [chat|]; [|by left].
    destruct (WaMessage.getContact message) as [contact|]; [|by right; left].
    right. right. by exists chat, contact. }
  1,2: unfold exec;
       rewrite (Live_unresolved CONFIG env message w Ha) by (first [by left|by right]);
       simpl; split; [by left|]; split; [by apply Map_delete_absent|done].
  destruct Hr as (chat & contact & Hchat & Hcontact).
  split; [|split; [|done]].
  - unfold exec. rewrite (Live_admits CONFIG env _ chat contact _ Ha Hchat Hcontact).
    match goal with |- context [Live.forward _ _ _ _ _ ?content ?k ?w0] =>
      destruct (Live_forward_outcome CONFIG env message chat contact content k w0)
        as [(_ & _ & ts & Ht)|[(Hn & _)|(_ & Hs & _)]]
    end.
    + right. unfold exec in Ht. rewrite Ht. simpl.
      rewrite !in_app_iff. right. right. by left.
    + exfalso. unfold exec in Hn.
      match type of Hn with news ?a ?b = _ =>
        destruct (Live_forward_begins CONFIG env message chat contact
                    (trim (WaMessage.body message)) (freshId env w) a) as (evs & Ht)
      end.
      unfold exec in Ht. apply news_app in Ht. rewrite Ht in Hn.
      simpl in Hn. injection Hn as Hn _. congruence.
    + left. unfold exec in Hs. rewrite Hs. simpl. by apply Map_delete_set_fresh.
  - unfold exec. rewrite (Live_admits CONFIG env _ chat contact _ Ha Hchat Hcontact).
    match goal with |- context [Live.forward _ _ _ _ _ ?content ?k ?w0] =>
      destruct (Live_forward_store CONFIG env message chat contact content k w0) as [Hs|Hs]
    end; unfold exec in Hs; rewrite Hs; simpl.
    + by apply Map_delete_set_fresh.
    + rewrite Map_delete_set_fresh by done. by apply Map_delete_absent.
Qed.

End Lifetime.

Lemma Live_session_leaves_no_record_witness :
  let w : World LiveBridgeData.t := Sample.empty 1000 in
  let w1 := exec (Live.handleWhatsAppMessage Sample.CONFIG Sample.reliable Sample.ping) w in
  let w2 := Live_replies Sample.CONFIG Sample.reliable (u "1")
              [(2000, Sample.pong); (3000, Sample.pong)] w1 in
  let w3 := exec (Live.run (CleanupBridgeSession (u "1000_k3x9q2m1z")))
                 (later 121000 w2) in
  (activeMessages w1 = []
   \/ In (121000, CleanupBridgeSession (u "1000_k3x9q2m1z")) (timers w1))
  /\ activeMessages w3 = []
  /\ trace w3 = trace w2
  /\ files w3 = files w2.
Proof.
  cbv zeta.
  apply (Live_session_leaves_no_record Sample.CONFIG Sample.reliable (u "1") Sample.ping
           [(2000, Sample.pong); (3000, Sample.pong)] 121000 (Sample.empty 1000)).
  - reflexivity.
  - reflexivity.
  - by vm_compute.
Defined.

(** ** The record that the missing channel leaves behind *)

Section Orphan.
Context {R : Type}.
Variable timestamp : R -> Z.
Implicit Types (m : list (str * R)).

Lemma Map_get_app_fresh k m1 m2 : k ∉ keys m1 -> Map_get k (m1 ++ m2) = Map_get k m2.
Proof.
  unfold keys. induction m1 as [|[k' v] m1 IH]; simpl; [done|].
  intros H. apply not_elem_of_cons in H as [Hne H].
  rewrite decide_False by congruence. by apply IH.
Qed.

Lemma NoDup_keys_set_fresh k (v : R) m :
  NoDup (keys m) -> Map_get k m = None -> NoDup (keys (Map_set k v m)).
Proof.
  intros Hnd Hk. rewrite Map_set_fresh by done. unfold keys in *.
  rewrite fmap_app. simpl. apply NoDup_app. split; [done|]. split.
  - intros x Hx Hx'. apply list_elem_of_singleton in Hx' as ->.
    by apply (keys_not_in m k Hk).
  - apply NoDup_singleton.
Qed.

(** The sweep at time [now] over a store to which a record was added
    under a fresh id. *)
Lemma sweep_after_set k (v : R) (w : World R) :
  NoDup (keys (activeMessages w)) ->
  Map_get k (activeMessages w) = None ->
  forall w1 : World R,
    activeMessages w1 = Map_set k v (activeMessages w) ->
    let w2 := exec (sweep timestamp) w1 in
    Map_get k (activeMessages w2)
    = (if decide (clock w1 - timestamp v <= retention) then Some v else None)
    /\ files w2 = files w1 /\ trace w2 = trace w1 /\ timers w2 = timers w1.
Proof.
  intros Hnd Hk w1 Hw1. cbv zeta.
  unfold exec, sweep, bind, Date_now, activeMessages_entries.
  rewrite (sweep_from timestamp (clock w1) [] (activeMessages w1) w1);
    [|rewrite Hw1; by apply NoDup_keys_set_fresh|done].
  simpl. split; [|done]. rewrite Hw1, Map_set_fresh by done.
  rewrite filter_app. rewrite Map_get_app_fresh.
  - rewrite filter_cons, filter_nil. unfold kept at 1. simpl.
    destruct (decide (clock w1 - timestamp v <= retention)); simpl; [|done].
    by rewrite decide_True.
  - intros Hin. apply keys_filter_subset in Hin. by apply (keys_not_in _ _ Hk).
Qed.

End Orphan.

Section OrphanSwept.
Variable CONFIG : Config.
Variable env : Env.

Lemma Live_forward_channel_missing message chat contact content bridgeId
    (w : World LiveBridgeData.t) :
  fetch env (tick w) (discordChannelId CONFIG) = Null ->
  Live.forward CONFIG env message chat contact content bridgeId w =
  (Normal tt,
   mkWorld (activeMessages w) (files w) (timers w)
     (trace w ++ [ChannelsFetch (discordChannelId CONFIG) Null;
                  ConsoleError (u "Discord channel not found")])
     (S (tick w)) (clock w)).
Proof.
  intros Hf. unfold Live.forward, try_catch, bind, channels_fetch, console_error.
  rewrite Hf. cbn. by rewrite <- app_assoc.
Qed.

(** X12. The record that an admitted event, whose conversation and
    contact resolve, leaves behind when the channel is not found has no
    timer, in every variant; the hourly sweep is what removes it. A sweep that runs at most one hour after the event finds
    the record and keeps it, a sweep that runs later deletes it; either
    way the sweep sends nothing and touches no file and no timer. *)
Theorem record_without_channel_lives_until_the_sweep message chat contact t :
  WaMessage.getChat message = Some chat ->
  WaMessage.getContact message = Some contact ->
  (forall w : World BridgeData.t,
     admits CONFIG true message = true ->
     fetch env (S (tick w)) (discordChannelId CONFIG) = Null ->
     NoDup (keys (activeMessages w)) ->
     Map_get (freshId env w) (activeMessages w) = None ->
     let bridgeData :=
       BridgeData.mk (WaMessage.from message) chat message
                     (clock w) [] in
     let w1 := exec (Batch.handleWhatsAppMessage CONFIG env message) w in
     let w2 := exec (sweep BridgeData.timestamp) (later t w1) in
     timers w1 = timers w
     /\ Map_get (freshId env w) (activeMessages w2)
        = (if decide (t - clock w <= retention) then Some bridgeData else None)
     /\ files w2 = files w1 /\ trace w2 = trace w1 /\ timers w2 = timers w1)
  /\
  (forall w : World BridgeData.t,
     admits CONFIG false message = true ->
     fetch env (S (tick w)) (discordChannelId CONFIG) = Null ->
     NoDup (keys (activeMessages w)) ->
     Map_get (freshId env w) (activeMessages w) = None ->
     let bridgeData :=
       BridgeData.mk (WaMessage.from message) chat message
                     (clock w) [] in
     let w1 := exec (Raw.handleWhatsAppMessage CONFIG env message) w in
     let w2 := exec (sweep BridgeData.timestamp) (later t w1) in
     timers w1 = timers w
     /\ Map_get (freshId env w) (activeMessages w2)
        = (if decide (t - clock w <= retention) then Some bridgeData else None)
     /\ files w2 = files w1 /\ trace w2 = trace w1 /\ timers w2 = timers w1)
  /\
  (forall w : World LiveBridgeData.t,
     admits CONFIG false message = true ->
     fetch env (S (tick w)) (discordChannelId CONFIG) = Null ->
     NoDup (keys (activeMessages w)) ->
     Map_get (freshId env w) (activeMessages w) = None ->
     let bridgeData :=
       LiveBridgeData.mk (Chat.id_serialized chat)
         chat message (clock w)
         (Chat.isGroup chat)
         (if Chat.isGroup chat
          then Some (Chat.name chat) else None) in
     let w1 := exec (Live.handleWhatsAppMessage CONFIG env message) w in
     let w2 := exec (sweep LiveBridgeData.timestamp) (later t w1) in
     timers w1 = timers w
     /\ Map_get (freshId env w) (activeMessages w2)
        = (if decide (t - clock w <= retention) then Some bridgeData else None)
     /\ files w2 = files w1 /\ trace w2 = trace w1 /\ timers w2 = timers w1).
Proof.
  intros Hchat Hcontact. split; [|split]; intros w Ha Hf Hnd Hfresh; cbv zeta.
  - assert (exec (Batch.handleWhatsAppMessage CONFIG env message) w
            = mkWorld
                (Map_set (freshId env w)
                   (BridgeData.mk (WaMessage.from message) chat
                                  message (clock w) [])
                   (activeMessages w))
                (files w) (timers w)
                (trace w ++ [ChannelsFetch (discordChannelId CONFIG) Null;
                             ConsoleError (u "Discord channel not found")])
                (S (S (tick w))) (clock w)) as ->.
    { unfold exec. rewrite (Batch_admits CONFIG env _ chat contact _ Ha Hchat Hcontact).
      by rewrite Batch_forward_channel_missing. }
    split; [done|].
    match goal with |- context [later t ?w1] =>
      apply (sweep_after_set BridgeData.timestamp (freshId env w)
               (BridgeData.mk (WaMessage.from message) chat
                              message (clock w) [])
               w Hnd Hfresh (later t w1))
    end.
    reflexivity.
  - assert (exec (Raw.handleWhatsAppMessage CONFIG env message) w
            = mkWorld
                (Map_set (freshId env w)
                   (BridgeData.mk (WaMessage.from message) chat
                                  message (clock w) [])
                   (activeMessages w))
                (files w) (timers w)
                (trace w ++ [ChannelsFetch (discordChannelId CONFIG) Null;
                             ConsoleError (u "Discord channel not found")])
                (S (S (tick w))) (clock w)) as ->.
    { unfold exec. rewrite (Raw_admits CONFIG env _ chat contact _ Ha Hchat Hcontact).
      by rewrite Raw_forward_channel_missing. }
    split; [done|].
    match goal with |- context [later t ?w1] =>
      apply (sweep_after_set BridgeData.timestamp (freshId env w)
               (BridgeData.mk (WaMessage.from message) chat
                              message (clock w) [])
               w Hnd Hfresh (later t w1))
    end.
    reflexivity.
  - set (bridgeData :=
           LiveBridgeData.mk (Chat.id_serialized chat)
             chat message (clock w)
             (Chat.isGroup chat)
             (if Chat.isGroup chat
              then Some (Chat.name chat) else None)).
    assert (exec (Live.handleWhatsAppMessage CONFIG env message) w
            = mkWorld (Map_set (freshId env w) bridgeData (activeMessages w))
                (files w) (timers w)
                (trace w ++ [ChannelsFetch (discordChannelId CONFIG) Null;
                             ConsoleError (u "Discord channel not found")])
                (S (S (tick w))) (clock w)) as ->.
    { unfold exec. rewrite (Live_admits CONFIG env _ chat contact _ Ha Hchat Hcontact).
      by rewrite Live_forward_channel_missing. }
    split; [done|].
    match goal with |- context [later t ?w1] =>
      apply (sweep_after_set LiveBridgeData.timestamp (freshId env w) bridgeData
               w Hnd Hfresh (later t w1))
    end.
    reflexivity.
Qed.

End OrphanSwept.

Lemma record_without_channel_lives_until_the_sweep_witness :
  let w : World BridgeData.t := Sample.empty 1000 in
  let bridgeData := BridgeData.mk (u "4911@c.us") Sample.alice Sample.ping 1000 [] in
  let w1 := exec (Batch.handleWhatsAppMessage Sample.CONFIG Sample.channelMissing
                    Sample.ping) w in
  let w2 := exec (sweep BridgeData.timestamp) (later 3601001 w1) in
  timers w1 = []
  /\ Map_get (u "1000_k3x9q2m1z") (activeMessages w2) = None
  /\ files w2 = files w1 /\ trace w2 = trace w1 /\ timers w2 = timers w1.
Proof.
  cbv zeta.
  destruct (record_without_channel_lives_until_the_sweep Sample.CONFIG
              Sample.channelMissing Sample.ping Sample.alice Sample.nobody 3601001
              eq_refl eq_refl) as [H _].
  apply (H (Sample.empty 1000)).
  - reflexivity.
  - reflexivity.
  - apply NoDup_nil_2.
  - reflexivity.
Defined.

(** ** The scratch files of a reply *)

Section ReceiptFiles.
Variable CONFIG : Config.
Variable env : Env.

Lemma noFileLost_insert {R} p bytes (w : World R) acts ts tr n c :
  noFileLost w (mkWorld acts (<[p := bytes]> (files w)) ts tr n c).
Proof.
  intros q Hq. simpl. destruct (decide (p = q)) as [->|Hne].
  - rewrite lookup_insert_eq. by eexists.
  - by rewrite lookup_insert_ne.
Qed.

(** One attachment: the file is written and the descriptor pushed, or
    the failure, of the download or of the write, is logged and nothing
    is pushed. *)
Lemma downloadAttachment_step bridgeId attachment pushed (w : World BridgeData.t) :
  downloadAttachment CONFIG env bridgeId attachment pushed w
  = match axios env (tick w) (Attachment.url attachment) with
    | Some bytes =>
        if writes env (S (tick w))
             (Descriptor.path (descriptorOf CONFIG env bridgeId attachment))
        then
          (Normal (pushed ++ [descriptorOf CONFIG env bridgeId attachment]),
           mkWorld (activeMessages w)
             (<[Descriptor.path (descriptorOf CONFIG env bridgeId attachment) := bytes]>
                (files w))
             (timers w) (trace w ++ [AxiosGet (Attachment.url attachment) true])
             (S (tick w)) (clock w))
        else
          (Normal pushed,
           mkWorld (activeMessages w) (files w) (timers w)
             (trace w ++ [AxiosGet (Attachment.url attachment) true;
                          ConsoleError (u "Error downloading Discord attachment:")])
             (S (tick w)) (clock w))
    | None =>
        (Normal pushed,
         mkWorld (activeMessages w) (files w) (timers w)
           (trace w ++ [AxiosGet (Attachment.url attachment) false;
                        ConsoleError (u "Error downloading Discord attachment:")])
           (S (tick w)) (clock w))
    end.
Proof.
  unfold downloadAttachment, try_catch, bind, axios_get, writeFileSync, console_error,
    modify, ret, descriptorOf.
  destruct (axios env (tick w) (Attachment.url attachment)); cbn.
  - destruct (writes env (S (tick w)) _); cbn; [done|by rewrite <- app_assoc].
  - by rewrite <- app_assoc.
Qed.

(** The descriptors pushed are those of the attachments whose download
    and write succeeded, in order, and their files are in place. *)
Lemma downloadAttachments_descriptors bridgeId attachments :
  forall pushed (w : World BridgeData.t),
  exists w',
    downloadAttachments CONFIG env bridgeId attachments pushed w
    = (Normal (pushed ++ map (descriptorOf CONFIG env bridgeId)
                           (listed CONFIG env bridgeId (tick w) attachments)), w')
    /\ Forall (fun a => is_Some (files w'
                          !! Descriptor.path (descriptorOf CONFIG env bridgeId a)))
              (listed CONFIG env bridgeId (tick w) attachments)
    /\ noFileLost w w'.
Proof.
  induction attachments as [|a rest IH]; intros pushed w; simpl.
  - exists w. rewrite app_nil_r. repeat split; done.
  - unfold bind. rewrite downloadAttachment_step.
    destruct (axios env (tick w) (Attachment.url a)) as [bytes|] eqn:Ha;
      [destruct (writes env (S (tick w)) _) eqn:Hw|].
    + match goal with |- context [downloadAttachments _ _ _ _ ?p ?w0] =>
        destruct (IH p w0) as (w' & -> & Hfiles & Hkept)
      end.
      exists w'. rewrite <- app_assoc. simpl. repeat split.
      * constructor; [|done]. apply Hkept. simpl. rewrite lookup_insert_eq. by eexists.
      * intros q Hq. apply Hkept. by apply noFileLost_insert.
    + match goal with |- context [downloadAttachments _ _ _ _ ?p ?w0] =>
        destruct (IH p w0) as (w' & -> & Hfiles & Hkept)
      end.
      exists w'. repeat split; done.
    + match goal with |- context [downloadAttachments _ _ _ _ ?p ?w0] =>
        destruct (IH p w0) as (w' & -> & Hfiles & Hkept)
      end.
      exists w'. repeat split; done.
Qed.

(** The loop comes down to the body for the first record inside its
    window. *)
Lemma collectResponse_first message entries k bridgeData (w : World BridgeData.t) :
  firstActive CONFIG BridgeData.timestamp (clock w) entries = Some (k, bridgeData) ->
  collectResponse CONFIG env message entries w
  = (let* attachments :=
       downloadAttachments CONFIG env k (DiscordMessage.attachments message) [] in
     modify (fun w' =>
       set_activeMessages
         (Map_alter
            (BridgeData.push
               (Response.mk (DiscordMessage.content message)
                            (Author.username (DiscordMessage.author message))
                            attachments (clock w)))
            k (activeMessages w')) w')) w.
Proof.
  induction entries as [|[k' v] rest IH]; simpl; [done|].
  unfold bind at 1. unfold Date_now at 1. simpl. unfold inWindow.
  destruct (decide (clock w - BridgeData.timestamp v <= messageTimeout CONFIG))
    as [Hin|Hout]; [|exact IH].
  by intros [= -> ->].
Qed.

Lemma collectResponse_descriptors message entries k bridgeData (w : World BridgeData.t) :
  firstActive CONFIG BridgeData.timestamp (clock w) entries = Some (k, bridgeData) ->
  let got := listed CONFIG env k (tick w) (DiscordMessage.attachments message) in
  let w' := exec (collectResponse CONFIG env message entries) w in
  activeMessages w'
  = Map_alter
      (BridgeData.push
         (Response.mk (DiscordMessage.content message)
                      (Author.username (DiscordMessage.author message))
                      (map (descriptorOf CONFIG env k) got) (clock w)))
      k (activeMessages w)
  /\ Forall (fun a => is_Some (files w' !! Descriptor.path (descriptorOf CONFIG env k a)))
            got.
Proof.
  intros Hfirst. cbv zeta. unfold exec.
  rewrite (collectResponse_first message entries k bridgeData w Hfirst).
  destruct (downloadAttachments_descriptors k (DiscordMessage.attachments message) [] w)
    as (w' & Hd & Hfiles & _).
  pose proof (downloadAttachments_keeps CONFIG env activeMessages k
                (DiscordMessage.attachments message) []
                (fun _ _ => eq_refl) (fun _ _ => eq_refl) (fun _ _ => eq_refl) w) as Hs.
  unfold keeps in Hs. unfold bind. rewrite Hd in *. simpl in *.
  by rewrite Hs.
Qed.

Lemma listed_all bridgeId attachments n :
  (forall m url, is_Some (axios env m url)) ->
  (forall m p, writes env m p = true) ->
  listed CONFIG env bridgeId n attachments = attachments.
Proof.
  intros Ha Hw. revert n. induction attachments as [|a rest IH]; intros n; simpl; [done|].
  destruct (Ha n (Attachment.url a)) as [bytes ->]. by rewrite Hw, IH.
Qed.

(** X13. In the batch variants, when a reply is collected by a record,
    the entry appended to the record lists exactly the attachments whose
    download succeeded and whose file could then be written, in the order
    of the reply and each under the path that [path.join] makes of the
    uploads directory and [bridgeId_name]; the file of every attachment
    listed is in place when the handler returns. When every download and
    every write succeeds, every attachment of the reply is listed. *)
Theorem collected_attachments_have_their_files message k bridgeData
    (w : World BridgeData.t) :
  DiscordMessage.channel_id message = discordChannelId CONFIG ->
  firstActive CONFIG BridgeData.timestamp (clock w) (activeMessages w)
  = Some (k, bridgeData) ->
  let got := listed CONFIG env k (tick w) (DiscordMessage.attachments message) in
  (let w' := exec (Raw.handleDiscordMessage CONFIG env message) w in
   activeMessages w'
   = Map_alter
       (BridgeData.push
          (Response.mk (DiscordMessage.content message)
                       (Author.username (DiscordMessage.author message))
                       (map (descriptorOf CONFIG env k) got) (clock w)))
       k (activeMessages w)
   /\ Forall (fun a => is_Some (files w' !! Descriptor.path (descriptorOf CONFIG env k a)))
             got)
  /\
  (Author.bot (DiscordMessage.author message) = false ->
   let w' := exec (Batch.handleDiscordMessage CONFIG env message) w in
   activeMessages w'
   = Map_alter
       (BridgeData.push
          (Response.mk (DiscordMessage.content message)
                       (Author.username (DiscordMessage.author message))
                       (map (descriptorOf CONFIG env k) got) (clock w)))
       k (activeMessages w)
   /\ Forall (fun a => is_Some (files w' !! Descriptor.path (descriptorOf CONFIG env k a)))
             got)
  /\
  ((forall n url, is_Some (axios env n url)) ->
   (forall n p, writes env n p = true) ->
   got = DiscordMessage.attachments message).
Proof.
  intros Hch Hfirst. cbv zeta. split; [|split; [intros Hbot|]].
  - unfold Raw.handleDiscordMessage. rewrite decide_False by (intros H; by apply H).
    apply (collectResponse_descriptors message (activeMessages w) k bridgeData w Hfirst).
  - unfold Batch.handleDiscordMessage. rewrite Hbot.
    rewrite decide_False by (intros H; by apply H).
    apply (collectResponse_descriptors message (activeMessages w) k bridgeData w Hfirst).
  - apply listed_all.
Qed.

End ReceiptFiles.

Lemma collected_attachments_have_their_files_witness :
  let message := Sample.reply (u "see") [Sample.notes; Sample.cat] in
  let w' := exec (Raw.handleDiscordMessage Sample.CONFIG Sample.reliable message)
                 Sample.twoActive in
  listed Sample.CONFIG Sample.reliable (u "1_a") 0 [Sample.notes; Sample.cat]
  = [Sample.notes; Sample.cat]
  /\ activeMessages w'
     = Map_alter
         (BridgeData.push
            (Response.mk (u "see") (u "carol")
               (map (descriptorOf Sample.CONFIG Sample.reliable (u "1_a"))
                    [Sample.notes; Sample.cat]) 1000))
         (u "1_a") (activeMessages Sample.twoActive)
  /\ Forall (fun a => is_Some (files w'
                        !! Descriptor.path
                             (descriptorOf Sample.CONFIG Sample.reliable (u "1_a") a)))
            [Sample.notes; Sample.cat].
Proof.
  cbv zeta.
  destruct (collected_attachments_have_their_files Sample.CONFIG Sample.reliable
              (Sample.reply (u "see") [Sample.notes; Sample.cat])
              (u "1_a") (Sample.record Sample.alice 0 []) Sample.twoActive
              eq_refl eq_refl) as (H & _ & Hall).
  split; [|exact H].
  apply Hall; [intros n url; by eexists|reflexivity].
Defined.

(** ** Two attachments of one name *)

Section OneName.
Variable CONFIG : Config.
Variable env : Env.

Hypothesis Hok : forall n chat p, deliver env n chat p = true.

Lemma Batch_sendAttachment_absent chat response attachment (w : World BridgeData.t) :
  files w !! Descriptor.path attachment = None ->
  Batch.sendAttachment env chat response attachment w = (Normal tt, w).
Proof.
  intros Hfile. unfold Batch.sendAttachment, try_catch, bind, existsSync.
  rewrite Hfile. by rewrite bool_decide_eq_false_2 by (intros [? ?]; done).
Qed.

(** The flush of a record whose one reply, without text, lists two
    descriptors of the same path. *)
Lemma Batch_flush_shared_file k bridgeData response d1 d2 bytes (w : World BridgeData.t) :
  Map_get k (activeMessages w) = Some bridgeData ->
  BridgeData.responses bridgeData = [response] ->
  truthy (trim (Response.content response)) = false ->
  Response.attachments response = [d1; d2] ->
  Descriptor.path d2 = Descriptor.path d1 ->
  files w !! Descriptor.path d1 = Some bytes ->
  Batch.processCollectedResponses env k w
  = (Normal tt,
     mkWorld (Map_delete k (activeMessages w)) (delete (Descriptor.path d1) (files w))
       (timers w)
       (trace w ++ [SendMessage (BridgeData.whatsappChat bridgeData)
                      (MediaFile (Descriptor.path d1) bytes
                         (Some (Batch.caption (Descriptor.name d1)
                                  (Response.author response)))) true;
                    SendMessage (BridgeData.whatsappChat bridgeData)
                      (Text (Batch.summary 1)) true])
       (S (S (tick w))) (clock w + 1000)).
Proof.
  intros Hget Hr Hblank Hatts Hpath Hfile.
  unfold Batch.processCollectedResponses, bind at 1, activeMessages_get.
  rewrite Hget. unfold try_finally, try_catch. rewrite Hr.
  change (length [response] =? 0)%nat with false. cbv iota.
  unfold for_of at 1. unfold Batch.sendResponse. rewrite Hblank, Hatts.
  unfold for_of. unfold bind, ret.
  rewrite (Batch_sendAttachment_ok env Hok) by by eexists.
  rewrite Batch_sendAttachment_absent
    by (rewrite Hpath; unfold delivered; cbn; by rewrite lookup_delete_eq).
  unfold sleep, modify. rewrite (sendMessage_ok env Hok).
  unfold activeMessages_delete, modify, delivered, set_clock, set_activeMessages,
    Batch_payload. cbn. rewrite Hfile. cbn.
  rewrite <- app_assoc. do 2 f_equal; lia.
Qed.

(** X14. Two attachments of one reply that bear the same name are written,
    when both writes succeed, to the same scratch file, the second over
    the first. When the record
    is flushed in [Batch] and every delivery succeeds, the conversation
    receives one file, with the bytes of the second attachment; for the
    second descriptor the file is gone, and it is passed over without a
    notice and without an error logged. *)
Theorem attachments_of_one_name_share_one_file
    message a1 a2 b1 b2 k bridgeData t (w : World BridgeData.t) :
  Author.bot (DiscordMessage.author message) = false ->
  DiscordMessage.channel_id message = discordChannelId CONFIG ->
  DiscordMessage.attachments message = [a1; a2] ->
  Attachment.name a1 = Attachment.name a2 ->
  truthy (trim (DiscordMessage.content message)) = false ->
  firstActive CONFIG BridgeData.timestamp (clock w) (activeMessages w)
  = Some (k, bridgeData) ->
  Map_get k (activeMessages w) = Some bridgeData ->
  BridgeData.responses bridgeData = [] ->
  axios env (tick w) (Attachment.url a1) = Some b1 ->
  axios env (S (tick w)) (Attachment.url a2) = Some b2 ->
  let filePath := Descriptor.path (descriptorOf CONFIG env k a1) in
  writes env (S (tick w)) filePath = true ->
  writes env (S (S (tick w))) filePath = true ->
  let w1 := exec (Batch.handleDiscordMessage CONFIG env message) w in
  let w2 := exec (Batch.processCollectedResponses env k) (later t w1) in
  files w1 !! filePath = Some b2
  /\ news w1 w2
     = [SendMessage (BridgeData.whatsappChat bridgeData)
          (MediaFile filePath b2
             (Some (Batch.caption (Attachment.name a1)
                      (Author.username (DiscordMessage.author message))))) true;
        SendMessage (BridgeData.whatsappChat bridgeData) (Text (Batch.summary 1)) true]
  /\ files w2 !! filePath = None.
Proof.
  intros Hbot Hch Hatts Hname Hblank Hfirst Hget Hnone Hb1 Hb2 filePath Hw1 Hw2.
  subst filePath. cbv zeta.
  destruct a2 as [url2 name2 contentType2]. cbn in Hname, Hb2. subst name2.
  set (p := Descriptor.path (descriptorOf CONFIG env k a1)) in *.
  set (d1 := descriptorOf CONFIG env k a1).
  set (d2 := Descriptor.mk (Attachment.name a1) p contentType2).
  set (response := Response.mk (DiscordMessage.content message)
                     (Author.username (DiscordMessage.author message))
                     [d1; d2] (clock w)).
  assert (exec (Batch.handleDiscordMessage CONFIG env message) w
          = mkWorld
              (Map_alter (BridgeData.push response) k (activeMessages w))
              (<[p := b2]> (<[p := b1]> (files w))) (timers w)
              (trace w ++ [AxiosGet (Attachment.url a1) true; AxiosGet url2 true])
              (S (S (tick w))) (clock w)) as ->.
  { unfold Batch.handleDiscordMessage. rewrite Hbot.
    rewrite decide_False by (intros H; by apply H).
    unfold exec, bind at 1, activeMessages_entries.
    rewrite (collectResponse_first CONFIG env message _ k bridgeData w Hfirst).
    rewrite Hatts. unfold downloadAttachments, bind.
    rewrite downloadAttachment_step, Hb1. fold p. rewrite Hw1.
    rewrite downloadAttachment_step. cbn.
    rewrite Hb2. cbn.
    change (path_join env (uploadsDir CONFIG) (k ++ u "_" ++ Attachment.name a1)) with p.
    rewrite Hw2. cbn.
    unfold set_activeMessages. cbn. by rewrite <- app_assoc. }
  unfold exec.
  match goal with |- context [later t ?w1] =>
    rewrite (Batch_flush_shared_file k (BridgeData.push response bridgeData) response
               d1 d2 b2 (later t w1))
  end.
  - cbn. split; [by rewrite lookup_insert_eq|]. split; [|by rewrite lookup_delete_eq].
    by rewrite drop_app_length.
  - cbn. by rewrite Map_get_alter, Hget.
  - cbn. by rewrite Hnone.
  - exact Hblank.
  - reflexivity.
  - reflexivity.
  - cbn. fold p. by rewrite lookup_insert_eq.
Qed.

End OneName.

Lemma attachments_of_one_name_share_one_file_witness :
  let message := Sample.reply (u "") [Sample.cat; catAgain] in
  let w1 := exec (Batch.handleDiscordMessage Sample.CONFIG mirror message)
                 Sample.twoActive in
  let w2 := exec (Batch.processCollectedResponses mirror (u "1_a")) (later 120000 w1) in
  files w1 !! u "/tmp/1_a_cat.png" = Some (u "https://cdn/other/cat.png")
  /\ news w1 w2
     = [SendMessage Sample.alice
          (MediaFile (u "/tmp/1_a_cat.png") (u "https://cdn/other/cat.png")
             (Some (Batch.caption (u "cat.png") (u "carol")))) true;
        SendMessage Sample.alice (Text (Batch.summary 1)) true]
  /\ files w2 !! u "/tmp/1_a_cat.png" = None.
Proof.
  cbv zeta.
  apply (attachments_of_one_name_share_one_file Sample.CONFIG mirror
           (fun _ _ _ => eq_refl)
           (Sample.reply (u "") [Sample.cat; catAgain]) Sample.cat catAgain
           (u "https://cdn/cat.png") (u "https://cdn/other/cat.png")
           (u "1_a") (Sample.record Sample.alice 0 []) 120000 Sample.twoActive);
    reflexivity.
Defined.

(** ** The scratch file of a reply that is relayed at once *)

Section LiveFiles.
Variable CONFIG : Config.
Variable env : Env.

(** X15. In the immediate variant the scratch file of an attachment of a
    reply is gone when the handler returns if the delivery succeeded. If
    the download failed, or the file could not be written, nothing was
    written. If the delivery failed the file stays, with the bytes
    downloaded, and no timer is set that would remove it. In no case is a
    record or a timer touched. *)
Theorem Live_scratch_file_stays_when_delivery_fails bridgeId chat attachment
    (w : World LiveBridgeData.t) :
  let filePath :=
    path_join env (uploadsDir CONFIG) (bridgeId ++ u "_" ++ Attachment.name attachment) in
  let w' := exec (Live.relayAttachment CONFIG env bridgeId chat attachment) w in
  timers w' = timers w
  /\ activeMessages w' = activeMessages w
  /\ match axios env (tick w) (Attachment.url attachment) with
     | None => files w' = files w
     | Some bytes =>
         if writes env (S (tick w)) filePath then
           let payload :=
             if endsWith (toLowerCase (Attachment.name attachment)) (u ".txt")
             then Text (Live.robot (utf8 env bytes))
             else MediaFile filePath bytes (Some (Live.robot (u "Datei von Discord"))) in
           if deliver env (S (tick w)) chat payload
           then files w' = delete filePath (files w)
           else files w' = <[filePath := bytes]> (files w)
         else files w' = files w
     end.
Proof. apply Live_relayAttachment_files. Qed.

End LiveFiles.

(** ** A relay that is cut short *)

Section LiveCut.
Variable CONFIG : Config.
Variable env : Env.

Lemma Live_relay_text_fails message entries k bridgeData (w : World LiveBridgeData.t) :
  firstActive CONFIG LiveBridgeData.timestamp (clock w) entries = Some (k, bridgeData) ->
  truthy (trim (DiscordMessage.content message)) = true ->
  deliver env (tick w) (LiveBridgeData.whatsappChat bridgeData)
          (Text (Live.robot (DiscordMessage.content message))) = false ->
  Live.relayResponse CONFIG env message entries w
  = (Normal tt,
     mkWorld (activeMessages w) (files w) (timers w)
       (trace w ++ [SendMessage (LiveBridgeData.whatsappChat bridgeData)
                      (Text (Live.robot (DiscordMessage.content message))) false;
                    ConsoleError (u "Error forwarding response to WhatsApp:");
                    ConsoleError (u "Bridge data:")])
       (S (tick w)) (clock w)).
Proof.
  intros Hf Ht Hd. induction entries as [|[k' v] rest IH]; simpl; [done|].
  simpl in Hf. unfold bind at 1. unfold Date_now at 1. simpl. unfold inWindow in *.
  destruct (decide (clock w - LiveBridgeData.timestamp v <= messageTimeout CONFIG))
    as [Hin|Hout]; [|by apply IH].
  injection Hf as -> ->.
  unfold try_catch, bind, sendMessage, console_error. rewrite Ht, Hd. cbn.
  by rewrite <- !app_assoc.
Qed.

(** X16. In the immediate variant, when the delivery of the text of a
    reply fails, the relay of that reply ends there: its attachments are
    not downloaded, no file is written, no later record is tried, and the
    failure is logged; the record stays in the store. *)
Theorem Live_relay_is_cut_short_by_a_text_that_fails clientUserId message k bridgeData
    (w : World LiveBridgeData.t) :
  DiscordMessage.channel_id message = discordChannelId CONFIG ->
  Author.id (DiscordMessage.author message) <> clientUserId ->
  firstActive CONFIG LiveBridgeData.timestamp (clock w) (activeMessages w)
  = Some (k, bridgeData) ->
  truthy (trim (DiscordMessage.content message)) = true ->
  deliver env (tick w) (LiveBridgeData.whatsappChat bridgeData)
          (Text (Live.robot (DiscordMessage.content message))) = false ->
  Live.handleDiscordMessage CONFIG env clientUserId message w
  = (Normal tt,
     mkWorld (activeMessages w) (files w) (timers w)
       (trace w ++ [SendMessage (LiveBridgeData.whatsappChat bridgeData)
                      (Text (Live.robot (DiscordMessage.content message))) false;
                    ConsoleError (u "Error forwarding response to WhatsApp:");
                    ConsoleError (u "Bridge data:")])
       (S (tick w)) (clock w)).
Proof.
  intros Hch Hau Hf Ht Hd. unfold Live.handleDiscordMessage.
  rewrite decide_False by (intros H; by apply H).
  rewrite decide_False by done.
  unfold bind at 1, activeMessages_entries.
  by apply (Live_relay_text_fails message (activeMessages w) k bridgeData w).
Qed.

End LiveCut.

Lemma Live_relay_is_cut_short_by_a_text_that_fails_witness :
  Live.handleDiscordMessage Sample.CONFIG Sample.undeliverable (u "1")
    (Sample.reply (u "pong") [Sample.cat]) Sample.twoActiveLive
  = (Normal tt,
     mkWorld (activeMessages Sample.twoActiveLive) ∅ []
       [SendMessage Sample.alice (Text (Live.robot (u "pong"))) false;
        ConsoleError (u "Error forwarding response to WhatsApp:");
        ConsoleError (u "Bridge data:")]
       1 1000).
Proof.
  apply (Live_relay_is_cut_short_by_a_text_that_fails Sample.CONFIG Sample.undeliverable
           (u "1") (Sample.reply (u "pong") [Sample.cat])
           (u "1_a") (Sample.liveRecord Sample.alice 0) Sample.twoActiveLive);
    try reflexivity.
  by vm_compute.
Defined.

(** ** A flush that is cut short *)

Section FlushCut.
Variable env : Env.

(** X17. When the delivery of the text of a reply fails during the flush,
    the flush ends there, in both batch variants: the attachments of that
    reply and the replies after it are not relayed and their scratch
    files stay, no notice reaches the conversation, the failure is logged
    once, and the record is deleted all the same. *)
Theorem flush_is_cut_short_by_a_text_that_fails bridgeId bridgeData response rest
    (w : World BridgeData.t) :
  Map_get bridgeId (activeMessages w) = Some bridgeData ->
  BridgeData.responses bridgeData = response :: rest ->
  truthy (trim (Response.content response)) = true ->
  let chat := BridgeData.whatsappChat bridgeData in
  (deliver env (tick w) chat (Text (Batch.messageText response)) = false ->
   Batch.processCollectedResponses env bridgeId w
   = (Normal tt,
      mkWorld (Map_delete bridgeId (activeMessages w)) (files w) (timers w)
        (trace w ++ [SendMessage chat (Text (Batch.messageText response)) false;
                     ConsoleError (u "Error processing responses:")])
        (S (tick w)) (clock w)))
  /\
  (deliver env (tick w) chat (Text (Response.content response)) = false ->
   Raw.processCollectedResponses env bridgeId w
   = (Normal tt,
      mkWorld (Map_delete bridgeId (activeMessages w)) (files w) (timers w)
        (trace w ++ [SendMessage chat (Text (Response.content response)) false;
                     ConsoleError (u "Error processing responses:")])
        (S (tick w)) (clock w))).
Proof.
  intros Hget Hr Htext. cbv zeta. split; intros Hfail.
  - unfold Batch.processCollectedResponses, bind at 1, activeMessages_get.
    rewrite Hget. unfold try_finally, try_catch. rewrite Hr.
    change (length (response :: rest) =? 0)%nat with false. cbv iota.
    unfold bind at 1. unfold for_of at 1; fold (@for_of BridgeData.t Response.t).
    unfold bind at 1. unfold Batch.sendResponse at 1. rewrite Htext.
    unfold bind at 1. unfold bind at 1. unfold sendMessage at 1. rewrite Hfail.
    cbn. by rewrite <- app_assoc.
  - unfold Raw.processCollectedResponses, bind at 1, activeMessages_get.
    rewrite Hget. unfold try_finally, try_catch. rewrite Hr.
    change (length (response :: rest) =? 0)%nat with false. cbv iota.
    unfold for_of at 1; fold (@for_of BridgeData.t Response.t).
    unfold bind at 1. unfold Raw.sendResponse at 1. rewrite Htext.
    unfold bind at 1. unfold bind at 1. unfold sendMessage at 1. rewrite Hfail.
    cbn. by rewrite <- app_assoc.
Qed.

End FlushCut.

Lemma flush_is_cut_short_by_a_text_that_fails_witness :
  let w := Sample.due [Sample.said (u "one") [Sample.catFile]; Sample.said (u "two") []]
             {[ Descriptor.path Sample.catFile := u "bytes" ]} in
  Batch.processCollectedResponses Sample.undeliverable (u "1_a") w
  = (Normal tt,
     mkWorld [] (files w) []
       [SendMessage Sample.alice
          (Text (Batch.messageText (Sample.said (u "one") [Sample.catFile]))) false;
        ConsoleError (u "Error processing responses:")]
       1 120000).
Proof.
  cbv zeta.
  destruct (flush_is_cut_short_by_a_text_that_fails Sample.undeliverable (u "1_a")
              (Sample.record Sample.alice 0
                 [Sample.said (u "one") [Sample.catFile]; Sample.said (u "two") []])
              (Sample.said (u "one") [Sample.catFile]) [Sample.said (u "two") []]
              (Sample.due [Sample.said (u "one") [Sample.catFile]; Sample.said (u "two") []]
                 {[ Descriptor.path Sample.catFile := u "bytes" ]})
              eq_refl eq_refl eq_refl) as [H _].
  apply H. reflexivity.
Defined.

(** ** A media event that the channel refuses *)

Section MediaRefused.
Variable CONFIG : Config.
Variable env : Env.

(** X18. When the channel refuses an admitted media event, whose
    conversation and contact resolved and whose scratch file was written,
    that file stays, in every variant: the record is deleted
    and the failure logged, and the timer that would delete the file is
    not set, nor any other. The file is named after the bridge id in
    [Batch] and after the time in [Raw] and [Live]. *)
Theorem scratch_file_of_a_refused_media_event_stays message chat contact media :
  WaMessage.hasMedia message = true ->
  WaMessage.getChat message = Some chat ->
  WaMessage.getContact message = Some contact ->
  (forall w : World BridgeData.t,
     let filePath :=
       path_join env (uploadsDir CONFIG)
                 (freshId env w ++ u "_" ++ or (Media.filename media) (u "media")) in
     admits CONFIG true message = true ->
     Map_get (freshId env w) (activeMessages w) = None ->
     fetch env (S (tick w)) (discordChannelId CONFIG) = Channel ->
     download env (S (S (tick w))) message = Some (Some media) ->
     writes env (S (S (S (tick w)))) filePath = true ->
     send env (S (S (S (tick w))))
          (Batch.formatMessage contact
             (trim (substring (WaMessage.body message) 1)) (freshId env w))
          [filePath] = false ->
     let w' := exec (Batch.handleWhatsAppMessage CONFIG env message) w in
     files w' = <[filePath := base64 env (Media.data media)]> (files w)
     /\ timers w' = timers w
     /\ activeMessages w' = activeMessages w)
  /\
  (forall w : World BridgeData.t,
     let filePath :=
       path_join env (uploadsDir CONFIG)
                 (show (clock w) ++ u "_" ++ or (Media.filename media) (u "media")) in
     admits CONFIG false message = true ->
     Map_get (freshId env w) (activeMessages w) = None ->
     fetch env (S (tick w)) (discordChannelId CONFIG) = Channel ->
     download env (S (S (tick w))) message = Some (Some media) ->
     writes env (S (S (S (tick w)))) filePath = true ->
     send env (S (S (S (tick w)))) (trim (WaMessage.body message)) [filePath] = false ->
     let w' := exec (Raw.handleWhatsAppMessage CONFIG env message) w in
     files w' = <[filePath := base64 env (Media.data media)]> (files w)
     /\ timers w' = timers w
     /\ activeMessages w' = activeMessages w)
  /\
  (forall w : World LiveBridgeData.t,
     let filePath :=
       path_join env (uploadsDir CONFIG)
                 (show (clock w) ++ u "_" ++ or (Media.filename media) (u "media")) in
     admits CONFIG false message = true ->
     Map_get (freshId env w) (activeMessages w) = None ->
     fetch env (S (tick w)) (discordChannelId CONFIG) = Channel ->
     download env (S (S (tick w))) message = Some (Some media) ->
     writes env (S (S (S (tick w)))) filePath = true ->
     send env (S (S (S (tick w))))
          (Live.formatMessage message chat
             contact (trim (WaMessage.body message)))
          [filePath] = false ->
     let w' := exec (Live.handleWhatsAppMessage CONFIG env message) w in
     files w' = <[filePath := base64 env (Media.data media)]> (files w)
     /\ timers w' = timers w
     /\ activeMessages w' = activeMessages w).
Proof.
  intros Hm Hchat Hcontact.
  split; [|split]; intros w filePath Ha Hfresh Hf Hd Hw Hs; subst filePath;
    cbv zeta; unfold exec.
  - rewrite (Batch_admits CONFIG env _ chat contact _ Ha Hchat Hcontact).
    rewrite (Batch_forward_media_refused CONFIG env message media) by done.
    cbn. split; [done|]. split; [done|]. by apply Map_delete_set_fresh.
  - rewrite (Raw_admits CONFIG env _ chat contact _ Ha Hchat Hcontact).
    rewrite (Raw_forward_media_refused CONFIG env message media) by done.
    cbn. split; [done|]. split; [done|]. by apply Map_delete_set_fresh.
  - rewrite (Live_admits CONFIG env _ chat contact _ Ha Hchat Hcontact).
    rewrite (Live_forward_media_refused CONFIG env message media) by done.
    cbn. split; [done|]. split; [done|]. by apply Map_delete_set_fresh.
Qed.

End MediaRefused.

Lemma scratch_file_of_a_refused_media_event_stays_witness :
  let w : World BridgeData.t := Sample.empty 1000 in
  let w' := exec (Batch.handleWhatsAppMessage Sample.CONFIG channelRefuses Sample.photo) w in
  files w' = <[u "/tmp/1000_k3x9q2m1z_photo.jpg" := u "aGk="]> ∅
  /\ timers w' = []
  /\ activeMessages w' = [].
Proof.
  cbv zeta.
  destruct (scratch_file_of_a_refused_media_event_stays Sample.CONFIG channelRefuses
              Sample.photo Sample.alice Sample.nobody
              (Media.mk (u "aGk=") (Some (u "photo.jpg"))) eq_refl eq_refl eq_refl)
    as [H _].
  apply (H (Sample.empty 1000)); reflexivity.
Defined.

(** ** Bridge ids *)

Section Ids.

Lemma u_inj s1 s2 : u s1 = u s2 -> s1 = s2.
Proof.
  unfold u. intros H.
  rewrite <- (string_of_list_ascii_of_string s1), <- (string_of_list_ascii_of_string s2).
  f_equal. revert H. generalize (list_ascii_of_string s1) (list_ascii_of_string s2).
  induction l as [|a l IH]; intros [|b l']; simpl; try done.
  intros [= Hab Hl]. f_equal; [|by apply IH].
  by rewrite <- (ascii_N_embedding a), <- (ascii_N_embedding b), Hab.
Qed.

Lemma string_of_int_inj z1 z2 :
  NilZero.string_of_int (Z.to_int z1) = NilZero.string_of_int (Z.to_int z2) -> z1 = z2.
Proof.
  intros H. apply DecimalZ.to_int_inj.
  assert (forall z, Z.to_int z <> Decimal.Pos Decimal.Nil /\ Z.to_int z <> Decimal.Neg Decimal.Nil) as Hnn.
  { intros [|p|p]; simpl; split; try done; intros [= Hp];
      by apply (DecimalPos.Unsigned.to_uint_nonnil p). }
  assert (Some (Z.to_int z1) = Some (Z.to_int z2)) as [= ->]; [|done].
  rewrite <- (NilZero.isi (Z.to_int z1)), <- (NilZero.isi (Z.to_int z2)), H;
    [done|apply Hnn..].
Qed.

Lemma show_inj z1 z2 : show z1 = show z2 -> z1 = z2.
Proof. unfold show. intros H. by apply string_of_int_inj, u_inj. Qed.

(** The digits and the sign: no underscore. *)
Lemma string_of_uint_no_underscore d :
  Forall (fun c => c <> 95%N) (u (NilEmpty.string_of_uint d)).
Proof.
  unfold u. induction d; simpl; constructor; try done; exact IHd.
Qed.

Lemma show_no_underscore z : Forall (fun c => c <> 95%N) (show z).
Proof.
  unfold show.
  assert (forall d, Forall (fun c => c <> 95%N) (u (NilZero.string_of_uint d))) as Hu.
  { intros d. destruct d; try apply string_of_uint_no_underscore.
    unfold u. simpl. by constructor. }
  destruct (Z.to_int z) as [d|d]; simpl; [apply Hu|].
  unfold u. simpl. constructor; [done|apply Hu].
Qed.

Lemma split_at_first (x : N) l1 l2 r1 r2 :
  Forall (fun c => c <> x) l1 -> Forall (fun c => c <> x) l2 ->
  l1 ++ x :: r1 = l2 ++ x :: r2 -> l1 = l2.
Proof.
  revert l2. induction l1 as [|a l1 IH]; intros [|b l2] H1 H2; simpl; try done.
  - intros [= <- _]. apply Forall_cons in H2 as [H2 _]. done.
  - intros [= -> _]. apply Forall_cons in H1 as [H1 _]. done.
  - intros [= -> H]. apply Forall_cons in H1 as [_ H1]. apply Forall_cons in H2 as [_ H2].
    f_equal. by apply IH.
Qed.

(** The time can be read off a bridge id, whatever [Math.random] gave. *)
Lemma bridgeId_time t1 t2 r1 r2 :
  show t1 ++ u "_" ++ r1 = show t2 ++ u "_" ++ r2 -> t1 = t2.
Proof.
  intros H. apply show_inj.
  apply (split_at_first 95%N _ _ r1 r2); [apply show_no_underscore..|exact H].
Qed.

End Ids.

Section OtherRecords.
Variable CONFIG : Config.
Variable env : Env.

Lemma forwardOutcome_other {R} failure expiry bridgeId k (w w' : World R) :
  k <> bridgeId ->
  forwardOutcome CONFIG failure expiry bridgeId w w' ->
  Map_get k (activeMessages w') = Map_get k (activeMessages w).
Proof.
  intros Hne [(_ & -> & _)|[(_ & -> & _)|(_ & -> & _)]]; [done..|].
  apply Map_get_delete_ne. congruence.
Qed.

(** X19. A bridge id begins with the time of its event, and the time can
    be read off it whatever [Math.random] returned: the handler of an
    inbound event neither overwrites nor deletes a record whose id was
    made at another time, in any variant. *)
Theorem event_touches_no_record_of_another_time message t r :
  (forall w : World BridgeData.t,
     t <> clock w ->
     Map_get (show t ++ u "_" ++ r)
             (activeMessages (exec (Batch.handleWhatsAppMessage CONFIG env message) w))
     = Map_get (show t ++ u "_" ++ r) (activeMessages w))
  /\
  (forall w : World BridgeData.t,
     t <> clock w ->
     Map_get (show t ++ u "_" ++ r)
             (activeMessages (exec (Raw.handleWhatsAppMessage CONFIG env message) w))
     = Map_get (show t ++ u "_" ++ r) (activeMessages w))
  /\
  (forall w : World LiveBridgeData.t,
     t <> clock w ->
     Map_get (show t ++ u "_" ++ r)
             (activeMessages (exec (Live.handleWhatsAppMessage CONFIG env message) w))
     = Map_get (show t ++ u "_" ++ r) (activeMessages w)).
Proof.
  split; [|split]; intros w Ht;
    (assert (show t ++ u "_" ++ r <> freshId env w) as Hne
       by (unfold freshId; intros H; by apply bridgeId_time in H)).
  - destruct (admits CONFIG true message) eqn:Ha; [|unfold exec; by rewrite Batch_ignores].
    destruct (WaMessage.getChat message) as [chat|] eqn:Hchat;
      [|unfold exec; by rewrite (Batch_unresolved CONFIG env message w Ha (or_introl Hchat))].
    destruct (WaMessage.getContact message) as [contact|] eqn:Hcontact;
      [|unfold exec;
        by rewrite (Batch_unresolved CONFIG env message w Ha (or_intror Hcontact))].
    unfold exec. rewrite (Batch_admits CONFIG env _ chat contact _ Ha Hchat Hcontact).
    match goal with |- context [Batch.forward _ _ _ contact ?content ?k ?w0] =>
      destruct (Batch_forward_store CONFIG env message contact content k w0) as [Hs|Hs]
    end; unfold exec in Hs; rewrite Hs; unfold stored; cbn [activeMessages].
    + apply Map_get_set_ne. by apply not_eq_sym.
    + rewrite Map_get_delete_ne by (by apply not_eq_sym).
      apply Map_get_set_ne. by apply not_eq_sym.
  - destruct (admits CONFIG false message) eqn:Ha; [|unfold exec; by rewrite Raw_ignores].
    destruct (WaMessage.getChat message) as [chat|] eqn:Hchat;
      [|unfold exec; by rewrite (Raw_unresolved CONFIG env message w Ha (or_introl Hchat))].
    destruct (WaMessage.getContact message) as [contact|] eqn:Hcontact;
      [|unfold exec;
        by rewrite (Raw_unresolved CONFIG env message w Ha (or_intror Hcontact))].
    unfold exec. rewrite (Raw_admits CONFIG env _ chat contact _ Ha Hchat Hcontact).
    match goal with |- context [Raw.forward _ _ _ ?content ?k ?w0] =>
      destruct (Raw_forward_store CONFIG env message content k w0) as [Hs|Hs]
    end; unfold exec in Hs; rewrite Hs; unfold stored; cbn [activeMessages].
    + apply Map_get_set_ne. by apply not_eq_sym.
    + rewrite Map_get_delete_ne by (by apply not_eq_sym).
      apply Map_get_set_ne. by apply not_eq_sym.
  - destruct (admits CONFIG false message) eqn:Ha; [|unfold exec; by rewrite Live_ignores_event].
    destruct (WaMessage.getChat message) as [chat|] eqn:Hchat;
      [|unfold exec; by rewrite (Live_unresolved CONFIG env message w Ha (or_introl Hchat))].
    destruct (WaMessage.getContact message) as [contact|] eqn:Hcontact;
      [|unfold exec;
        by rewrite (Live_unresolved CONFIG env message w Ha (or_intror Hcontact))].
    unfold exec. rewrite (Live_admits CONFIG env _ chat contact _ Ha Hchat Hcontact).
    match goal with |- context [Live.forward _ _ _ chat contact ?content ?k ?w0] =>
      destruct (Live_forward_store CONFIG env message chat contact content k w0) as [Hs|Hs]
    end; unfold exec in Hs; rewrite Hs; unfold stored; cbn [activeMessages].
    + apply Map_get_set_ne. by apply not_eq_sym.
    + rewrite Map_get_delete_ne by (by apply not_eq_sym).
      apply Map_get_set_ne. by apply not_eq_sym.
Qed.

End OtherRecords.

Lemma event_touches_no_record_of_another_time_witness :
  Map_get (show 1 ++ u "_" ++ u "a")
          (activeMessages
             (exec (Batch.handleWhatsAppMessage Sample.CONFIG channelRefuses
                      Sample.ping)
                   Sample.twoActive))
  = Map_get (show 1 ++ u "_" ++ u "a") (activeMessages Sample.twoActive).
Proof.
  destruct (event_touches_no_record_of_another_time Sample.CONFIG channelRefuses
              Sample.ping 1 (u "a")) as [H _].
  apply (H Sample.twoActive). by vm_compute.
Defined.

(** ** What else the flush changes *)

Section FlushWorld.
Variable env : Env.
Hypothesis Hok : forall n chat p, deliver env n chat p = true.

(** X20. In both batch variants, when every send to platform A succeeds
    and the scratch files of the collected replies are in place, each
    under a path of its own, the flush deletes the record and the scratch
    files of its replies and nothing else: every other record stays as it
    is, no timer is set, no other file is touched. It pauses one second
    after every reply, so that a flush of N replies takes N seconds. *)
Theorem flush_deletes_its_files_and_takes_a_second_per_reply
    bridgeId bridgeData (w : World BridgeData.t) :
  Map_get bridgeId (activeMessages w) = Some bridgeData ->
  NoDup (scratchPaths (BridgeData.responses bridgeData)) ->
  (forall p, p ∈ scratchPaths (BridgeData.responses bridgeData) ->
             is_Some (files w !! p)) ->
  let responses := BridgeData.responses bridgeData in
  (let w' := exec (Batch.processCollectedResponses env bridgeId) w in
   activeMessages w' = Map_delete bridgeId (activeMessages w)
   /\ files w' = foldl (fun fs p => delete p fs) (files w) (scratchPaths responses)
   /\ timers w' = timers w
   /\ clock w' = clock w + 1000 * Z.of_nat (length responses))
  /\
  (let w' := exec (Raw.processCollectedResponses env bridgeId) w in
   activeMessages w' = Map_delete bridgeId (activeMessages w)
   /\ files w' = foldl (fun fs p => delete p fs) (files w) (scratchPaths responses)
   /\ timers w' = timers w
   /\ clock w' = clock w + 1000 * Z.of_nat (length responses)).
Proof.
  intros Hget Hnd Hex. cbv zeta. split.
  - unfold Batch.processCollectedResponses, exec, bind, activeMessages_get.
    rewrite Hget. cbn. unfold try_finally, try_catch.
    destruct (BridgeData.responses bridgeData) as [|r rs] eqn:Hrs.
    + cbn. rewrite sendMessage_ok by done. cbn. repeat split; lia.
    + cbn [length Nat.eqb].
      rewrite (for_of_delivered (BridgeData.whatsappChat bridgeData)
                 (Batch.sendResponse env (BridgeData.whatsappChat bridgeData))
                 Batch_relayed
                 (fun response => map Descriptor.path (Response.attachments response))
                 (fun _ => 1000));
        [|intros; by apply Batch_relayed_local
         |intros; by apply Batch_sendResponse_ok|done|done].
      rewrite sendMessage_ok by done. rewrite delivered_delivered.
      unfold activeMessages_delete, modify, delivered. cbn -[Z.mul Z.of_nat].
      repeat split.
      * by rewrite app_nil_r.
      * rewrite (foldr_sleep rs). lia.
  - unfold Raw.processCollectedResponses, exec, bind, activeMessages_get.
    rewrite Hget. cbn. unfold try_finally, try_catch.
    destruct (BridgeData.responses bridgeData) as [|r rs] eqn:Hrs.
    + cbn. rewrite sendMessage_ok by done. cbn. repeat split; lia.
    + cbn [length Nat.eqb].
      rewrite (for_of_delivered (BridgeData.whatsappChat bridgeData)
                 (Raw.sendResponse env (BridgeData.whatsappChat bridgeData))
                 (Raw_relayed env)
                 (fun response => map Descriptor.path (Response.attachments response))
                 (fun _ => 1000));
        [|intros; by apply Raw_relayed_local
         |intros; by apply Raw_sendResponse_ok|done|done].
      unfold activeMessages_delete, modify, delivered. cbn -[Z.mul Z.of_nat].
      repeat split. rewrite (foldr_sleep rs). lia.
Qed.

End FlushWorld.

Lemma flush_deletes_its_files_and_takes_a_second_per_reply_witness :
  let fs : gmap str str :=
    {[ u "/tmp/1_a_notes.txt" := u "remember the milk"; u "/tmp/1_a_cat.png" := u "PNG";
       u "/tmp/2_b_cat.png" := u "PNG" ]} in
  let responses :=
    [Sample.said (u "see the notes") [Sample.notesFile];
     Sample.said (u "") [Sample.catFile]] in
  let w := Sample.due responses fs in
  let w' := exec (Batch.processCollectedResponses Sample.reliable (u "1_a")) w in
  activeMessages w' = []
  /\ files w' = foldl (fun fs p => delete p fs) fs (scratchPaths responses)
  /\ timers w' = []
  /\ clock w' = 120000 + 1000 * 2.
Proof.
  cbv zeta.
  apply (flush_deletes_its_files_and_takes_a_second_per_reply Sample.reliable
           (fun _ _ _ => eq_refl) (u "1_a")
           (Sample.record Sample.alice 0
              [Sample.said (u "see the notes") [Sample.notesFile];
               Sample.said (u "") [Sample.catFile]])).
  - reflexivity.
  - apply (bool_decide_unpack _). by vm_compute.
  - intros p Hp. apply (bool_decide_unpack _).
    apply list_elem_of_In in Hp. vm_compute in Hp.
    destruct Hp as [<-|[<-|[]]]; by vm_compute.
Defined.
